(** * Trend: the news ingestion pipeline of [dashboard-jombang-flask/app.py]

    A shallow embedding of the pipeline (categorizer, date normalizer, the
    source adapters, the SQLite-backed article store, the crawl orchestrator
    and the daily-count query) together with the properties its
    specification states about it.

    Conventions.
    - Python [str] values are [string]s; an [ascii] stands for one character.
    - Python values that may be [None] are [pyval]s; the dicts the adapters
      build are [gmap string pyval].
    - A call that may raise returns a [result]; code that reads the wall
      clock runs in the monad [M], whose state is the number of clock
      readings taken so far.
    - Library functions whose behaviour is not part of this program
      ([str.lower], [datetime.strptime], SQLite's [datetime()], the network)
      are parameters of the section [Program]. *)

From Stdlib Require Import ZArith Lia Bool List String Ascii.
From stdpp Require Import gmap strings list fin_maps sorting.

Local Open Scope string_scope.
Local Open Scope Z_scope.
Local Open Scope list_scope.

(** ** Python values and exceptions *)

Inductive exn : Set :=
| TypeError | ValueError | KeyError | OverflowError.

Inductive result (A : Type) : Type :=
| Ok (a : A)
| Raise (e : exn).

Arguments Ok {A} a.
Arguments Raise {A} e.

Inductive pyval : Set :=
| PyNone
| PyStr (s : string).

#[global] Instance pyval_eq_dec : EqDecision pyval.
Proof. solve_decision. Defined.

(** Python truthiness of [None] and of a [str]. *)
Definition truthy (v : pyval) : bool :=
  match v with
  | PyNone => false
  | PyStr EmptyString => false
  | PyStr (String _ _) => true
  end.

(** [d.get(k, dflt)] on a dict. *)
Definition dict_get (d : gmap string pyval) (k : string) (dflt : pyval) : pyval :=
  default dflt (d !! k).

(** [x + y] on two values that are [str] or [None]. *)
Definition py_add (x y : pyval) : result pyval :=
  match x, y with
  | PyStr a, PyStr b => Ok (PyStr (a +:+ b))
  | _, _ => Raise TypeError
  end.

(** ** Strings *)

(** [kw in t]: [kw] occurs in [t] as a contiguous run of characters. *)
Fixpoint str_contains (kw t : string) : bool :=
  String.prefix kw t ||
  match t with
  | EmptyString => false
  | String _ t' => str_contains kw t'
  end.

(** [s.startswith(p)]. *)
Definition startswith (s p : string) : bool := String.prefix p s.

(** [s.count(c)] for a one-character needle. *)
Fixpoint count_char (c : ascii) (s : string) : Z :=
  match s with
  | EmptyString => 0
  | String c' s' => (if Ascii.eqb c c' then 1 else 0) + count_char c s'
  end.

(** [str.lower] on the ASCII letters; the instance of the parameter
    [str_lower] used to run the definitions on ASCII text. *)
Definition ascii_lower_char (c : ascii) : ascii :=
  let n := nat_of_ascii c in
  if (Nat.leb 65 n && Nat.leb n 90)%bool then ascii_of_nat (n + 32) else c.

Fixpoint ascii_lower (s : string) : string :=
  match s with
  | EmptyString => EmptyString
  | String c s' => String (ascii_lower_char c) (ascii_lower s')
  end.

(** The decimal digit [d] as a character, and [n] written with [width]
    decimal digits (["%0<width>d" % n] for [0 <= n < 10 ^ width]). *)
Definition digit_char (d : Z) : ascii := ascii_of_nat (48 + Z.to_nat d).

Fixpoint zero_padded (width : nat) (n : Z) : string :=
  match width with
  | O => EmptyString
  | S w => zero_padded w (n / 10) +:+ String (digit_char (n mod 10)) EmptyString
  end.

Definition digit_value (c : ascii) : option Z :=
  let n := nat_of_ascii c in
  if (Nat.leb 48 n && Nat.leb n 57)%bool then Some (Z.of_nat n - 48) else None.

Fixpoint digits_value (acc : Z) (s : string) : option Z :=
  match s with
  | EmptyString => Some acc
  | String c s' =>
      match digit_value c with
      | Some d => digits_value (10 * acc + d) s'
      | None => None
      end
  end.

(** [int(s)] on a text that is a plain run of decimal digits; any other
    text met in this program (the pattern groups of [parse_id_date]) makes
    [int] raise [ValueError]. *)
Definition py_int (s : string) : result Z :=
  match s with
  | EmptyString => Raise ValueError
  | String _ _ =>
      match digits_value 0 s with
      | Some n => Ok n
      | None => Raise ValueError
      end
  end.

(** ** The proleptic Gregorian calendar of [datetime]

    The functions of the [datetime] module through which [date.toordinal],
    [date.fromordinal] and the arithmetic with [timedelta] go; day 1 is
    1 January of year 1. *)

Definition _is_leap (year : Z) : bool :=
  (year mod 4 =? 0) && (negb (year mod 100 =? 0) || (year mod 400 =? 0)).

Definition _days_before_year (year : Z) : Z :=
  let y := year - 1 in y * 365 + y / 4 - y / 100 + y / 400.

Definition _DAYS_IN_MONTH (month : Z) : Z :=
  match month with
  | 1 => 31 | 2 => 28 | 3 => 31 | 4 => 30 | 5 => 31 | 6 => 30
  | 7 => 31 | 8 => 31 | 9 => 30 | 10 => 31 | 11 => 30 | 12 => 31
  | _ => -1
  end.

Definition _DAYS_BEFORE_MONTH (month : Z) : Z :=
  match month with
  | 1 => 0 | 2 => 31 | 3 => 59 | 4 => 90 | 5 => 120 | 6 => 151
  | 7 => 181 | 8 => 212 | 9 => 243 | 10 => 273 | 11 => 304 | 12 => 334
  | _ => -1
  end.

Definition _days_in_month (year month : Z) : Z :=
  if (month =? 2) && _is_leap year then 29 else _DAYS_IN_MONTH month.

Definition _days_before_month (year month : Z) : Z :=
  _DAYS_BEFORE_MONTH month + (if (2 <? month) && _is_leap year then 1 else 0).

Definition _ymd2ord (year month day : Z) : Z :=
  _days_before_year year + _days_before_month year month + day.

Definition _DI400Y : Z := 146097.
Definition _DI100Y : Z := 36524.
Definition _DI4Y : Z := 1461.
Definition _MAXORDINAL : Z := 3652059.

Definition _ord2ymd (n : Z) : Z * Z * Z :=
  let n := n - 1 in
  let n400 := n / _DI400Y in let n := n mod _DI400Y in
  let year := n400 * 400 + 1 in
  let n100 := n / _DI100Y in let n := n mod _DI100Y in
  let n4 := n / _DI4Y in let n := n mod _DI4Y in
  let n1 := n / 365 in let n := n mod 365 in
  let year := year + n100 * 100 + n4 * 4 + n1 in
  if (n1 =? 4) || (n100 =? 4) then (year - 1, 12, 31)
  else
    let leapyear := (n1 =? 3) && (negb (n4 =? 24) || (n100 =? 3)) in
    let month := Z.shiftr (n + 50) 5 in
    let preceding :=
      _DAYS_BEFORE_MONTH month + (if (2 <? month) && leapyear then 1 else 0) in
    let '(month, preceding) :=
      if n <? preceding
      then (month - 1,
            preceding - (_DAYS_IN_MONTH (month - 1)
                         + (if (month - 1 =? 2) && leapyear then 1 else 0)))
      else (month, preceding) in
    (year, month, n - preceding + 1).

(** A [date]: year, month, day. *)
Record date : Set := mkDate { d_year : Z; d_month : Z; d_day : Z }.

#[global] Instance date_eq_dec : EqDecision date.
Proof. solve_decision. Defined.

Definition date_toordinal (d : date) : Z :=
  _ymd2ord (d_year d) (d_month d) (d_day d).

Definition date_fromordinal (n : Z) : date :=
  let '(y, m, d) := _ord2ymd n in mkDate y m d.

(** [d + timedelta(days=i)]. *)
Definition date_add_days (d : date) (i : Z) : result date :=
  let o := date_toordinal d + i in
  if (0 <? o) && (o <=? _MAXORDINAL) then Ok (date_fromordinal o)
  else Raise OverflowError.

Definition date_isoformat (d : date) : string :=
  zero_padded 4 (d_year d) +:+ "-" +:+ zero_padded 2 (d_month d) +:+ "-"
  +:+ zero_padded 2 (d_day d).

(** A [datetime]; [utcoffset] is the offset of an aware value in seconds,
    [None] for a naive one. *)
Record datetime : Set := mkDatetime {
  year : Z; month : Z; day : Z;
  hour : Z; minute : Z; second : Z; microsecond : Z;
  utcoffset : option Z
}.

Definition datetime_date (dt : datetime) : date :=
  mkDate (year dt) (month dt) (day dt).

Definition _format_time (hh mm ss us : Z) : string :=
  zero_padded 2 hh +:+ ":" +:+ zero_padded 2 mm +:+ ":" +:+ zero_padded 2 ss
  +:+ (if us =? 0 then EmptyString else "." +:+ zero_padded 6 us).

Definition _format_offset (off : option Z) : string :=
  match off with
  | None => EmptyString
  | Some o =>
      let sign := if o <? 0 then "-" else "+" in
      let a := Z.abs o in
      let hh := a / 3600 in
      let mm := (a mod 3600) / 60 in
      let ss := (a mod 3600) mod 60 in
      sign +:+ zero_padded 2 hh +:+ ":" +:+ zero_padded 2 mm
      +:+ (if ss =? 0 then EmptyString else ":" +:+ zero_padded 2 ss)
  end.

Definition isoformat (dt : datetime) : string :=
  date_isoformat (datetime_date dt) +:+ "T"
  +:+ _format_time (hour dt) (minute dt) (second dt) (microsecond dt)
  +:+ _format_offset (utcoffset dt).

(** [datetime(y, mon, d)]: midnight of a valid calendar day, [ValueError]
    otherwise. *)
Definition datetime_of_ymd (y mon d : Z) : result datetime :=
  if (1 <=? y) && (y <=? 9999) && (1 <=? mon) && (mon <=? 12)
     && (1 <=? d) && (d <=? _days_in_month y mon)
  then Ok (mkDatetime y mon d 0 0 0 0 None)
  else Raise ValueError.

(** [dt - timedelta(days=days)]: [timedelta] refuses more than 999999999
    days, and the difference must stay within years 1..9999. *)
Definition datetime_sub_days (dt : datetime) (days : Z) : result datetime :=
  if 999999999 <? Z.abs days then Raise OverflowError
  else
    let o := date_toordinal (datetime_date dt) - days in
    if (0 <? o) && (o <=? _MAXORDINAL) then
      let d := date_fromordinal o in
      Ok (mkDatetime (d_year d) (d_month d) (d_day d)
            (hour dt) (minute dt) (second dt) (microsecond dt) (utcoffset dt))
    else Raise OverflowError.

(** [range(n)]. *)
Definition range (n : Z) : list Z := map Z.of_nat (seq 0 (Z.to_nat n)).

(** ** Regular expressions ([re.search])

    The fragment of [re] patterns the program uses: literal characters,
    concatenation, alternation, greedy bounded or unbounded repetition and
    numbered capturing groups, matched by backtracking as [re] does. *)

Inductive regex : Set :=
| Eps
| Chr (c : ascii)
| Seq (r1 r2 : regex)
| Alt (r1 r2 : regex)
| Rep (r : regex) (lo : nat) (hi : option nat)
| Grp (n : nat) (r : regex).

Arguments Rep r lo%_nat hi.
Arguments Grp n%_nat r.

(** The text consumed between [s] and its suffix [s']. *)
Definition consumed (s s' : string) : string :=
  substring 0 (String.length s - String.length s') s.

Definition below (cnt : nat) (hi : option nat) : bool :=
  match hi with
  | None => true
  | Some h => Nat.ltb cnt h
  end.

(** [rmatch r s caps k]: match [r] at the start of [s], then hand the rest
    of the text and the groups captured so far to the continuation [k];
    [None] when every alternative has failed. *)
Fixpoint rmatch {R : Type} (r : regex) (s : string) (caps : gmap nat string)
    (k : string -> gmap nat string -> option R) : option R :=
  match r with
  | Eps => k s caps
  | Chr c =>
      match s with
      | String c' s' => if Ascii.eqb c c' then k s' caps else None
      | EmptyString => None
      end
  | Seq r1 r2 => rmatch r1 s caps (fun s' caps' => rmatch r2 s' caps' k)
  | Alt r1 r2 =>
      match rmatch r1 s caps k with
      | Some x => Some x
      | None => rmatch r2 s caps k
      end
  | Grp n r1 =>
      rmatch r1 s caps (fun s' caps' => k s' (<[n := consumed s s']> caps'))
  | Rep r1 lo hi =>
      (fix rep (fuel cnt : nat) (s : string) (caps : gmap nat string)
           {struct fuel} : option R :=
         let stop := if Nat.leb lo cnt then k s caps else None in
         match fuel with
         | O => stop
         | S fuel' =>
             if below cnt hi then
               match rmatch r1 s caps
                       (fun s' caps' =>
                          if Nat.ltb (String.length s') (String.length s)
                          then rep fuel' (S cnt) s' caps'
                          else None) with
               | Some x => Some x
               | None => stop
               end
             else stop
         end) (String.length s) O s caps
  end.

(** [re.search(r, s)]: the groups of the leftmost match, if any. *)
Fixpoint re_search (r : regex) (s : string) : option (gmap nat string) :=
  match rmatch r s ∅ (fun _ caps => Some caps) with
  | Some caps => Some caps
  | None =>
      match s with
      | EmptyString => None
      | String _ s' => re_search r s'
      end
  end.

(** A literal text, and an alternation of literal texts. *)
Fixpoint lit (s : string) : regex :=
  match s with
  | EmptyString => Eps
  | String c s' => Seq (Chr c) (lit s')
  end.

Fixpoint one_of (alts : list string) : regex :=
  match alts with
  | [] => Rep Eps 1 (Some 0%nat)
  | [a] => lit a
  | a :: rest => Alt (lit a) (one_of rest)
  end.

Definition backslash : ascii := ascii_of_nat 92.
Definition dquote : ascii := ascii_of_nat 34.

(** ** The article store

    The SQLite table [articles] of [init_db]:
    [title], [url], [source], [published_at] and [created_at] are
    [TEXT NOT NULL], [url] is [UNIQUE], [category] is a nullable [TEXT].
    Rows are kept in insertion order; the surrogate [id] of a row is its
    position, and no statement of the program reads it. *)

Record article : Set := mkArticle {
  title : string;
  url : string;
  source : string;
  published_at : string;
  created_at : string;
  category : pyval
}.

#[global] Instance article_eq_dec : EqDecision article.
Proof. solve_decision. Defined.

Definition has_url (u : string) (db : list article) : bool :=
  existsb (fun r => String.eqb (url r) u) db.

(** [INSERT OR IGNORE INTO articles (title, url, source, published_at,
    created_at, category) VALUES (?, ?, ?, ?, ?, ?)]: the new table and the
    statement's [rowcount].  Under [OR IGNORE] a row that violates a
    [NOT NULL] or the [UNIQUE] constraint is skipped without an error. *)
Definition insert_or_ignore (db : list article)
    (v_title v_url v_source v_published_at v_created_at v_category : pyval)
    : list article * Z :=
  match v_title, v_url, v_source, v_published_at, v_created_at with
  | PyStr t, PyStr u, PyStr s, PyStr p, PyStr c =>
      if has_url u db then (db, 0)
      else (db ++ [mkArticle t u s p c v_category], 1)
  | _, _, _, _, _ => (db, 0)
  end.

(** [cur.execute] of that statement. *)
Definition cur_execute_insert (db : list article)
    (v_title v_url v_source v_published_at v_created_at v_category : pyval)
    : result (list article * Z) :=
  Ok (insert_or_ignore db v_title v_url v_source v_published_at v_created_at
        v_category).

(** [substr(X, 1, 10)]. *)
Definition sql_substr_1_10 (x : string) : string := substring 0 10 x.

(** Text comparison [a >= b] under the default [BINARY] collation. *)
Definition sql_text_ge (a b : string) : bool := String.leb b a.

Definition count_of (k : string) (keys : list string) : Z :=
  Z.of_nat (List.length (List.filter (String.eqb k) keys)).

(** [SELECT d, COUNT( * ) ... GROUP BY d ORDER BY d ASC] over the list of the
    selected rows' [d]: one result row per distinct [d], ascending. *)
Definition group_count (keys : list string) : list (string * Z) :=
  map (fun k => (k, count_of k keys)) (merge_sort String.le (remove_dups keys)).

(** ** Parsed documents

    What the adapters read from a [BeautifulSoup] document. *)

(** A [<time>] element: its [datetime] attribute and its stripped text. *)
Record time_tag : Set := mkTime { tt_datetime : pyval; tt_text : string }.

(** An [<a>] element: its stripped text, its [href] attribute and, when it
    has an enclosing [<article>], that article's first [<time>] element. *)
Record anchor : Set := mkAnchor {
  a_text : string;
  a_href : pyval;
  a_parent_article : option (option time_tag)
}.

Record document : Type := mkDocument {
  doc_select : string -> list anchor;   (* soup.select(selector) *)
  doc_time : option time_tag;           (* soup.find("time") *)
  doc_heading : option string;          (* soup.find(["h1","h2","h3"]), stripped text *)
  doc_text : string                     (* soup.get_text(" ", strip=True) *)
}.

(** The timestamp text read off a [<time>] element: the machine-readable
    attribute when it is non-empty, else the display text when it is
    non-empty, else nothing. *)
Definition time_tag_text (tm : option time_tag) : pyval :=
  match tm with
  | Some t =>
      if truthy (tt_datetime t) then tt_datetime t
      else if truthy (PyStr (tt_text t)) then PyStr (tt_text t)
      else PyNone
  | None => PyNone
  end.

(** The dict literal every adapter appends. *)
Definition mk_item (v_title v_url : pyval) (v_source : string) (v_pub : pyval)
    : gmap string pyval :=
  <["title" := v_title]> (<["url" := v_url]> (<["source" := PyStr v_source]>
    (<["published_at" := v_pub]> ∅))).

(** ** Computations that read the clock and may raise *)

(** A computation takes the number of clock readings made so far and
    returns a value or an exception, with the new number of readings. *)
Definition M (A : Type) : Type := nat -> result A * nat.

Definition ret {A : Type} (a : A) : M A := fun t => (Ok a, t).

Definition bind {A B : Type} (m : M A) (f : A -> M B) : M B :=
  fun t =>
    match m t with
    | (Ok a, t') => f a t'
    | (Raise e, t') => (Raise e, t')
    end.

Definition lift {A : Type} (r : result A) : M A := fun t => (r, t).

Notation "x <- m ;; k" := (bind m (fun x => k))
  (at level 100, m at next level, right associativity, only parsing).

(** A [for] loop that threads an accumulator; an exception in the body
    leaves the loop. *)
Fixpoint foldM {A S : Type} (body : S -> A -> M S) (acc : S) (xs : list A) : M S :=
  match xs with
  | [] => ret acc
  | x :: xs' => acc' <- body acc x ;; foldM body acc' xs'
  end.

Definition rbind {A B : Type} (r : result A) (f : A -> result B) : result B :=
  match r with
  | Ok a => f a
  | Raise e => Raise e
  end.

Fixpoint mapM_result {A B : Type} (f : A -> result B) (xs : list A)
    : result (list B) :=
  match xs with
  | [] => Ok []
  | x :: xs' =>
      rbind (f x) (fun y => rbind (mapM_result f xs') (fun ys => Ok (y :: ys)))
  end.


(** ** Instances of the library parameters, for running the definitions

    Each is the library function restricted to the inputs named; outside
    them it reports failure. *)

(** The decimal number written in the [len] characters of [s] from [pos]. *)
Definition field (s : string) (pos len : nat) : option Z :=
  let f := substring pos len s in
  if Nat.eqb (String.length f) len then digits_value 0 f else None.

Arguments field s (pos len)%_nat.

Definition char_at (s : string) (pos : nat) (c : ascii) : bool :=
  match String.get pos s with
  | Some c' => Ascii.eqb c c'
  | None => false
  end.

Arguments char_at s pos%_nat c%_char.

Definition valid_ymd (y m d : Z) : bool :=
  (1 <=? y) && (y <=? 9999) && (1 <=? m) && (m <=? 12)
  && (1 <=? d) && (d <=? _days_in_month y m).

Definition valid_hms (hh mm ss : Z) : bool :=
  (hh <=? 23) && (mm <=? 59) && (ss <=? 59).

(** [datetime.strptime] on zero-padded, fixed-width texts for the formats
    [%Y-%m-%d], [%Y-%m-%dT%H:%M:%S] and [%d/%m/%Y]. *)
Definition strptime_fixed_width (s fmt : string) : option datetime :=
  if String.eqb fmt "%Y-%m-%d" then
    if Nat.eqb (String.length s) 10%nat && char_at s 4 "-" && char_at s 7 "-" then
      match field s 0 4, field s 5 2, field s 8 2 with
      | Some y, Some m, Some d =>
          if valid_ymd y m d then Some (mkDatetime y m d 0 0 0 0 None) else None
      | _, _, _ => None
      end
    else None
  else if String.eqb fmt "%Y-%m-%dT%H:%M:%S" then
    if Nat.eqb (String.length s) 19%nat && char_at s 4 "-" && char_at s 7 "-"
       && char_at s 10 "T" && char_at s 13 ":" && char_at s 16 ":" then
      match field s 0 4, field s 5 2, field s 8 2,
            field s 11 2, field s 14 2, field s 17 2 with
      | Some y, Some m, Some d, Some hh, Some mm, Some ss =>
          if valid_ymd y m d && valid_hms hh mm ss
          then Some (mkDatetime y m d hh mm ss 0 None) else None
      | _, _, _, _, _, _ => None
      end
    else None
  else if String.eqb fmt "%d/%m/%Y" then
    if Nat.eqb (String.length s) 10%nat && char_at s 2 "/" && char_at s 5 "/" then
      match field s 6 4, field s 3 2, field s 0 2 with
      | Some y, Some m, Some d =>
          if valid_ymd y m d then Some (mkDatetime y m d 0 0 0 0 None) else None
      | _, _, _ => None
      end
    else None
  else None.

(** SQLite's [datetime()] on a valid [YYYY-MM-DD], optionally followed by
    [T] or a blank and [HH:MM:SS], optionally followed by a fraction of six
    digits: the same instant as [YYYY-MM-DD HH:MM:SS]. *)
Definition sqlite_datetime_iso (s : string) : option string :=
  let n := String.length s in
  if char_at s 4 "-" && char_at s 7 "-" then
    match field s 0 4, field s 5 2, field s 8 2 with
    | Some y, Some m, Some d =>
        if valid_ymd y m d then
          if Nat.eqb n 10%nat then Some (s +:+ " 00:00:00")
          else if (Nat.eqb n 19%nat || (Nat.eqb n 26%nat && char_at s 19 "."
                                    && bool_decide (is_Some (field s 20 6))))
                  && (char_at s 10 "T" || char_at s 10 " ")
                  && char_at s 13 ":" && char_at s 16 ":" then
            match field s 11 2, field s 14 2, field s 17 2 with
            | Some hh, Some mm, Some ss =>
                if valid_hms hh mm ss
                then Some (substring 0 10 s +:+ " " +:+ substring 11 8 s)
                else None
            | _, _, _ => None
            end
          else None
        else None
    | _, _, _ => None
    end
  else None.

(** A clock that starts on 25 August 2025, 12:00:00 UTC and advances by one
    second at every reading. *)
Definition sample_clock (n : nat) : datetime :=
  let secs := Z.of_nat n in
  mkDatetime 2025 8 25 (12 + secs / 3600) ((secs / 60) mod 60) (secs mod 60) 0
    None.

(** A network on which the two listings below answer with one link each and
    every article page fails. *)
Definition listing_of (href : string) : document :=
  mkDocument (fun _ => [mkAnchor "Bupati resmikan jalan" (PyStr href) None])
    None None EmptyString.

Definition listings_only (u : string) : option document :=
  if String.eqb u "https://www.jombangkab.go.id/berita"
  then Some (listing_of "/berita/daerah/bupati-resmikan-jalan-1")
  else if String.eqb u "https://www.detik.com/search/searchall?query=Jombang"
  then Some (listing_of "/jatim/berita/d-1/bupati-resmikan-jalan")
  else None.

(** Sample adapter output. *)
Definition item_jalan : gmap string pyval :=
  mk_item (PyStr "Bupati resmikan jalan") (PyStr "https://x/1") "s1"
    (PyStr "2024-01-01T00:00:00").

Definition item_jalan_retitled : gmap string pyval :=
  mk_item (PyStr "Jalan baru diresmikan") (PyStr "https://x/1") "s1"
    (PyStr "2024-01-02T00:00:00").

Definition item_pasar : gmap string pyval :=
  mk_item (PyStr "Harga pasar naik") (PyStr "https://x/2") "s2"
    (PyStr "2024-01-03T00:00:00").

Definition item_slash_date : gmap string pyval :=
  mk_item (PyStr "Bupati resmikan jalan") (PyStr "https://x/1") "s1"
    (PyStr "25/08/2025").

Definition item_no_timestamp : gmap string pyval :=
  mk_item (PyStr "Bupati resmikan jalan") (PyStr "https://x/1") "detik.com"
    PyNone.

Definition item_empty_url : gmap string pyval :=
  mk_item (PyStr "Bupati resmikan jalan") (PyStr EmptyString) "s1"
    (PyStr "2024-01-01T00:00:00").

Definition item_no_url : gmap string pyval :=
  mk_item (PyStr "Bupati resmikan jalan") PyNone "beritajombang.com"
    (PyStr "2024-01-01T00:00:00").

Definition item_no_title : gmap string pyval :=
  mk_item PyNone (PyStr "https://x/3") "s1" (PyStr "2024-01-01T00:00:00").

(** Sample adapters: one that returns [item_jalan], one that returns
    [item_pasar], one whose call raises. *)
Definition adapter_jalan : M (list (gmap string pyval)) :=
  fun t => (Ok [item_jalan], t).

Definition adapter_pasar : M (list (gmap string pyval)) :=
  fun t => (Ok [item_pasar], t).

Definition adapter_down : M (list (gmap string pyval)) :=
  fun t => (Raise ValueError, t).

(** A stored table with one article dated later on the day of the call
    (the clock reads 12:00:00, the source wrote 18:00:00) and one dated on
    the first day of a seven-day window, before the window's first
    instant. *)
Definition trend_db : list article :=
  [mkArticle "Harga pasar naik" "https://x/2" "s2" "2025-08-25T18:00:00"
     "2025-08-25T11:00:00" (PyStr "Ekonomi");
   mkArticle "Bupati resmikan jalan" "https://x/1" "s1" "2025-08-18T08:00:00"
     "2025-08-18T09:00:00" (PyStr "Pemerintahan")].

(** Further sample data. *)

(** An item with a summary and no title. *)
Definition item_summary_only : gmap string pyval :=
  <["summary" := PyStr "Ringkasan berita"]>
    (mk_item PyNone (PyStr "https://x/4") "s1" (PyStr "2024-01-04T00:00:00")).

(** An adapter whose batch holds a good item and one that makes
    [save_articles] raise. *)
Definition adapter_bad_batch : M (list (gmap string pyval)) :=
  fun t => (Ok [item_pasar; item_summary_only], t).

(** An article page with a heading and no [<time>] element. *)
Definition page_untimed : document :=
  mkDocument (fun _ => []) None (Some "Bupati resmikan jalan")
    "Jombang, 25 Agustus 2025 - Bupati resmikan jalan".

(** A listing page that answers the selector [sel] with [anchors]. *)
Definition listing_page (sel : string) (anchors : list anchor) : document :=
  mkDocument (fun s => if String.eqb s sel then anchors else []) None None
    EmptyString.

(** A network with four listings and two article pages. *)
Definition sample_network (u : string) : option document :=
  if String.eqb u "https://beritajombang.com/" then
    Some (listing_page "h2.entry-title a"
            [mkAnchor "Pasar murah dibuka"
               (PyStr "https://beritajombang.com/pasar-murah")
               (Some (Some (mkTime (PyStr "2025-08-24T09:00:00") EmptyString)));
             mkAnchor "Jalan desa diperbaiki"
               (PyStr "https://beritajombang.com/jalan-desa") None])
  else if String.eqb u "https://kabarjombang.com/" then
    Some (listing_page "h2.entry-title a"
            [mkAnchor "Turnamen voli dibuka"
               (PyStr "https://kabarjombang.com/voli") None;
             mkAnchor "Tanpa tautan" PyNone None])
  else if String.eqb u "https://www.jombangkab.go.id/berita" then
    Some (mkDocument
            (fun _ => [mkAnchor "Bupati resmikan jalan"
                         (PyStr "/berita/daerah/bupati-resmikan-jalan-1") None;
                       mkAnchor "Selengkapnya"
                         (PyStr "/berita/daerah/bupati-resmikan-jalan-1") None])
            None None EmptyString)
  else if String.eqb u
            "https://www.jombangkab.go.id/berita/daerah/bupati-resmikan-jalan-1"
  then Some page_untimed
  else if String.eqb u "https://www.detik.com/search/searchall?query=Jombang"
  then Some (listing_of "/jatim/berita/d-1/bupati-resmikan-jalan")
  else if String.eqb u
            "https://www.detik.com/jatim/berita/d-1/bupati-resmikan-jalan"
  then Some page_untimed
  else None.

(** A network on which nothing answers. *)
Definition network_down (u : string) : option document := None.

(** An article page whose text spells out the date pattern itself, with
    its backslashes. *)
Definition page_pattern_text : document :=
  mkDocument (fun _ => []) None (Some "Pola tanggal")
    (String backslash ("d" +:+ String backslash ("sAgustus"
       +:+ String backslash ("s" +:+ String backslash "dddd")))).

(** A network on which the [jombangkab.go.id] listing names that page. *)
Definition network_pattern_text (u : string) : option document :=
  if String.eqb u "https://www.jombangkab.go.id/berita" then
    Some (listing_of "/berita/daerah/pola-tanggal-1")
  else if String.eqb u
            "https://www.jombangkab.go.id/berita/daerah/pola-tanggal-1"
  then Some page_pattern_text
  else None.

(** An item whose title names no keyword and whose summary names one. *)
Definition item_with_summary : gmap string pyval :=
  <["summary" := PyStr "Polisi turun tangan"]>
    (mk_item (PyStr "Harga naik") (PyStr "https://x/5") "s5"
       (PyStr "2024-01-05T00:00:00")).

Abbreviation item := (gmap string pyval) (only parsing).

(** ** The long-form Indonesian date of [scraper_jombangkab] *)

Definition bulan : gmap string Z :=
  list_to_map
    [("Januari", 1); ("Februari", 2); ("Maret", 3); ("April", 4); ("Mei", 5);
     ("Juni", 6); ("Juli", 7); ("Agustus", 8); ("September", 9);
     ("Oktober", 10); ("November", 11); ("Desember", 12)].

Definition MONTH_NAMES : list string :=
  ["Januari"; "Februari"; "Maret"; "April"; "Mei"; "Juni"; "Juli"; "Agustus";
   "September"; "Oktober"; "November"; "Desember"].

(** The pattern of [parse_id_date], which the source writes as the raw
    string [r'(\\d{1,2})\\s+(Januari|...|Desember)\\s+(\\d{4})'].  In a raw
    string both backslashes of [\\] reach [re], where [\\] is an escaped,
    literal backslash; the [d] and [s] after it are ordinary letters, and
    the quantifiers [{1,2}], [+] and [{4}] apply to those letters. *)
Definition ID_DATE_PATTERN : regex :=
  Seq (Grp 1 (Seq (Chr backslash) (Rep (Chr "d"%char) 1 (Some 2%nat))))
 (Seq (Chr backslash) (Seq (Rep (Chr "s"%char) 1 None)
 (Seq (Grp 2 (one_of MONTH_NAMES))
 (Seq (Chr backslash) (Seq (Rep (Chr "s"%char) 1 None)
      (Grp 3 (Seq (Chr backslash) (Rep (Chr "d"%char) 4 (Some 4%nat))))))))).

(** [m.group(n)] of a successful match. *)
Definition group (caps : gmap nat string) (n : nat) : string :=
  default EmptyString (caps !! n).

Arguments group caps n%_nat.

Definition parse_id_date (txt : string) : result pyval :=
  if negb (truthy (PyStr txt)) then Ok PyNone
  else
    match re_search ID_DATE_PATTERN txt with
    | None => Ok PyNone
    | Some m =>
        rbind (py_int (group m 1)) (fun d =>
        rbind (match bulan !! group m 2 with
               | Some mon => Ok mon
               | None => Raise KeyError
               end) (fun mon =>
        rbind (py_int (group m 3)) (fun y =>
        match datetime_of_ymd y mon d with
        | Ok dt => Ok (PyStr (isoformat dt))
        | Raise _ => Ok PyNone
        end)))
    end.

Section Program.

(** [str.lower]. *)
Variable str_lower : string -> string.

(** [datetime.strptime(text, fmt)]; [None] when it raises [ValueError]. *)
Variable strptime : string -> string -> option datetime.

(** The wall clock: [clock n] is the value of the [n]-th call of
    [datetime.utcnow()]. *)
Variable clock : nat -> datetime.

(** SQLite's [datetime(X)] on a text; [None] is SQL [NULL]. *)
Variable sqlite_datetime : string -> option string.

(** [fetch(url)] followed by [raise_for_status()] and the parse of the body;
    [None] when the request or the status check raises. *)
Variable fetch : string -> option document.

Definition utcnow : M datetime := fun t => (Ok (clock t), S t).

(** *** Categorizer *)

Definition CATEGORY_KEYWORDS : list (string * list string) :=
  [("Pemerintahan", ["bupati"; "dprd"; "pemkab"; "peraturan"; "perda"; "kpu";
                     "pilkada"; "pemerintah"; "kabupaten"; "sekda"]);
   ("Ekonomi", ["ekonomi"; "investasi"; "pasar"; "umkm"; "industri";
                "pertanian"; "ekspor"; "impor"]);
   ("Olahraga", ["olahraga"; "sepakbola"; "voli"; "turnamen"; "liga"; "futsal";
                 "piala"; "pertandingan"]);
   ("Hukum", ["hukum"; "kriminal"; "polisi"; "pengadilan"; "kasus";
              "kejaksaan"; "penangkapan"; "sidang"])].

(** The inner loop [for kw in kws: if kw in t]. *)
Definition any_keyword_in (t : string) (kws : list string) : bool :=
  existsb (fun kw => str_contains kw t) kws.

(** The outer loop [for cat, kws in CATEGORY_KEYWORDS.items()]. *)
Fixpoint first_category (t : string) (table : list (string * list string))
    : option string :=
  match table with
  | [] => None
  | (cat, kws) :: rest =>
      if any_keyword_in t kws then Some cat else first_category t rest
  end.

Definition categorize (text : pyval) : string :=
  match text with
  | PyStr (String c s) =>
      let t := str_lower (String c s) in
      match first_category t CATEGORY_KEYWORDS with
      | Some cat => cat
      | None => "Lainnya"
      end
  | _ => "Lainnya"                                        (* not text *)
  end.

(** *** Source adapters *)

(** [pub] when it is truthy, else [datetime.utcnow().isoformat()]. *)
Definition or_utcnow (pub : pyval) : M pyval :=
  if truthy pub then ret pub
  else now <- utcnow ;; ret (PyStr (isoformat now)).

Definition scraper_beritajombang (limit : nat) : M (list item) :=
  match fetch "https://beritajombang.com/" with
  | None => ret []
  | Some soup =>
      foldM (fun items a =>
               let title := PyStr (a_text a) in
               let url := a_href a in
               let pub := match a_parent_article a with
                          | Some tm => time_tag_text tm
                          | None => PyNone
                          end in
               pub <- or_utcnow pub ;;
               ret (items ++ [mk_item title url "beritajombang.com" pub]))
            [] (take limit (doc_select soup "h2.entry-title a"))
  end.

Definition scraper_kabarjombang (limit : nat) : M (list item) :=
  match fetch "https://kabarjombang.com/" with
  | None => ret []
  | Some soup =>
      foldM (fun items a =>
               let title := PyStr (a_text a) in
               let url := a_href a in
               now <- utcnow ;;
               let pub := PyStr (isoformat now) in
               ret (items ++ [mk_item title url "kabarjombang.com" pub]))
            [] (take limit (doc_select soup "h2.entry-title a"
                            ++ doc_select soup "h3.post-title a"))
  end.

(** The selector [a[href*=/berita/]], whose attribute value the source
    writes between double quotes. *)
Definition BERITA_LINKS : string :=
  "a[href*=" +:+ String dquote ("/berita/" +:+ String dquote "]").

(** The candidate links of the [jombangkab.go.id] listing. *)
Definition jombangkab_links (soup : document) : list string :=
  foldl (fun links a =>
           match a_href a with
           | PyStr (String c h) =>
               let href := String c h in
               let href := if startswith href "/"
                           then "https://www.jombangkab.go.id" +:+ href
                           else href in
               if str_contains "/berita/" href && (5 <=? count_char "/"%char href)
               then links ++ [href] else links
           | _ => links
           end)
        [] (doc_select soup BERITA_LINKS).

(** De-duplication preserving order. *)
Definition dedup_ordered (links : list string) : list string :=
  snd (foldl (fun '(seen, ordered) u =>
                if decide (u ∈ (seen : gset string)) then (seen, ordered)
                else ({[u]} ∪ seen, ordered ++ [u]))
             (∅, []) links).

(** The body of the loop over the candidate links: the article page
    gives the title and the date. *)
Definition jombangkab_step (items : list item) (url : string)
    : M (list item) :=
  match fetch url with
  | None => ret items                                     (* continue *)
  | Some art =>
      let title := match doc_heading art with
                   | Some h => PyStr h
                   | None => PyNone
                   end in
      pub <- lift (parse_id_date (doc_text art)) ;;
      pub <- or_utcnow pub ;;
      if truthy title && truthy (PyStr url)
      then ret (items ++ [mk_item title (PyStr url) "jombangkab.go.id" pub])
      else ret items
  end.

Definition scraper_jombangkab (limit : nat) : M (list item) :=
  match fetch "https://www.jombangkab.go.id/berita" with
  | None => ret []
  | Some soup =>
      let links := take limit (dedup_ordered (jombangkab_links soup)) in
      foldM jombangkab_step [] links
  end.

(** The loop body shared, up to its constants, by [scraper_detik],
    [scraper_tribunjatim] and [scraper_wartajombang]: title and link come
    from the listing, the article page is fetched for its [<time>] only. *)
Definition listing_step (origin source : string) (items : list item)
    (a : anchor) : M (list item) :=
  match a_href a with
  | PyStr (String c h) =>
      let href := String c h in
      let url := if startswith href "http" then href else origin +:+ href in
      let title := PyStr (a_text a) in
      pub <- match fetch url with
             | Some s2 => ret (time_tag_text (doc_time s2))
             | None => now <- utcnow ;; ret (PyStr (isoformat now))  (* except *)
             end ;;
      ret (items ++ [mk_item title (PyStr url) source pub])
  | _ => ret items                                        (* continue *)
  end.

Definition scrape_listing (base selector origin source : string) (limit : nat)
    : M (list item) :=
  match fetch base with
  | None => ret []
  | Some soup =>
      foldM (listing_step origin source) []
        (take limit (doc_select soup selector))
  end.

Definition scraper_detik (limit : nat) : M (list item) :=
  scrape_listing "https://www.detik.com/search/searchall?query=Jombang"
    "article.search-result a" "https://www.detik.com" "detik.com" limit.

Definition scraper_tribunjatim (limit : nat) : M (list item) :=
  scrape_listing "https://jatim.tribunnews.com/tag/jombang"
    "h3.post-title a, h2.post-title a" "https://jatim.tribunnews.com"
    "tribunjatim" limit.

Definition scraper_wartajombang (limit : nat) : M (list item) :=
  scrape_listing "https://wartajombang.com/"
    "h2.entry-title a, .post-title a" "https://wartajombang.com"
    "wartajombang" limit.

Definition SCRAPERS : list (M (list item)) :=
  [scraper_beritajombang 20%nat; scraper_kabarjombang 20%nat;
   scraper_jombangkab 20%nat; scraper_detik 20%nat; scraper_tribunjatim 20%nat;
   scraper_wartajombang 20%nat].

(** *** Date normalizer *)

Definition candidates : list string :=
  ["%Y-%m-%dT%H:%M:%S%z"; "%Y-%m-%dT%H:%M:%S"; "%d %B %Y"; "%d/%m/%Y";
   "%Y-%m-%d"].

(** [datetime.strptime(dt_str, fmt)] inside [try]; [None] stands for the
    exception ([TypeError] when [dt_str] is not a [str]). *)
Definition try_strptime (dt_str : pyval) (fmt : string) : option datetime :=
  match dt_str with
  | PyStr s => strptime s fmt
  | PyNone => None
  end.

Fixpoint first_parse (dt_str : pyval) (fmts : list string) : option datetime :=
  match fmts with
  | [] => None
  | fmt :: rest =>
      match try_strptime dt_str fmt with
      | Some dt => Some dt
      | None => first_parse dt_str rest
      end
  end.

Definition normalize_datetime (dt_str : pyval) : M datetime :=
  match first_parse dt_str candidates with
  | Some dt => ret dt
  | None => utcnow
  end.

(** *** Persistence: the [save_articles] in force (the second definition of
    that name, which replaces the first) *)

(** The argument of [categorize]: [title], a blank and the summary when
    [a.get("summary")] is truthy, else [title] alone. *)
Definition categorize_arg (a : item) (title : pyval) : result pyval :=
  if truthy (dict_get a "summary" PyNone)
  then rbind (py_add title (PyStr " "))
         (fun x => py_add x (dict_get a "summary" (PyStr EmptyString)))
  else Ok title.

(** One iteration of the loop over [items], on the table [db] as the open
    connection sees it and the running [total]. *)
Definition save_item (st : list article * Z) (a : item) : M (list article * Z) :=
  let '(db, total) := st in
  let title := dict_get a "title" PyNone in
  let url := dict_get a "url" PyNone in
  let source := dict_get a "source" (PyStr EmptyString) in
  now1 <- utcnow ;;
  let pub := dict_get a "published_at" (PyStr (isoformat now1)) in
  text <- lift (categorize_arg a title) ;;
  let cat := categorize text in
  now2 <- utcnow ;;
  match cur_execute_insert db title url source pub
          (PyStr (isoformat now2)) (PyStr cat) with
  | Ok (db', rowcount) =>
      ret (db', if rowcount =? 0 then total else total + 1)
  | Raise _ => ret (db, total)                            (* continue *)
  end.

(** [save_articles items] on the stored table [db]: the returned total and
    the table after [conn.commit()].  When the loop raises, the connection
    is dropped without a commit and the stored table stays [db]; the caller
    sees the exception only. *)
Definition save_articles (items : list item) (db : list article)
    : M (Z * list article) :=
  match items with
  | [] => ret (0, db)
  | _ :: _ =>
      st <- foldM save_item (db, 0) items ;;
      ret (snd st, fst st)
  end.

(** *** Orchestrator *)

(** The loop of [crawl_all] over a list of adapters: the total, the stored
    table and the clock readings after the pass. *)
Fixpoint crawl_loop (scrapers : list (M (list item))) (total : Z)
    (db : list article) (t : nat) : Z * list article * nat :=
  match scrapers with
  | [] => (total, db, t)
  | s :: rest =>
      match s t with
      | (Raise _, t1) => crawl_loop rest total db t1      (* continue *)
      | (Ok items, t1) =>
          match save_articles items db t1 with
          | (Raise _, t2) => crawl_loop rest total db t2  (* continue *)
          | (Ok (n, db'), t2) => crawl_loop rest (total + n) db' t2
          end
      end
  end.

Definition crawl_all_over (scrapers : list (M (list item)))
    (db : list article) (t : nat) : Z * list article * nat :=
  crawl_loop scrapers 0 db t.

Definition crawl_all (db : list article) (t : nat) : Z * list article * nat :=
  crawl_all_over SCRAPERS db t.

(** *** Daily counts: the query and the day filling of [api_trend] *)

(** [WHERE datetime(published_at) >= datetime(?)]; a comparison with [NULL]
    selects nothing. *)
Definition in_window (since_iso : string) (r : article) : bool :=
  match sqlite_datetime (published_at r), sqlite_datetime since_iso with
  | Some a, Some b => sql_text_ge a b
  | _, _ => false
  end.

Definition trend_query (db : list article) (since_iso : string)
    : list (string * Z) :=
  group_count
    (map (fun r => sql_substr_1_10 (published_at r))
         (List.filter (in_window since_iso) db)).

(** [{row["d"]: row["c"] for row in data}]. *)
Definition dict_of_rows (data : list (string * Z)) : gmap string Z :=
  foldl (fun m row => <[fst row := snd row]> m) ∅ data.

Definition api_trend (days : Z) (db : list article)
    : M (list string * list Z) :=
  now <- utcnow ;;
  since <- lift (datetime_sub_days now days) ;;
  let data := trend_query db (isoformat since) in
  day_iter <- lift (mapM_result (date_add_days (datetime_date since))
                      (range (days + 1))) ;;
  let map_counts := dict_of_rows data in
  let labels := map date_isoformat day_iter in
  let counts := map (fun d => default 0 (map_counts !! date_isoformat d))
                    day_iter in
  ret (labels, counts).

(** *** Text processing helpers *)

(** The words of the literal from which [ID_STOPWORDS] is built, in the
    order of the source. *)
Definition ID_STOPWORDS_words : list string :=
  ["yang"; "dan"; "di"; "ke"; "dari"; "untuk"; "dengan"; "pada";
   "adalah"; "itu"; "ini"; "atau"; "juga"; "tidak"; "karena"; "sebagai";
   "dalam"; "akan"; "oleh"; "sudah"; "bisa"; "kami"; "kita"; "mereka";
   "saya"; "aku"; "ia"; "para"; "serta"; "hanya"; "lebih"; "masih";
   "agar"; "namun"; "sehingga"; "telah"; "pun"; "suatu"; "tiap";
   "kepada"; "tanpa"; "antara"; "kalau"; "bila"; "jadi"; "tentang";
   "sebuah"; "lah"; "kah"; "si"; "punya"; "ada"; "bukan"; "supaya";
   "saat"; "sedang"; "belum"; "baru"; "lama"; "usai"; "kemudian";
   "lalu"; "maka"; "hingga"; "setelah"; "sebelum"; "meski"; "meskipun";
   "jika"; "ketika"; "dimana"; "demi"; "per"; "atas"; "bawah"].

Definition ID_STOPWORDS : gset string := list_to_set ID_STOPWORDS_words.

(** The characters of the class of [TOKEN_RE] among the code points below
    256, the characters a [string] of this development holds: [A-Z],
    [a-z], and, by the range [\u00C0-\u024F], every code point from 192 to
    255. *)
Definition TOKEN_CHARS : list ascii :=
  map ascii_of_nat (seq 65 26 ++ seq 97 26 ++ seq 192 64).

(** [TOKEN_RE]: one or more characters of the class. *)
Definition TOKEN_RE : regex :=
  Rep (one_of (map (fun c => String c EmptyString) TOKEN_CHARS)) 1 None.

(** [r.findall(s)] for a pattern without groups: the texts of the matches
    found from left to right, each search starting where the match before
    it ended (one character further when nothing was consumed). *)
Fixpoint findall_from (fuel : nat) (r : regex) (s : string) : list string :=
  match fuel with
  | O => []
  | S fuel' =>
      let next := match s with
                  | String _ s1 => findall_from fuel' r s1
                  | EmptyString => []
                  end in
      match rmatch r s ∅ (fun s' _ => Some s') with
      | Some s' =>
          consumed s s' ::
          (if Nat.ltb (String.length s') (String.length s)
           then findall_from fuel' r s' else next)
      | None => next
      end
  end.

Definition re_findall (r : regex) (s : string) : list string :=
  findall_from (S (String.length s)) r s.

(** [text or ""]. *)
Definition or_empty (text : pyval) : string :=
  match text with
  | PyStr s => s
  | PyNone => EmptyString
  end.

Definition tokenize (text : pyval) : list string :=
  map str_lower (re_findall TOKEN_RE (or_empty text)).

(** A row handed to [top_keywords]: a [sqlite3.Row] of the query
    [SELECT title FROM articles], or a dict. *)
Inductive row : Type :=
| SqliteRow (title : string)
| DictRow (d : gmap string pyval).

(** [r["title"] if isinstance(r, sqlite3.Row) else r.get("title")]. *)
Definition row_title (r : row) : pyval :=
  match r with
  | SqliteRow t => PyStr t
  | DictRow d => dict_get d "title" PyNone
  end.

(** A [Counter]: the counted elements in the order of their first count,
    each with its count. *)
Fixpoint counter_incr (counter : list (string * Z)) (elem : string)
    : list (string * Z) :=
  match counter with
  | [] => [(elem, 1)]
  | (e, n) :: rest =>
      if String.eqb e elem then (e, n + 1) :: rest
      else (e, n) :: counter_incr rest elem
  end.

(** [counter.update(toks)]. *)
Definition counter_update (counter : list (string * Z)) (toks : list string)
    : list (string * Z) :=
  foldl counter_incr counter toks.

(** [sorted(items, key=itemgetter(1), reverse=True)]: descending by count,
    elements of equal count in their original order. *)
Fixpoint insert_desc (x : string * Z) (l : list (string * Z))
    : list (string * Z) :=
  match l with
  | [] => [x]
  | y :: l' => if snd y <=? snd x then x :: y :: l' else y :: insert_desc x l'
  end.

Definition sorted_desc (items : list (string * Z)) : list (string * Z) :=
  foldr insert_desc [] items.

(** [counter.most_common(k)], which is [sorted(...)[:k]]. *)
Definition most_common (k : nat) (counter : list (string * Z))
    : list (string * Z) :=
  take k (sorted_desc counter).

(** The filter of [top_keywords]: [t not in ID_STOPWORDS and len(t) > 2]. *)
Definition keyword_ok (tok : string) : bool :=
  bool_decide (tok ∉ ID_STOPWORDS) && Nat.ltb 2 (String.length tok).

Definition top_keywords (rows : list row) (k : nat) : list (string * Z) :=
  let counter :=
    foldl (fun counter r =>
             let title := row_title r in
             let toks := List.filter keyword_ok (tokenize title) in
             counter_update counter toks)
          [] rows in
  most_common k counter.

(** *** What a pass writes to a log

    The lines the loop of [crawl_all] writes while it runs over its
    adapters, arm by arm.  The handler is [except Exception: continue]; it
    holds no statement that writes, nor does any other line of the loop
    (the program imports no logging facility and never prints), so no arm
    adds a line. *)
Fixpoint crawl_loop_log (scrapers : list (M (list item)))
    (db : list article) (t : nat) : list string :=
  match scrapers with
  | [] => []
  | s :: rest =>
      match s t with
      | (Raise _, t1) => crawl_loop_log rest db t1        (* continue *)
      | (Ok items, t1) =>
          match save_articles items db t1 with
          | (Raise _, t2) => crawl_loop_log rest db t2    (* continue *)
          | (Ok (_, db'), t2) => crawl_loop_log rest db' t2
          end
      end
  end.

(** ** Notions used to state the properties *)

(** [kw] occurs in [t] as a substring. *)
Definition occurs_in (kw t : string) : Prop :=
  exists a b : string, t = a +:+ kw +:+ b.

(** The fixed set of categories: the keys of the table and the catch-all. *)
Definition CATEGORIES : list string :=
  map fst CATEGORY_KEYWORDS ++ ["Lainnya"].

(** The dict [a] holds a [str] under key [k]. *)
Definition has_text (a : gmap string pyval) (k : string) : Prop :=
  exists s : string, a !! k = Some (PyStr s).

(** The dict [a] does not hold [None] under key [k]. *)
Definition not_none (a : gmap string pyval) (k : string) : Prop :=
  a !! k <> Some PyNone.

(** The argument of [categorize] can be built for [a]: its title is a [str],
    or it carries no summary. *)
Definition no_type_error (a : gmap string pyval) : Prop :=
  has_text a "title" \/ truthy (dict_get a "summary" PyNone) = false.

(** The stored rows whose url is [u]. *)
Definition rows_with_url (u : string) (db : list article) : list article :=
  List.filter (fun r => String.eqb (url r) u) db.

(** The text of an [href] attribute, empty when the attribute is missing. *)
Definition href_text (a : anchor) : string :=
  match a_href a with
  | PyStr h => h
  | PyNone => EmptyString
  end.

(** The url an adapter of the listing kind builds from an [href]. *)
Definition listing_url (origin href : string) : string :=
  if startswith href "http" then href else origin +:+ href.

(** The candidates of a listing: the first [limit] anchors of the selection
    that carry a non-empty [href]. *)
Definition listing_candidates (soup : document) (selector : string)
    (limit : nat) : list anchor :=
  List.filter (fun a => truthy (a_href a)) (take limit (doc_select soup selector)).

(** An adapter emits every candidate of its listing, in order, and a
    candidate whose article page cannot be fetched carries a clock reading
    of the call as its timestamp. *)
Definition emits_every_candidate (scraper : M (list (gmap string pyval)))
    (base selector origin : string) (limit : nat) : Prop :=
  forall (soup : document) (t : nat),
    fetch base = Some soup ->
    exists (items : list (gmap string pyval)) (t' : nat),
      scraper t = (Ok items, t') /\
      map (fun it => it !! "url") items
      = map (fun a => Some (PyStr (listing_url origin (href_text a))))
            (listing_candidates soup selector limit) /\
      forall it u,
        it ∈ items -> it !! "url" = Some (PyStr u) -> fetch u = None ->
        exists k : nat,
          (t <= k < t')%nat /\
          it !! "published_at" = Some (PyStr (isoformat (clock k))).

Definition sum_Z (l : list Z) : Z := fold_right Z.add 0 l.

(** The stored rows that [api_trend] counts under the day label [d]: those
    its query selects and whose stored timestamp text begins with [d]. *)
Definition counted_on (since_iso d : string) (db : list article)
    : list article :=
  List.filter
    (fun r => in_window since_iso r
              && String.eqb d (sql_substr_1_10 (published_at r))) db.

(** The stored rows that the query selects and whose stored timestamp text
    begins with one of the [labels]. *)
Definition counted_in (since_iso : string) (labels : list string)
    (db : list article) : list article :=
  List.filter
    (fun r => in_window since_iso r
              && bool_decide (sql_substr_1_10 (published_at r) ∈ labels)) db.

(** The timestamp of [r] lies between the instants [since_iso] and
    [until_iso], both included. *)
Definition published_within (since_iso until_iso : string) (r : article)
    : bool :=
  match sqlite_datetime (published_at r), sqlite_datetime since_iso,
        sqlite_datetime until_iso with
  | Some p, Some a, Some b => sql_text_ge p a && sql_text_ge b p
  | _, _, _ => false
  end.

(** The timestamp text of [r] begins with a day between the days [first]
    and [last], both included. *)
Definition published_on_days (first last : string) (r : article) : bool :=
  String.leb first (sql_substr_1_10 (published_at r))
  && String.leb (sql_substr_1_10 (published_at r)) last.

(** ** Proof steps shared by the calendar lemmas *)

(** Evaluate the operations on numerals that [cbn] leaves alone. *)
Ltac is_numeral x :=
  match x with
  | Z0 => idtac
  | Zpos ?p => is_ground p
  | Zneg ?p => is_ground p
  end.

Ltac eval_numerals :=
  repeat match goal with
         | |- context [?a - ?b] =>
             is_numeral a; is_numeral b;
             let v := eval vm_compute in (a - b) in change (a - b) with v
         | |- context [?a + ?b] =>
             is_numeral a; is_numeral b;
             let v := eval vm_compute in (a + b) in change (a + b) with v
         | |- context [?a <? ?b] =>
             is_numeral a; is_numeral b;
             let v := eval vm_compute in (a <? b) in change (a <? b) with v
         | |- context [?a =? ?b] =>
             is_numeral a; is_numeral b;
             let v := eval vm_compute in (a =? b) in change (a =? b) with v
         end.

Ltac div_mod_facts x d :=
  pose proof (Z.div_mod x d ltac:(lia));
  pose proof (Z.mod_pos_bound x d ltac:(lia)).

(** ** Further notions *)

(** The category column of [r] holds one of the fixed categories. *)
Definition category_ok (r : article) : Prop :=
  exists c : string, category r = PyStr c /\ c ∈ CATEGORIES.

(** The insert of [a] into [db] writes nothing, whatever the clock reads:
    a required column would be [NULL], or the url is stored already. *)
Definition skipped_in (a : gmap string pyval) (db : list article) : Prop :=
  dict_get a "title" PyNone = PyNone \/
  dict_get a "url" PyNone = PyNone \/
  a !! "source" = Some PyNone \/
  a !! "published_at" = Some PyNone \/
  exists u : string, dict_get a "url" PyNone = PyStr u /\ has_url u db = true.

(** The pattern [r] has a capturing group numbered [n]. *)
Fixpoint has_group (n : nat) (r : regex) : bool :=
  match r with
  | Eps | Chr _ => false
  | Seq r1 r2 | Alt r1 r2 => has_group n r1 || has_group n r2
  | Rep r1 _ _ => has_group n r1
  | Grp m r1 => Nat.eqb n m || has_group n r1
  end.

(** The listing pages of the six adapters. *)
Definition LISTING_URLS : list string :=
  ["https://beritajombang.com/"; "https://kabarjombang.com/";
   "https://www.jombangkab.go.id/berita";
   "https://www.detik.com/search/searchall?query=Jombang";
   "https://jatim.tribunnews.com/tag/jombang"; "https://wartajombang.com/"].

(** The item [it] carries, as its timestamp, a clock reading taken between
    the readings [t] and [t']. *)
Definition stamped_by_clock (t t' : nat) (it : gmap string pyval) : Prop :=
  exists k : nat,
    (t <= k < t')%nat /\
    it !! "published_at" = Some (PyStr (isoformat (clock k))).

(** The item [it] carries a non-empty text as its timestamp. *)
Definition has_timestamp (it : gmap string pyval) : Prop :=
  exists p : string,
    it !! "published_at" = Some (PyStr p) /\ p <> EmptyString.

(** A letter: [A-Z], [a-z], or a code point from 192 on. *)
Definition is_letter (c : ascii) : bool :=
  let n := nat_of_ascii c in
  (Nat.leb 65 n && Nat.leb n 90) || (Nat.leb 97 n && Nat.leb n 122)
  || Nat.leb 192 n.

Fixpoint all_letters (s : string) : bool :=
  match s with
  | EmptyString => true
  | String c s' => is_letter c && all_letters s'
  end.

(** The letters at the start of [s], and what follows them. *)
Fixpoint take_letters (s : string) : string :=
  match s with
  | EmptyString => EmptyString
  | String c s' => if is_letter c then String c (take_letters s') else EmptyString
  end.

Fixpoint drop_letters (s : string) : string :=
  match s with
  | EmptyString => EmptyString
  | String c s' => if is_letter c then drop_letters s' else s
  end.

(** The maximal runs of letters of [s], from left to right; [cur] holds
    the letters of the run being read. *)
Definition flush (cur : string) : list string :=
  match cur with
  | EmptyString => []
  | String _ _ => [cur]
  end.

Fixpoint letter_runs_from (cur s : string) : list string :=
  match s with
  | EmptyString => flush cur
  | String c s' =>
      if is_letter c then letter_runs_from (cur +:+ String c EmptyString) s'
      else flush cur ++ letter_runs_from EmptyString s'
  end.

Definition letter_runs (s : string) : list string :=
  letter_runs_from EmptyString s.

(** The count a counter holds for [elem], zero when it holds none. *)
Fixpoint counter_get (counter : list (string * Z)) (elem : string) : Z :=
  match counter with
  | [] => 0
  | (e, n) :: rest => if String.eqb e elem then n else counter_get rest elem
  end.

(** The tokens [top_keywords] counts: those of every row's title that pass
    the filter, in order. *)
Definition kept_tokens (rows : list row) : list string :=
  concat (map (fun r => List.filter keyword_ok (tokenize (row_title r))) rows).

(** [a] does not come after [b] in descending order of count. *)
Definition count_ge (a b : string * Z) : Prop := snd b <= snd a.

(** What a listing adapter has given the item [it]: a text title and, when
    its article page could be fetched, the timestamp text read off the
    page's [<time>] element. *)
Definition read_off_page (it : gmap string pyval) : Prop :=
  has_text it "title" /\
  forall (u : string) (page : document),
    it !! "url" = Some (PyStr u) -> fetch u = Some page ->
    it !! "published_at" = Some (time_tag_text (doc_time page)).

(** The text held under a key, [dflt] when the key is absent. *)
Definition text_or (v : option pyval) (dflt : string) : string :=
  match v with
  | Some (PyStr s) => s
  | _ => dflt
  end.

(** What [save_articles] puts after the title before it categorizes: a
    blank and the summary, when the item has a non-empty one. *)
Definition summary_suffix (a : gmap string pyval) : string :=
  match dict_get a "summary" PyNone with
  | PyStr (String c s) => " " +:+ String c s
  | _ => EmptyString
  end.

(** [a] comes before [b] in the list [l]. *)
Fixpoint precedes {A : Type} (l : list A) (a b : A) : Prop :=
  match l with
  | [] => False
  | x :: l' => (a = x /\ b ∈ l') \/ precedes l' a b
  end.

(** The first occurrence of [a] in [l] comes before every occurrence of
    [b]. *)
Definition first_before (l : list string) (a b : string) : Prop :=
  exists pre post : list string, l = pre ++ a :: post /\ (a ∉ pre) /\ (b ∉ pre).

(** * Properties *)

(** ** Strings *)

Lemma append_cons (c : ascii) (s t : string) :
  String c s +:+ t = String c (s +:+ t).
Proof. reflexivity. Qed.

Lemma append_nil_l (s : string) : EmptyString +:+ s = s.
Proof. reflexivity. Qed.

Lemma length_append (a b : string) :
  String.length (a +:+ b) = (String.length a + String.length b)%nat.
Proof.
  induction a as [|x a IH]; [reflexivity|].
  rewrite append_cons. simpl. now rewrite IH.
Qed.

Lemma prefix_nil (s : string) : String.prefix EmptyString s = true.
Proof. destruct s; reflexivity. Qed.

Lemma prefix_spec (p s : string) :
  String.prefix p s = true <-> exists b, s = p +:+ b.
Proof.
  revert s. induction p as [|c p IH]; intros s.
  - rewrite prefix_nil. split; [intros _; now exists s | reflexivity].
  - destruct s as [|c' s]; simpl.
    + split; [discriminate | intros [b Hb]; discriminate].
    + destruct (ascii_dec c c') as [->|Hne].
      * rewrite IH. split; intros [b Hb]; exists b.
        -- now rewrite append_cons, Hb.
        -- rewrite append_cons in Hb. congruence.
      * split; [discriminate | intros [b Hb]].
        rewrite append_cons in Hb. congruence.
Qed.

Lemma str_contains_nil (kw : string) :
  str_contains kw EmptyString = String.prefix kw EmptyString || false.
Proof. reflexivity. Qed.

Lemma str_contains_cons (kw : string) (c : ascii) (t : string) :
  str_contains kw (String c t)
  = String.prefix kw (String c t) || str_contains kw t.
Proof. reflexivity. Qed.

Lemma str_contains_spec (kw t : string) :
  str_contains kw t = true <-> occurs_in kw t.
Proof.
  unfold occurs_in. induction t as [|c t IH].
  - rewrite str_contains_nil, orb_false_r, prefix_spec. split.
    + intros [b Hb]. exists EmptyString, b. exact Hb.
    + intros [a [b Hb]]. destruct a as [|x a].
      * now exists b.
      * rewrite append_cons in Hb. discriminate.
  - rewrite str_contains_cons, orb_true_iff, prefix_spec, IH. split.
    + intros [[b Hb]|[a [b Hb]]].
      * exists EmptyString, b. exact Hb.
      * exists (String c a), b. now rewrite append_cons, Hb.
    + intros [a [b Hb]]. destruct a as [|x a].
      * left. now exists b.
      * right. exists a, b. rewrite append_cons in Hb. congruence.
Qed.

(** ** Categorizer *)

Lemma any_keyword_in_spec (t : string) (kws : list string) :
  any_keyword_in t kws = true <-> exists kw, kw ∈ kws /\ occurs_in kw t.
Proof.
  unfold any_keyword_in. rewrite existsb_exists. split.
  - intros [kw [Hin Hc]]. exists kw. split.
    + now apply list_elem_of_In.
    + now apply str_contains_spec.
  - intros [kw [Hin Hc]]. exists kw. split.
    + now apply list_elem_of_In.
    + now apply str_contains_spec.
Qed.

Lemma first_category_first (t : string) (pre post : list (string * list string))
    (cat : string) (kws : list string) :
  any_keyword_in t kws = true ->
  (forall cat' kws', (cat', kws') ∈ pre -> any_keyword_in t kws' = false) ->
  first_category t (pre ++ (cat, kws) :: post) = Some cat.
Proof.
  intros Hhit. induction pre as [|[c k] pre IH]; intros Hpre; simpl.
  - now rewrite Hhit.
  - rewrite (Hpre c k) by apply list_elem_of_here.
    apply IH. intros c' k' Hin. apply (Hpre c' k').
    now apply list_elem_of_further.
Qed.

Lemma first_category_none (t : string) (table : list (string * list string)) :
  (forall cat kws, (cat, kws) ∈ table -> any_keyword_in t kws = false) ->
  first_category t table = None.
Proof.
  induction table as [|[c k] table IH]; intros Hall; simpl; [reflexivity|].
  rewrite (Hall c k) by apply list_elem_of_here.
  apply IH. intros c' k' Hin. apply (Hall c' k').
  now apply list_elem_of_further.
Qed.

Lemma first_category_key (t : string) (table : list (string * list string))
    (cat : string) :
  first_category t table = Some cat -> cat ∈ map fst table.
Proof.
  induction table as [|[c k] table IH]; simpl; [discriminate|].
  destruct (any_keyword_in t k).
  - intros [= ->]. apply list_elem_of_here.
  - intros H. apply list_elem_of_further. now apply IH.
Qed.

Lemma any_keyword_in_false (t : string) (kws : list string) :
  (forall kw, kw ∈ kws -> ~ occurs_in kw t) -> any_keyword_in t kws = false.
Proof.
  intros H. destruct (any_keyword_in t kws) eqn:E; [|reflexivity].
  apply any_keyword_in_spec in E. destruct E as [kw [Hin Hocc]].
  exfalso. exact (H kw Hin Hocc).
Qed.

(** C4: [categorize] lowercases its input and scans the category table in
    declared order, returning the first category one of whose keywords is a
    substring of the lowered text; it returns ['Lainnya'] for an empty or
    absent input and when no keyword matches; so its result always lies in
    the fixed category set, and equal inputs give equal results. *)
Theorem C4_categorize_first_match (text : pyval) :
  (truthy text = false -> categorize text = "Lainnya") /\
  (forall s pre cat kws post,
     text = PyStr s -> truthy text = true ->
     CATEGORY_KEYWORDS = pre ++ (cat, kws) :: post ->
     (exists kw, kw ∈ kws /\ occurs_in kw (str_lower s)) ->
     (forall cat' kws' kw',
        (cat', kws') ∈ pre -> kw' ∈ kws' -> ~ occurs_in kw' (str_lower s)) ->
     categorize text = cat) /\
  (forall s,
     text = PyStr s ->
     (forall cat kws kw,
        (cat, kws) ∈ CATEGORY_KEYWORDS -> kw ∈ kws ->
        ~ occurs_in kw (str_lower s)) ->
     categorize text = "Lainnya") /\
  categorize text ∈ CATEGORIES /\
  (forall text', text' = text -> categorize text' = categorize text).
Proof.
  repeat split.
  - destruct text as [|[|c s]]; simpl; intros H; [reflexivity | reflexivity | discriminate].
  - intros s pre cat kws post -> Ht Htable Hhit Hpre.
    destruct s as [|c s]; [discriminate|].
    unfold categorize. rewrite Htable.
    rewrite (first_category_first _ pre post cat kws); [reflexivity | |].
    + now apply any_keyword_in_spec.
    + intros cat' kws' Hin. apply any_keyword_in_false.
      intros kw' Hkw'. exact (Hpre cat' kws' kw' Hin Hkw').
  - intros s -> Hnone. destruct s as [|c s]; [reflexivity|].
    unfold categorize. rewrite first_category_none; [reflexivity|].
    intros cat kws Hin. apply any_keyword_in_false.
    intros kw Hkw. exact (Hnone cat kws kw Hin Hkw).
  - unfold CATEGORIES, categorize. destruct text as [|[|c s]];
      try (apply elem_of_app; right; apply list_elem_of_here).
    destruct (first_category (str_lower (String c s)) CATEGORY_KEYWORDS) eqn:E.
    + apply elem_of_app. left. exact (first_category_key _ _ _ E).
    + apply elem_of_app. right. apply list_elem_of_here.
  - intros text' ->. reflexivity.
Qed.

(** ** Date normalizer *)

Lemma first_parse_none (dt_str : pyval) (fmts : list string) :
  (forall fmt, fmt ∈ fmts -> try_strptime dt_str fmt = None) ->
  first_parse dt_str fmts = None.
Proof.
  induction fmts as [|f fmts IH]; intros Hall; simpl; [reflexivity|].
  rewrite (Hall f) by apply list_elem_of_here.
  apply IH. intros fmt Hin. apply Hall. now apply list_elem_of_further.
Qed.

Lemma first_parse_first (dt_str : pyval) (pre post : list string)
    (fmt : string) (dt : datetime) :
  try_strptime dt_str fmt = Some dt ->
  (forall f, f ∈ pre -> try_strptime dt_str f = None) ->
  first_parse dt_str (pre ++ fmt :: post) = Some dt.
Proof.
  intros Hhit. induction pre as [|f pre IH]; intros Hpre; simpl.
  - now rewrite Hhit.
  - rewrite (Hpre f) by apply list_elem_of_here.
    apply IH. intros f' Hin. apply Hpre. now apply list_elem_of_further.
Qed.

Lemma first_parse_absent (fmts : list string) : first_parse PyNone fmts = None.
Proof. induction fmts as [|f fmts IH]; simpl; [reflexivity | exact IH]. Qed.

(** C3: [normalize_datetime] tries the five patterns in their fixed order
    (offset-aware ISO-8601, offset-naive ISO-8601, long date, slash date,
    bare date) and returns the first parse of the text that
    [datetime.strptime] accepts; for an absent input and for a text that
    [datetime.strptime] accepts under none of the patterns it returns the
    clock reading taken by the call; it returns a value in every case. *)
Theorem C3_normalize_datetime_fallback (dt_str : pyval) (t : nat) :
  candidates = ["%Y-%m-%dT%H:%M:%S%z"; "%Y-%m-%dT%H:%M:%S"; "%d %B %Y";
                "%d/%m/%Y"; "%Y-%m-%d"] /\
  (dt_str = PyNone -> normalize_datetime dt_str t = (Ok (clock t), S t)) /\
  (forall s,
     dt_str = PyStr s ->
     (forall fmt, fmt ∈ candidates -> strptime s fmt = None) ->
     normalize_datetime dt_str t = (Ok (clock t), S t)) /\
  (forall s pre fmt post dt,
     dt_str = PyStr s ->
     candidates = pre ++ fmt :: post ->
     strptime s fmt = Some dt ->
     (forall f, f ∈ pre -> strptime s f = None) ->
     normalize_datetime dt_str t = (Ok dt, t)) /\
  (exists dt t', normalize_datetime dt_str t = (Ok dt, t')).
Proof.
  split; [reflexivity|]. split; [|split; [|split]].
  - intros ->. unfold normalize_datetime. now rewrite first_parse_absent.
  - intros s -> Hnone. unfold normalize_datetime.
    rewrite first_parse_none; [reflexivity|].
    intros fmt Hin. exact (Hnone fmt Hin).
  - intros s pre fmt post dt -> Hc Hhit Hpre. unfold normalize_datetime.
    rewrite Hc. rewrite (first_parse_first _ pre post fmt dt);
      [reflexivity | exact Hhit | exact Hpre].
  - unfold normalize_datetime.
    destruct (first_parse dt_str candidates) as [dt|].
    + now exists dt, t.
    + now exists (clock t), (S t).
Qed.

(** ** The long-form Indonesian date *)

Lemma rmatch_id_date_no_backslash {R : Type} (c : ascii) (s : string)
    (caps : gmap nat string) (k : string -> gmap nat string -> option R) :
  c <> backslash ->
  rmatch ID_DATE_PATTERN (String c s) caps k = None.
Proof.
  intros Hne. unfold ID_DATE_PATTERN. cbn [rmatch].
  destruct (Ascii.eqb_spec backslash c) as [E|_]; [congruence | reflexivity].
Qed.

Lemma re_search_id_date_no_backslash (s : string) :
  count_char backslash s = 0 -> re_search ID_DATE_PATTERN s = None.
Proof.
  induction s as [|c s IH]; intros Hcount.
  - reflexivity.
  - cbn [count_char] in Hcount.
    assert (Hnn : 0 <= count_char backslash s).
    { clear. induction s as [|c' s IH]; cbn [count_char]; [lia|].
      destruct (Ascii.eqb backslash c'); lia. }
    destruct (Ascii.eqb_spec backslash c) as [E|Hne]; [lia|].
    cbn [re_search]. rewrite rmatch_id_date_no_backslash by congruence.
    apply IH. lia.
Qed.

(** A text without a backslash character never yields a date. *)
Lemma parse_id_date_no_backslash (txt : string) :
  count_char backslash txt = 0 -> parse_id_date txt = Ok PyNone.
Proof.
  intros H. unfold parse_id_date.
  destruct (negb (truthy (PyStr txt))); [reflexivity|].
  now rewrite re_search_id_date_no_backslash.
Qed.

(** ** The store *)

Lemma has_url_spec (u : string) (db : list article) :
  has_url u db = true <-> u ∈ map url db.
Proof.
  unfold has_url. rewrite existsb_exists, list_elem_of_In, in_map_iff.
  split; intros [r [H1 H2]]; exists r.
  - apply String.eqb_eq in H2. auto.
  - split; [exact H2 | now apply String.eqb_eq].
Qed.

Lemma has_url_false (u : string) (db : list article) :
  has_url u db = false <-> u ∉ map url db.
Proof.
  rewrite <- has_url_spec. destruct (has_url u db); split; intros H; congruence.
Qed.

Lemma insert_or_ignore_duplicate (db : list article) (u : string)
    (vt vs vp vc vcat : pyval) :
  has_url u db = true ->
  insert_or_ignore db vt (PyStr u) vs vp vc vcat = (db, 0).
Proof.
  intros H. unfold insert_or_ignore.
  destruct vt, vs, vp, vc; try reflexivity. now rewrite H.
Qed.

Lemma insert_or_ignore_new (db : list article) (t u s p c : string)
    (vcat : pyval) :
  has_url u db = false ->
  insert_or_ignore db (PyStr t) (PyStr u) (PyStr s) (PyStr p) (PyStr c) vcat
  = (db ++ [mkArticle t u s p c vcat], 1).
Proof. intros H. unfold insert_or_ignore. now rewrite H. Qed.

Lemma insert_or_ignore_null_url (db : list article)
    (vt vs vp vc vcat : pyval) :
  insert_or_ignore db vt PyNone vs vp vc vcat = (db, 0).
Proof. unfold insert_or_ignore. destruct vt; reflexivity. Qed.

(** An insert keeps the rows already stored, adds at most one, and reports
    [1] exactly when it added one. *)
Lemma insert_or_ignore_cases (db : list article)
    (vt vu vs vp vc vcat : pyval) :
  insert_or_ignore db vt vu vs vp vc vcat = (db, 0) \/
  exists t u s p c,
    vt = PyStr t /\ vu = PyStr u /\ vs = PyStr s /\ vp = PyStr p /\
    vc = PyStr c /\ has_url u db = false /\
    insert_or_ignore db vt vu vs vp vc vcat
    = (db ++ [mkArticle t u s p c vcat], 1).
Proof.
  unfold insert_or_ignore.
  destruct vt as [|t], vu as [|u], vs as [|s], vp as [|p], vc as [|c];
    try (left; reflexivity).
  destruct (has_url u db) eqn:E; [left; reflexivity|].
  right. exists t, u, s, p, c. repeat split; try reflexivity. exact E.
Qed.

(** The [UNIQUE] constraint on [url] is an invariant of the store. *)
Lemma insert_or_ignore_unique (db : list article)
    (vt vu vs vp vc vcat : pyval) :
  NoDup (map url db) ->
  NoDup (map url (fst (insert_or_ignore db vt vu vs vp vc vcat))).
Proof.
  intros Hnd.
  destruct (insert_or_ignore_cases db vt vu vs vp vc vcat)
    as [->|(t & u & s & p & c & _ & _ & _ & _ & _ & Hnew & ->)]; [exact Hnd|].
  cbn [fst]. rewrite map_app. cbn [map url].
  apply NoDup_app. split; [exact Hnd|]. split.
  - intros x Hx Hx'. apply list_elem_of_singleton in Hx'. subst x.
    apply has_url_false in Hnew. contradiction.
  - apply NoDup_singleton.
Qed.

Lemma rows_with_url_absent (u : string) (db : list article) :
  has_url u db = false -> rows_with_url u db = [].
Proof.
  unfold has_url, rows_with_url. induction db as [|r db IH]; simpl.
  - reflexivity.
  - destruct (String.eqb (url r) u); simpl; [discriminate | exact IH].
Qed.

Lemma rows_with_url_unique (u : string) (db : list article) :
  NoDup (map url db) -> has_url u db = true ->
  List.length (rows_with_url u db) = 1%nat.
Proof.
  induction db as [|r db IH]; simpl; [discriminate|].
  intros Hnd Hhas. apply NoDup_cons in Hnd. destruct Hnd as [Hnotin Hnd].
  destruct (String.eqb_spec (url r) u) as [E|E]; simpl.
  - rewrite rows_with_url_absent; [reflexivity|].
    apply has_url_false. now rewrite <- E.
  - simpl in Hhas. apply IH; assumption.
Qed.

(** ** Persistence *)

Lemma dict_get_Some (a : gmap string pyval) (k : string) (d v : pyval) :
  a !! k = Some v -> dict_get a k d = v.
Proof. intros H. unfold dict_get. now rewrite H. Qed.

Lemma dict_get_not_none (a : gmap string pyval) (k dflt : string) :
  not_none a k -> exists s, dict_get a k (PyStr dflt) = PyStr s.
Proof.
  unfold not_none, dict_get. intros H.
  destruct (a !! k) as [[|s]|]; [congruence | now exists s | now exists dflt].
Qed.

Lemma save_item_eq (db : list article) (total : Z) (a : gmap string pyval)
    (t : nat) :
  save_item (db, total) a t =
  match categorize_arg a (dict_get a "title" PyNone) with
  | Raise e => (Raise e, S t)
  | Ok text =>
      let r := insert_or_ignore db
                 (dict_get a "title" PyNone) (dict_get a "url" PyNone)
                 (dict_get a "source" (PyStr EmptyString))
                 (dict_get a "published_at" (PyStr (isoformat (clock t))))
                 (PyStr (isoformat (clock (S t)))) (PyStr (categorize text)) in
      (Ok (fst r, if snd r =? 0 then total else total + 1), S (S t))
  end.
Proof.
  unfold save_item, bind, utcnow, lift, ret, cur_execute_insert.
  destruct (categorize_arg a (dict_get a "title" PyNone)); [|reflexivity].
  cbv zeta. destruct (insert_or_ignore _ _ _ _ _ _ _). reflexivity.
Qed.

Lemma save_articles_single (a : gmap string pyval) (db : list article)
    (t : nat) :
  save_articles [a] db t =
  match save_item (db, 0) a t with
  | (Ok st, t') => (Ok (snd st, fst st), t')
  | (Raise e, t') => (Raise e, t')
  end.
Proof.
  unfold save_articles. cbn [foldM]. unfold bind, ret.
  destruct (save_item (db, 0) a t) as [[st|e] t']; reflexivity.
Qed.

Lemma foldM_app {A S : Type} (body : S -> A -> M S) (acc : S)
    (xs ys : list A) (t : nat) :
  foldM body acc (xs ++ ys) t =
  match foldM body acc xs t with
  | (Ok acc', t') => foldM body acc' ys t'
  | (Raise e, t') => (Raise e, t')
  end.
Proof.
  revert acc t. induction xs as [|x xs IH]; intros acc t; simpl.
  - reflexivity.
  - unfold bind. destruct (body acc x t) as [[acc'|e] t']; [apply IH | reflexivity].
Qed.

Lemma categorize_arg_ok (a : gmap string pyval) :
  no_type_error a ->
  exists text, categorize_arg a (dict_get a "title" PyNone) = Ok text.
Proof.
  unfold no_type_error, categorize_arg, has_text, dict_get.
  intros [[s Hs]|Hsum].
  - rewrite Hs. cbn [default].
    destruct (a !! "summary") as [[|[|c smry]]|] eqn:E; cbn; eauto.
  - unfold dict_get in Hsum. rewrite Hsum. eauto.
Qed.

(** A second insert of a stored url changes neither the table nor the
    total. *)
Lemma save_item_duplicate (db : list article) (total : Z)
    (a : gmap string pyval) (u : string) (t : nat) :
  a !! "url" = Some (PyStr u) -> has_url u db = true -> no_type_error a ->
  save_item (db, total) a t = (Ok (db, total), S (S t)).
Proof.
  intros Hu Hhas Hok. rewrite save_item_eq.
  destruct (categorize_arg_ok a Hok) as [text ->]. cbv zeta.
  rewrite (dict_get_Some a "url" _ _ Hu).
  rewrite insert_or_ignore_duplicate by exact Hhas. reflexivity.
Qed.

Lemma save_articles_nonempty (x : gmap string pyval)
    (xs : list (gmap string pyval)) (db : list article) (t : nat) :
  save_articles (x :: xs) db t =
  match foldM save_item (db, 0) (x :: xs) t with
  | (Ok st, t') => (Ok (snd st, fst st), t')
  | (Raise e, t') => (Raise e, t')
  end.
Proof.
  unfold save_articles, bind, ret.
  destruct (foldM save_item (db, 0) (x :: xs) t) as [[st|e] t']; reflexivity.
Qed.

(** An item without a title and without a summary leaves table and total as
    they are. *)
Lemma save_item_absent_title (a : gmap string pyval) (db : list article)
    (total : Z) (t : nat) :
  dict_get a "title" PyNone = PyNone ->
  truthy (dict_get a "summary" PyNone) = false ->
  save_item (db, total) a t = (Ok (db, total), S (S t)).
Proof.
  intros Hti Hsum. rewrite save_item_eq. unfold categorize_arg.
  rewrite Hsum, Hti. reflexivity.
Qed.

(** C10: an item whose title is absent and which carries no summary makes
    [save_articles] neither raise nor write a row nor count it, and the
    items after it in the batch are processed from the same table and
    total. *)
Theorem C10_absent_title_skipped (a : gmap string pyval) :
  dict_get a "title" PyNone = PyNone ->
  truthy (dict_get a "summary" PyNone) = false ->
  (forall db t, save_articles [a] db t = (Ok (0, db), S (S t))) /\
  (forall pre post db t,
     save_articles (pre ++ a :: post) db t =
     match foldM save_item (db, 0) pre t with
     | (Raise e, t1) => (Raise e, t1)
     | (Ok st1, t1) =>
         match foldM save_item st1 post (S (S t1)) with
         | (Ok st2, t2) => (Ok (snd st2, fst st2), t2)
         | (Raise e, t2) => (Raise e, t2)
         end
     end).
Proof.
  intros Hti Hsum. split.
  - intros db t. rewrite save_articles_single.
    now rewrite save_item_absent_title.
  - intros pre post db t.
    assert (Hne : exists x xs, pre ++ a :: post = x :: xs).
    { destruct pre as [|x pre]; simpl; eauto. }
    destruct Hne as (x & xs & Hne). rewrite Hne, save_articles_nonempty, <- Hne.
    rewrite foldM_app.
    destruct (foldM save_item (db, 0) pre t) as [[[db1 n1]|e] t1]; [|reflexivity].
    cbn [foldM]. unfold bind at 1.
    rewrite save_item_absent_title by assumption.
    destruct (foldM save_item (db1, n1) post (S (S t1))) as [[st2|e] t2];
      reflexivity.
Qed.

(** C8, as the code has it: an empty url is a url like any other.  A
    candidate whose url is the empty string is stored and counted when no
    stored row has the empty url, and skipped as a duplicate when one has;
    a candidate whose url is absent writes no row and is not counted; no
    error reaches the caller in any of the three cases. *)
Theorem C8_empty_and_absent_url (a : gmap string pyval) (db : list article)
    (t : nat) :
  has_text a "title" -> not_none a "source" -> not_none a "published_at" ->
  (a !! "url" = Some (PyStr EmptyString) -> has_url EmptyString db = false ->
   exists row,
     url row = EmptyString /\
     save_articles [a] db t = (Ok (1, db ++ [row]), S (S t))) /\
  (a !! "url" = Some (PyStr EmptyString) -> has_url EmptyString db = true ->
   save_articles [a] db t = (Ok (0, db), S (S t))) /\
  (dict_get a "url" PyNone = PyNone ->
   save_articles [a] db t = (Ok (0, db), S (S t))).
Proof.
  intros [ti Hti] Hsrc Hpub.
  assert (Hok : no_type_error a) by (left; now exists ti).
  destruct (categorize_arg_ok a Hok) as [text Htext].
  split; [|split].
  - intros Hu Hhas.
    destruct (dict_get_not_none a "source" EmptyString Hsrc) as [s Hs].
    destruct (dict_get_not_none a "published_at" (isoformat (clock t)) Hpub)
      as [p Hp].
    eexists. split; cycle 1.
    + rewrite save_articles_single, save_item_eq, Htext. cbv zeta.
      rewrite (dict_get_Some a "url" _ _ Hu), (dict_get_Some a "title" _ _ Hti).
      rewrite Hs, Hp, insert_or_ignore_new by exact Hhas. reflexivity.
    + reflexivity.
  - intros Hu Hhas. rewrite save_articles_single.
    now rewrite (save_item_duplicate db 0 a EmptyString).
  - intros Hu. rewrite save_articles_single, save_item_eq, Htext. cbv zeta.
    rewrite Hu, insert_or_ignore_null_url. reflexivity.
Qed.

(** What is stored as [published_at] is the adapter's text as it is: a row
    written for an item that carries the timestamp text [raw] holds [raw]. *)
Lemma save_articles_stores_raw_text (a : gmap string pyval) (raw : string)
    (db db' : list article) (n : Z) (t t' : nat) :
  a !! "published_at" = Some (PyStr raw) ->
  save_articles [a] db t = (Ok (n, db'), t') ->
  db' = db \/ exists row, db' = db ++ [row] /\ published_at row = raw.
Proof.
  intros Hpub. rewrite save_articles_single, save_item_eq.
  destruct (categorize_arg a (dict_get a "title" PyNone)) as [text|e];
    [|discriminate].
  cbv zeta.
  rewrite (dict_get_Some a "published_at" _ _ Hpub).
  match goal with |- context [insert_or_ignore ?d ?a1 ?a2 ?a3 ?a4 ?a5 ?a6] =>
    destruct (insert_or_ignore_cases d a1 a2 a3 a4 a5 a6)
      as [->|(ti & u & s & p & c & _ & _ & _ & Hp & _ & _ & ->)]
  end; cbn [fst snd]; intros [= <- <- <-].
  - now left.
  - right. eexists. split; [reflexivity|]. cbn. congruence.
Qed.

(** The [UNIQUE] constraint on [url] holds of the stored table after every
    batch and after every pass. *)
Lemma foldM_save_item_unique (items : list (gmap string pyval))
    (st st' : list article * Z) (t t' : nat) :
  NoDup (map url (fst st)) ->
  foldM save_item st items t = (Ok st', t') ->
  NoDup (map url (fst st')).
Proof.
  revert st t. induction items as [|a items IH]; intros [db total] t Hnd.
  - cbn [foldM]. unfold ret. now intros [= <- <-].
  - cbn [foldM]. unfold bind at 1. rewrite save_item_eq.
    destruct (categorize_arg a (dict_get a "title" PyNone)); [|discriminate].
    cbv zeta. apply IH. cbn [fst]. now apply insert_or_ignore_unique.
Qed.

Lemma save_articles_unique (items : list (gmap string pyval))
    (db db' : list article) (n : Z) (t t' : nat) :
  NoDup (map url db) ->
  save_articles items db t = (Ok (n, db'), t') ->
  NoDup (map url db').
Proof.
  intros Hnd. destruct items as [|a items].
  - cbn. unfold ret. now intros [= <- <- <-].
  - rewrite save_articles_nonempty.
    destruct (foldM save_item (db, 0) (a :: items) t) as [[st|e] t1] eqn:E;
      [|discriminate].
    intros [= <- <- <-].
    exact (foldM_save_item_unique _ (db, 0) _ _ _ Hnd E).
Qed.

(** ** Orchestrator *)

Lemma crawl_loop_unique (scrapers : list (M (list (gmap string pyval))))
    (total n : Z) (db db' : list article) (t t' : nat) :
  NoDup (map url db) ->
  crawl_loop scrapers total db t = (n, db', t') ->
  NoDup (map url db').
Proof.
  revert total db t. induction scrapers as [|s rest IH]; intros total db t Hnd.
  - cbn. now intros [= <- <- <-].
  - cbn [crawl_loop]. destruct (s t) as [[items|e] t1]; [|now apply IH].
    destruct (save_articles items db t1) as [[[m db1]|e] t2] eqn:E;
      [|now apply IH].
    apply IH. exact (save_articles_unique _ _ _ _ _ _ Hnd E).
Qed.

Lemma crawl_loop_total (scrapers : list (M (list (gmap string pyval))))
    (total : Z) (db : list article) (t : nat) :
  crawl_loop scrapers total db t =
  let '(n, db', t') := crawl_loop scrapers 0 db t in (total + n, db', t').
Proof.
  revert total db t. induction scrapers as [|s rest IH]; intros total db t.
  - cbn. now rewrite Z.add_0_r.
  - cbn [crawl_loop]. destruct (s t) as [[items|e] t1].
    + destruct (save_articles items db t1) as [[[n db']|e] t2].
      * rewrite (IH (total + n)), (IH (0 + n)).
        destruct (crawl_loop rest 0 db' t2) as [[m db''] t3].
        f_equal. f_equal. lia.
      * apply IH.
    + apply IH.
Qed.

Lemma crawl_loop_app (xs ys : list (M (list (gmap string pyval))))
    (total : Z) (db : list article) (t : nat) :
  crawl_loop (xs ++ ys) total db t =
  let '(n, db', t') := crawl_loop xs total db t in crawl_loop ys n db' t'.
Proof.
  revert total db t. induction xs as [|s rest IH]; intros total db t.
  - reflexivity.
  - cbn [crawl_loop app]. destruct (s t) as [[items|e] t1].
    + destruct (save_articles items db t1) as [[[n db']|e] t2]; apply IH.
    + apply IH.
Qed.

Lemma crawl_loop_log_nil (scrapers : list (M (list (gmap string pyval))))
    (db : list article) (t : nat) :
  crawl_loop_log scrapers db t = [].
Proof.
  revert db t. induction scrapers as [|s rest IH]; intros db t; [reflexivity|].
  cbn [crawl_loop_log]. destruct (s t) as [[items|e] t1]; [|apply IH].
  destruct (save_articles items db t1) as [[[n db']|e] t2]; apply IH.
Qed.


(** ** Source adapters *)

Lemma mk_item_url (vt vu : pyval) (s : string) (vp : pyval) :
  mk_item vt vu s vp !! "url" = Some vu.
Proof.
  unfold mk_item. rewrite lookup_insert_ne by discriminate.
  apply lookup_insert_eq.
Qed.

Lemma mk_item_published_at (vt vu : pyval) (s : string) (vp : pyval) :
  mk_item vt vu s vp !! "published_at" = Some vp.
Proof.
  unfold mk_item. rewrite !lookup_insert_ne by discriminate.
  apply lookup_insert_eq.
Qed.

Lemma listing_step_skip (origin source : string)
    (items : list (gmap string pyval)) (a : anchor) (t : nat) :
  truthy (a_href a) = false ->
  listing_step origin source items a t = (Ok items, t).
Proof.
  unfold listing_step. destruct (a_href a) as [|[|c h]]; try reflexivity.
  discriminate.
Qed.

Lemma listing_step_emit (origin source : string)
    (items : list (gmap string pyval)) (a : anchor) (t : nat) :
  truthy (a_href a) = true ->
  let u := listing_url origin (href_text a) in
  listing_step origin source items a t =
  match fetch u with
  | Some s2 =>
      (Ok (items ++ [mk_item (PyStr (a_text a)) (PyStr u) source
                       (time_tag_text (doc_time s2))]), t)
  | None =>
      (Ok (items ++ [mk_item (PyStr (a_text a)) (PyStr u) source
                       (PyStr (isoformat (clock t)))]), S t)
  end.
Proof.
  unfold listing_step, listing_url, href_text.
  destruct (a_href a) as [|[|c h]]; try discriminate. intros _. cbv zeta.
  unfold bind.
  destruct (fetch (if startswith (String c h) "http" then String c h
                   else origin +:+ String c h)); reflexivity.
Qed.

(** The loop of [scrape_listing] over the anchors [l], started with the
    items [acc]. *)
Lemma scrape_listing_loop (origin source : string) (l : list anchor)
    (acc : list (gmap string pyval)) (t : nat) :
  exists (items : list (gmap string pyval)) (t' : nat),
    foldM (listing_step origin source) acc l t = (Ok (acc ++ items), t') /\
    (t <= t')%nat /\
    map (fun it => it !! "url") items
    = map (fun a => Some (PyStr (listing_url origin (href_text a))))
          (List.filter (fun a => truthy (a_href a)) l) /\
    forall it u,
      it ∈ items -> it !! "url" = Some (PyStr u) -> fetch u = None ->
      exists k : nat,
        (t <= k < t')%nat /\
        it !! "published_at" = Some (PyStr (isoformat (clock k))).
Proof.
  revert acc t. induction l as [|a l IH]; intros acc t.
  - exists [], t. cbn [foldM]. unfold ret. rewrite app_nil_r.
    repeat split; [lia|]. intros it u Hin. inversion Hin.
  - cbn [foldM List.filter]. unfold bind at 1.
    destruct (truthy (a_href a)) eqn:Hhref.
    + rewrite listing_step_emit by exact Hhref. cbv zeta.
      set (u0 := listing_url origin (href_text a)).
      destruct (fetch u0) as [s2|] eqn:Hf.
      * destruct (IH (acc ++ [mk_item (PyStr (a_text a)) (PyStr u0) source
                                (time_tag_text (doc_time s2))]) t)
          as (items & t' & Hrun & Hle & Hurls & Hpub).
        eexists (_ :: items), t'. rewrite Hrun, <- app_assoc.
        split; [reflexivity|]. split; [exact Hle|]. split.
        -- cbn [map]. now rewrite mk_item_url, Hurls.
        -- intros it u Hin Hu Hnone. apply elem_of_cons in Hin.
           destruct Hin as [->|Hin].
           ++ rewrite mk_item_url in Hu. congruence.
           ++ exact (Hpub it u Hin Hu Hnone).
      * destruct (IH (acc ++ [mk_item (PyStr (a_text a)) (PyStr u0) source
                                (PyStr (isoformat (clock t)))]) (S t))
          as (items & t' & Hrun & Hle & Hurls & Hpub).
        eexists (_ :: items), t'. rewrite Hrun, <- app_assoc.
        split; [reflexivity|]. split; [lia|]. split.
        -- cbn [map]. now rewrite mk_item_url, Hurls.
        -- intros it u Hin Hu Hnone. apply elem_of_cons in Hin.
           destruct Hin as [->|Hin].
           ++ exists t. split; [lia|]. apply mk_item_published_at.
           ++ destruct (Hpub it u Hin Hu Hnone) as (k & Hk & Hk').
              exists k. split; [lia | exact Hk'].
    + rewrite listing_step_skip by exact Hhref. exact (IH acc t).
Qed.

Lemma scrape_listing_emits (base selector origin source : string)
    (limit : nat) :
  emits_every_candidate (scrape_listing base selector origin source limit)
    base selector origin limit.
Proof.
  intros soup t Hfetch. unfold scrape_listing. rewrite Hfetch.
  destruct (scrape_listing_loop origin source
              (take limit (doc_select soup selector)) [] t)
    as (items & t' & Hrun & _ & Hurls & Hpub).
  exists items, t'. split; [exact Hrun|]. split; [exact Hurls | exact Hpub].
Qed.

(** The loop of [scraper_jombangkab]: what it adds comes from pages that
    could be fetched. *)
Lemma scraper_jombangkab_loop (links : list string)
    (acc items : list (gmap string pyval)) (t t' : nat) :
  foldM jombangkab_step acc links t = (Ok items, t') ->
  (forall it, it ∈ acc ->
     exists u, it !! "url" = Some (PyStr u) /\ fetch u <> None) ->
  forall it, it ∈ items ->
    exists u, it !! "url" = Some (PyStr u) /\ fetch u <> None.
Proof.
  revert acc t. induction links as [|u links IH]; intros acc t.
  - cbn [foldM]. unfold ret. intros [= <- <-]. auto.
  - cbn [foldM]. unfold bind at 1, jombangkab_step.
    destruct (fetch u) as [art|] eqn:Hf.
    + cbv zeta. unfold bind at 1, lift.
      destruct (parse_id_date (doc_text art)) as [pub|e]; [|discriminate].
      unfold bind at 1.
      destruct (or_utcnow pub t) as [[pub'|e] t1] eqn:Hor; [|discriminate].
      destruct (truthy _ && truthy (PyStr u)); unfold ret at 1.
      * intros Hrun Hacc. apply (IH _ _ Hrun).
        intros it Hin. apply elem_of_app in Hin. destruct Hin as [Hin|Hin].
        -- exact (Hacc it Hin).
        -- apply list_elem_of_singleton in Hin. subst it.
           exists u. rewrite mk_item_url. split; [reflexivity | congruence].
      * intros Hrun Hacc. exact (IH _ _ Hrun Hacc).
    + unfold ret at 1. intros Hrun Hacc. exact (IH _ _ Hrun Hacc).
Qed.

(** C7, as the code has it: the adapters that take title and link from the
    listing and fetch the article page for its timestamp only ([detik],
    [tribunjatim], [wartajombang]) emit every candidate, and a candidate
    whose page cannot be fetched carries the adapter's own clock reading as
    its timestamp; [scraper_jombangkab], which reads the title from the
    article page, emits only candidates whose page could be fetched. *)
Theorem C7_secondary_fetch_failure (limit : nat) :
  emits_every_candidate (scraper_detik limit)
    "https://www.detik.com/search/searchall?query=Jombang"
    "article.search-result a" "https://www.detik.com" limit /\
  emits_every_candidate (scraper_tribunjatim limit)
    "https://jatim.tribunnews.com/tag/jombang"
    "h3.post-title a, h2.post-title a" "https://jatim.tribunnews.com" limit /\
  emits_every_candidate (scraper_wartajombang limit)
    "https://wartajombang.com/"
    "h2.entry-title a, .post-title a" "https://wartajombang.com" limit /\
  (forall t items t',
     scraper_jombangkab limit t = (Ok items, t') ->
     forall it, it ∈ items ->
       exists u, it !! "url" = Some (PyStr u) /\ fetch u <> None).
Proof.
  split; [apply scrape_listing_emits|].
  split; [apply scrape_listing_emits|].
  split; [apply scrape_listing_emits|].
  intros t items t'. unfold scraper_jombangkab.
  destruct (fetch "https://www.jombangkab.go.id/berita") as [soup|].
  - cbv zeta. intros Hrun. apply (scraper_jombangkab_loop _ _ _ _ _ Hrun).
    intros it Hin. inversion Hin.
  - unfold ret. intros [= <- <-] it Hin. inversion Hin.
Qed.

(** ** The calendar *)

(** The quotients and remainders [_ord2ymd] computes from an ordinal. *)
Lemma ord2ymd_digits (n : Z) :
  1 <= n <= _MAXORDINAL ->
  exists n400 n100 n4 n1 r : Z,
    n400 = (n - 1) / 146097 /\
    n100 = ((n - 1) mod 146097) / 36524 /\
    n4 = (((n - 1) mod 146097) mod 36524) / 1461 /\
    n1 = ((((n - 1) mod 146097) mod 36524) mod 1461) / 365 /\
    r = ((((n - 1) mod 146097) mod 36524) mod 1461) mod 365 /\
    n - 1 = 146097 * n400 + 36524 * n100 + 1461 * n4 + 365 * n1 + r /\
    0 <= n400 <= 24 /\ 0 <= n100 <= 4 /\ 0 <= n4 <= 24 /\ 0 <= n1 <= 4 /\
    0 <= r < 365 /\
    0 <= 36524 * n100 + 1461 * n4 + 365 * n1 + r < 146097 /\
    0 <= 1461 * n4 + 365 * n1 + r < 36524 /\
    0 <= 365 * n1 + r < 1461.
Proof.
  unfold _MAXORDINAL. intros H.
  div_mod_facts (n - 1) 146097.
  set (n400 := (n - 1) / 146097) in *. set (r1 := (n - 1) mod 146097) in *.
  div_mod_facts r1 36524.
  set (n100 := r1 / 36524) in *. set (r2 := r1 mod 36524) in *.
  div_mod_facts r2 1461.
  set (n4 := r2 / 1461) in *. set (r3 := r2 mod 1461) in *.
  div_mod_facts r3 365.
  set (n1 := r3 / 365) in *. set (r4 := r3 mod 365) in *.
  exists n400, n100, n4, n1, r4.
  repeat (split; [reflexivity|]).
  clearbody n400 r1 n100 r2 n4 r3 n1 r4. lia.
Qed.

Lemma ord2ymd_leap (n400 n100 n4 n1 : Z) :
  0 <= n400 -> 0 <= n100 < 4 -> 0 <= n4 <= 24 -> 0 <= n1 < 4 ->
  _is_leap (n400 * 400 + 1 + n100 * 100 + n4 * 4 + n1)
  = (n1 =? 3) && (negb (n4 =? 24) || (n100 =? 3)).
Proof.
  intros H400 H100 H4 H1. unfold _is_leap.
  repeat match goal with
         | |- context [?a =? ?b] => destruct (Z.eqb_spec a b)
         end; cbn; try reflexivity; exfalso; Z.div_mod_to_equations; lia.
Qed.

(** [date.fromordinal] followed by [toordinal] is the identity on the
    ordinals of the years 1 to 9999. *)
Lemma ymd2ord_ord2ymd (n : Z) :
  1 <= n <= _MAXORDINAL ->
  let '(y, m, d) := _ord2ymd n in _ymd2ord y m d = n.
Proof.
  intros H.
  destruct (ord2ymd_digits n H)
    as (n400 & n100 & n4 & n1 & r & E400 & E100 & E4 & E1 & Er & Hn & B400
        & B100 & B4 & B1 & Br & R1 & R2 & R3).
  unfold _ord2ymd, _DI400Y, _DI100Y, _DI4Y. cbv zeta.
  rewrite <- E400, <- E100, <- E4, <- E1, <- Er.
  clear E400 E100 E4 E1 Er.
  unfold _ymd2ord, _days_before_year, _days_before_month.
  destruct ((n1 =? 4) || (n100 =? 4)) eqn:E.
  - assert (Hleap : _is_leap (n400 * 400 + 1 + n100 * 100 + n4 * 4 + n1 - 1)
                    = true).
    { unfold _is_leap. apply orb_true_iff in E.
      destruct E as [E|E]; apply Z.eqb_eq in E;
        repeat match goal with
               | |- context [?a =? ?b] => destruct (Z.eqb_spec a b)
               end; cbn; try reflexivity; exfalso; Z.div_mod_to_equations; lia. }
    rewrite Hleap. cbn [_DAYS_BEFORE_MONTH Z.ltb andb].
    change (2 <? 12) with true. cbn [andb].
    apply orb_true_iff in E. destruct E as [E|E]; apply Z.eqb_eq in E;
      Z.div_mod_to_equations; lia.
  - apply orb_false_iff in E. destruct E as [E1 E2].
    apply Z.eqb_neq in E1. apply Z.eqb_neq in E2.
    rewrite Z.shiftr_div_pow2 by lia. change (2 ^ 5) with 32.
    div_mod_facts (r + 50) 32.
    set (m := (r + 50) / 32) in *. clearbody m.
    assert (Hm : m = 1 \/ m = 2 \/ m = 3 \/ m = 4 \/ m = 5 \/ m = 6 \/ m = 7 \/
                 m = 8 \/ m = 9 \/ m = 10 \/ m = 11 \/ m = 12) by lia.
    pose proof (ord2ymd_leap n400 n100 n4 n1) as Hleap.
    rewrite <- Hleap by lia. clear Hleap.
    set (y := n400 * 400 + 1 + n100 * 100 + n4 * 4 + n1) in *.
    assert (Hy : y = n400 * 400 + 1 + n100 * 100 + n4 * 4 + n1) by reflexivity.
    clearbody y.
    assert (Hl : _is_leap y = true -> n1 = 3 /\ (n4 <> 24 \/ n100 = 3)).
    { rewrite Hy, ord2ymd_leap by lia. intros Hl.
      apply andb_true_iff in Hl. destruct Hl as [Ha Hb].
      apply Z.eqb_eq in Ha. apply orb_true_iff in Hb. split; [exact Ha|].
      destruct Hb as [Hb|Hb].
      - left. apply negb_true_iff in Hb. now apply Z.eqb_neq in Hb.
      - right. now apply Z.eqb_eq in Hb. }
    assert (Hl' : _is_leap y = false -> n1 <> 3 \/ (n4 = 24 /\ n100 <> 3)).
    { rewrite Hy, ord2ymd_leap by lia. intros Hl'.
      apply andb_false_iff in Hl'. destruct Hl' as [Ha|Hb].
      - left. now apply Z.eqb_neq in Ha.
      - right. apply orb_false_iff in Hb. destruct Hb as [Hb Hc].
        apply negb_false_iff in Hb. apply Z.eqb_eq in Hb.
        apply Z.eqb_neq in Hc. auto. }
    destruct (_is_leap y) eqn:El;
      [specialize (Hl eq_refl); clear Hl' | specialize (Hl' eq_refl); clear Hl];
      decompose [or] Hm; subst m; cbn;
      match goal with |- context [?a <? ?b] => destruct (Z.ltb_spec a b) end;
      cbn; rewrite ?El; eval_numerals; cbn; eval_numerals;
      Z.div_mod_to_equations; lia.
Qed.

(** The year, month and day of an ordinal of the years 1 to 9999. *)
Lemma ord2ymd_bounds (n : Z) :
  1 <= n <= _MAXORDINAL ->
  let '(y, m, d) := _ord2ymd n in
  1 <= y <= 9999 /\ 1 <= m <= 12 /\ 1 <= d <= 31.
Proof.
  intros H.
  destruct (ord2ymd_digits n H)
    as (n400 & n100 & n4 & n1 & r & E400 & E100 & E4 & E1 & Er & Hn & B400
        & B100 & B4 & B1 & Br & R1 & R2 & R3).
  unfold _MAXORDINAL in H.
  unfold _ord2ymd, _DI400Y, _DI100Y, _DI4Y. cbv zeta.
  rewrite <- E400, <- E100, <- E4, <- E1, <- Er.
  clear E400 E100 E4 E1 Er.
  destruct ((n1 =? 4) || (n100 =? 4)) eqn:E.
  - apply orb_true_iff in E. destruct E as [E|E]; apply Z.eqb_eq in E; lia.
  - apply orb_false_iff in E. destruct E as [E1 E2].
    apply Z.eqb_neq in E1. apply Z.eqb_neq in E2.
    rewrite Z.shiftr_div_pow2 by lia. change (2 ^ 5) with 32.
    div_mod_facts (r + 50) 32.
    set (m := (r + 50) / 32) in *. clearbody m.
    assert (Hm : m = 1 \/ m = 2 \/ m = 3 \/ m = 4 \/ m = 5 \/ m = 6 \/ m = 7 \/
                 m = 8 \/ m = 9 \/ m = 10 \/ m = 11 \/ m = 12) by lia.
    destruct ((n1 =? 3) && (negb (n4 =? 24) || (n100 =? 3)));
      decompose [or] Hm; subst m; cbn;
      match goal with |- context [?a <? ?b] => destruct (Z.ltb_spec a b) end;
      cbn; eval_numerals; cbn; eval_numerals; lia.
Qed.

Lemma date_toordinal_fromordinal (n : Z) :
  1 <= n <= _MAXORDINAL -> date_toordinal (date_fromordinal n) = n.
Proof.
  intros H. pose proof (ymd2ord_ord2ymd n H) as Hrt.
  unfold date_toordinal, date_fromordinal.
  destruct (_ord2ymd n) as [[y m] d]. exact Hrt.
Qed.

Lemma date_fromordinal_bounds (n : Z) :
  1 <= n <= _MAXORDINAL ->
  1 <= d_year (date_fromordinal n) <= 9999 /\
  1 <= d_month (date_fromordinal n) <= 12 /\
  1 <= d_day (date_fromordinal n) <= 31.
Proof.
  intros H. pose proof (ord2ymd_bounds n H) as Hb.
  unfold date_fromordinal. destruct (_ord2ymd n) as [[y m] d]. exact Hb.
Qed.

(** ** ISO texts of dates *)

Lemma zero_padded_length (w : nat) (n : Z) :
  String.length (zero_padded w n) = w.
Proof.
  revert n. induction w as [|w IH]; intros n; [reflexivity|].
  cbn [zero_padded]. rewrite length_append, IH. cbn. lia.
Qed.

Lemma append_inj_length (a1 a2 b1 b2 : string) :
  String.length a1 = String.length a2 ->
  a1 +:+ b1 = a2 +:+ b2 -> a1 = a2 /\ b1 = b2.
Proof.
  revert a2. induction a1 as [|c a1 IH]; intros [|c' a2] Hlen Heq;
    try discriminate.
  - auto.
  - rewrite !append_cons in Heq. injection Heq as -> Heq.
    cbn in Hlen. destruct (IH a2 ltac:(lia) Heq) as [-> ->]. auto.
Qed.

Lemma digit_char_inj (a b : Z) :
  0 <= a < 10 -> 0 <= b < 10 -> digit_char a = digit_char b -> a = b.
Proof.
  intros Ha Hb H. unfold digit_char in H.
  apply (f_equal nat_of_ascii) in H.
  rewrite !nat_ascii_embedding in H by lia. lia.
Qed.

Lemma zero_padded_inj (w : nat) (a b : Z) :
  0 <= a < 10 ^ Z.of_nat w -> 0 <= b < 10 ^ Z.of_nat w ->
  zero_padded w a = zero_padded w b -> a = b.
Proof.
  revert a b. induction w as [|w IH]; intros a b Ha Hb H.
  - change (10 ^ Z.of_nat 0) with 1 in *. lia.
  - rewrite Nat2Z.inj_succ, Z.pow_succ_r in Ha, Hb by lia.
    cbn [zero_padded] in H.
    apply append_inj_length in H; [|now rewrite !zero_padded_length].
    destruct H as [H1 H2]. injection H2 as H2.
    apply digit_char_inj in H2; [|apply Z.mod_pos_bound; lia..].
    apply IH in H1; [|split; [apply Z.div_pos; lia
                             |apply Z.div_lt_upper_bound; lia]..].
    rewrite (Z.div_mod a 10), (Z.div_mod b 10) by lia. lia.
Qed.

Lemma date_isoformat_inj (d1 d2 : date) :
  0 <= d_year d1 < 10000 -> 0 <= d_month d1 < 100 -> 0 <= d_day d1 < 100 ->
  0 <= d_year d2 < 10000 -> 0 <= d_month d2 < 100 -> 0 <= d_day d2 < 100 ->
  date_isoformat d1 = date_isoformat d2 -> d1 = d2.
Proof.
  destruct d1 as [y1 m1 dd1], d2 as [y2 m2 dd2]. unfold date_isoformat.
  cbn [d_year d_month d_day]. intros Hy1 Hm1 Hd1 Hy2 Hm2 Hd2 H.
  apply append_inj_length in H; [|now rewrite !zero_padded_length].
  destruct H as [Hy H]. apply (inj (String.append "-")) in H.
  apply append_inj_length in H; [|now rewrite !zero_padded_length].
  destruct H as [Hm H]. apply (inj (String.append "-")) in H.
  apply (zero_padded_inj 4) in Hy; [|assumption..].
  apply (zero_padded_inj 2) in Hm; [|assumption..].
  apply (zero_padded_inj 2) in H; [|assumption..].
  congruence.
Qed.

(** Distinct days of the years 1 to 9999 have distinct ISO texts. *)
Lemma ordinal_isoformat_inj (n1 n2 : Z) :
  1 <= n1 <= _MAXORDINAL -> 1 <= n2 <= _MAXORDINAL ->
  date_isoformat (date_fromordinal n1) = date_isoformat (date_fromordinal n2) ->
  n1 = n2.
Proof.
  intros H1 H2 H.
  pose proof (date_fromordinal_bounds n1 H1) as (? & ? & ?).
  pose proof (date_fromordinal_bounds n2 H2) as (? & ? & ?).
  apply date_isoformat_inj in H; try lia.
  rewrite <- (date_toordinal_fromordinal n1 H1),
          <- (date_toordinal_fromordinal n2 H2).
  now rewrite H.
Qed.

(** ** Daily counts *)

Lemma elem_of_range (n i : Z) : i ∈ range n <-> 0 <= i < n.
Proof.
  unfold range. rewrite list_elem_of_In, in_map_iff. split.
  - intros [k [<- Hk]]. apply in_seq in Hk. lia.
  - intros Hi. exists (Z.to_nat i). split; [lia|]. apply in_seq. lia.
Qed.

Lemma NoDup_range (n : Z) : NoDup (range n).
Proof.
  unfold range. apply (NoDup_fmap_2 Z.of_nat). apply NoDup_seq.
Qed.

Lemma length_range (n : Z) : 0 <= n -> Z.of_nat (List.length (range n)) = n.
Proof. intros H. unfold range. rewrite length_map, length_seq. lia. Qed.

Lemma mapM_result_ok {A B : Type} (f : A -> result B) (g : A -> B)
    (xs : list A) :
  (forall x, x ∈ xs -> f x = Ok (g x)) -> mapM_result f xs = Ok (map g xs).
Proof.
  induction xs as [|x xs IH]; intros H; [reflexivity|].
  cbn [mapM_result map]. rewrite (H x) by apply list_elem_of_here.
  cbn [rbind]. rewrite IH; [reflexivity|].
  intros y Hy. apply H. now apply list_elem_of_further.
Qed.

Lemma dict_of_rows_fold_other (data : list (string * Z)) (m : gmap string Z)
    (k : string) :
  k ∉ map fst data ->
  foldl (fun m row => <[fst row := snd row]> m) m data !! k = m !! k.
Proof.
  revert m. induction data as [|[k' v'] data IH]; intros m Hk; [reflexivity|].
  cbn [foldl map fst snd] in *. apply not_elem_of_cons in Hk.
  destruct Hk as [Hne Hk]. rewrite IH by exact Hk.
  now rewrite lookup_insert_ne.
Qed.

Lemma dict_of_rows_fold_elem (data : list (string * Z)) (m : gmap string Z)
    (k : string) (v : Z) :
  NoDup (map fst data) -> (k, v) ∈ data ->
  foldl (fun m row => <[fst row := snd row]> m) m data !! k = Some v.
Proof.
  revert m. induction data as [|[k' v'] data IH]; intros m Hnd Hin.
  - inversion Hin.
  - cbn [foldl map fst snd] in *. apply NoDup_cons in Hnd.
    destruct Hnd as [Hnotin Hnd]. apply elem_of_cons in Hin.
    destruct Hin as [[= -> ->]|Hin].
    + rewrite dict_of_rows_fold_other by exact Hnotin.
      apply lookup_insert_eq.
    + now apply IH.
Qed.

Lemma count_of_absent (k : string) (keys : list string) :
  k ∉ keys -> count_of k keys = 0.
Proof.
  unfold count_of. induction keys as [|k' keys IH]; intros H; [reflexivity|].
  apply not_elem_of_cons in H. destruct H as [Hne H]. cbn [List.filter].
  destruct (String.eqb_spec k k'); [contradiction | now apply IH].
Qed.

(** The dict built from the query's rows holds, for every key, the number
    of selected rows with that key, and nothing for a key without rows. *)
Lemma map_counts_lookup (keys : list string) (k : string) :
  default 0 (dict_of_rows (group_count keys) !! k) = count_of k keys.
Proof.
  unfold dict_of_rows, group_count.
  set (ks := merge_sort String.le (remove_dups keys)).
  assert (Hperm : ks ≡ₚ remove_dups keys) by apply merge_sort_Permutation.
  assert (Hfst : map fst (map (fun k0 => (k0, count_of k0 keys)) ks) = ks).
  { rewrite map_map. cbn. apply map_id. }
  destruct (decide (k ∈ keys)) as [Hin|Hout].
  - rewrite (dict_of_rows_fold_elem _ _ k (count_of k keys)); [reflexivity| |].
    + rewrite Hfst, Hperm. apply NoDup_remove_dups.
    + apply list_elem_of_In, in_map_iff. exists k. split; [reflexivity|].
      apply list_elem_of_In. rewrite Hperm. now apply elem_of_remove_dups.
  - rewrite dict_of_rows_fold_other.
    + rewrite lookup_empty. cbn. symmetry. now apply count_of_absent.
    + rewrite Hfst, Hperm. now rewrite elem_of_remove_dups.
Qed.

Lemma count_of_map_filter (P : article -> bool) (key : article -> string)
    (k : string) (db : list article) :
  count_of k (map key (List.filter P db))
  = Z.of_nat (List.length
                (List.filter (fun r => P r && String.eqb k (key r)) db)).
Proof.
  unfold count_of. f_equal. induction db as [|r db IH]; [reflexivity|].
  cbn [List.filter]. destruct (P r); cbn [andb map List.filter].
  - destruct (String.eqb k (key r)); cbn [List.length]; now rewrite IH.
  - exact IH.
Qed.

Lemma sum_Z_zero {A : Type} (l : list A) : sum_Z (map (fun _ => 0) l) = 0.
Proof. induction l as [|x l IH]; cbn; [reflexivity | exact IH]. Qed.

Lemma sum_Z_add {A : Type} (f g : A -> Z) (l : list A) :
  sum_Z (map (fun x => f x + g x) l) = sum_Z (map f l) + sum_Z (map g l).
Proof.
  induction l as [|x l IH]; [reflexivity|].
  cbn [map sum_Z fold_right] in *. fold (sum_Z (map f l)) (sum_Z (map g l))
    (sum_Z (map (fun x => f x + g x) l)). lia.
Qed.

Lemma sum_Z_indicator (b : bool) (k : string) (labels : list string) :
  NoDup labels ->
  sum_Z (map (fun l => if b && String.eqb l k then 1 else 0) labels)
  = if b && bool_decide (k ∈ labels) then 1 else 0.
Proof.
  destruct b; cbn [andb]; [|intros _; apply sum_Z_zero].
  induction labels as [|l labels IH]; intros Hnd; [reflexivity|].
  apply NoDup_cons in Hnd. destruct Hnd as [Hnotin Hnd].
  cbn [map sum_Z fold_right].
  fold (sum_Z (map (fun l => if String.eqb l k then 1 else 0) labels)).
  rewrite (IH Hnd).
  destruct (String.eqb_spec l k) as [->|Hne].
  - rewrite (bool_decide_eq_true_2 (k ∈ k :: labels))
      by apply list_elem_of_here.
    rewrite (bool_decide_eq_false_2 (k ∈ labels)) by exact Hnotin. reflexivity.
  - destruct (decide (k ∈ labels)) as [Hin|Hout].
    + rewrite (bool_decide_eq_true_2 _ Hin),
        (bool_decide_eq_true_2 (k ∈ l :: labels))
        by (now apply list_elem_of_further). reflexivity.
    + rewrite (bool_decide_eq_false_2 _ Hout),
        (bool_decide_eq_false_2 (k ∈ l :: labels)); [reflexivity|].
      intros Hin. apply elem_of_cons in Hin. destruct Hin; congruence.
Qed.

(** Over labels without repetition, the per-label counts add up to the
    number of rows whose key is one of the labels. *)
Lemma sum_Z_counts (P : article -> bool) (key : article -> string)
    (labels : list string) (db : list article) :
  NoDup labels ->
  sum_Z (map (fun l => Z.of_nat (List.length
           (List.filter (fun r => P r && String.eqb l (key r)) db))) labels)
  = Z.of_nat (List.length
      (List.filter (fun r => P r && bool_decide (key r ∈ labels)) db)).
Proof.
  intros Hnd. induction db as [|r db IH].
  - cbn [List.filter List.length]. apply sum_Z_zero.
  - cbn [List.filter].
    transitivity
      (sum_Z (map (fun l =>
                (if P r && String.eqb l (key r) then 1 else 0)
                + Z.of_nat (List.length
                    (List.filter (fun r => P r && String.eqb l (key r)) db)))
              labels)).
    + f_equal. apply map_ext. intros l.
      destruct (P r && String.eqb l (key r)); cbn [List.length]; lia.
    + rewrite sum_Z_add, IH, sum_Z_indicator by exact Hnd.
      destruct (P r && bool_decide (key r ∈ labels)); cbn [List.length]; lia.
Qed.

Lemma datetime_sub_days_ok (now : datetime) (days : Z) :
  0 <= days ->
  1 <= date_toordinal (datetime_date now) - days ->
  date_toordinal (datetime_date now) <= _MAXORDINAL ->
  exists since,
    datetime_sub_days now days = Ok since /\
    datetime_date since
    = date_fromordinal (date_toordinal (datetime_date now) - days).
Proof.
  intros Hd Hlo Hhi. unfold datetime_sub_days.
  unfold _MAXORDINAL in *.
  destruct (Z.ltb_spec 999999999 (Z.abs days)); [lia|].
  destruct (Z.ltb_spec 0 (date_toordinal (datetime_date now) - days)); [|lia].
  destruct (Z.leb_spec (date_toordinal (datetime_date now) - days) 3652059);
    [|lia].
  cbn [andb]. eexists. split; [reflexivity|].
  unfold datetime_date at 1. cbn [year month day].
  now destruct (date_fromordinal _).
Qed.

(** C6, as the code has it: for a window of [days] days that ends at the
    call, [api_trend] returns one entry for each calendar day from the day
    of [since = now - days] to the day of the call, in order and without
    repetition; the count of a day is the number of stored articles that
    the query selects (timestamp at or after [since]) and whose stored
    timestamp text begins with that day, zero included; so the counts add
    up to the number of selected articles whose timestamp text begins with
    one of the listed days. *)
Theorem C6_daily_counts (days : Z) (db : list article) (t : nat) :
  0 <= days ->
  1 <= date_toordinal (datetime_date (clock t)) - days ->
  date_toordinal (datetime_date (clock t)) <= _MAXORDINAL ->
  exists (since : datetime) (labels : list string) (counts : list Z),
    datetime_sub_days (clock t) days = Ok since /\
    api_trend days db t = (Ok (labels, counts), S t) /\
    labels
    = map (fun i => date_isoformat
                      (date_fromordinal
                         (date_toordinal (datetime_date (clock t)) - days + i)))
          (range (days + 1)) /\
    Z.of_nat (List.length labels) = days + 1 /\
    NoDup labels /\
    counts
    = map (fun d => Z.of_nat (List.length (counted_on (isoformat since) d db)))
          labels /\
    sum_Z counts
    = Z.of_nat (List.length (counted_in (isoformat since) labels db)).
Proof.
  intros Hd Hlo Hhi.
  set (today := date_toordinal (datetime_date (clock t))) in *.
  destruct (datetime_sub_days_ok (clock t) days Hd Hlo Hhi)
    as (since & Hsince & Hdate).
  fold today in Hdate.
  set (first := today - days) in *.
  set (g := fun i => date_fromordinal (first + i)).
  assert (Hiter : mapM_result (date_add_days (datetime_date since))
                    (range (days + 1)) = Ok (map g (range (days + 1)))).
  { apply mapM_result_ok. intros i Hi. apply elem_of_range in Hi.
    unfold date_add_days. rewrite Hdate.
    rewrite date_toordinal_fromordinal by (unfold _MAXORDINAL in *; lia).
    unfold _MAXORDINAL in *.
    destruct (Z.ltb_spec 0 (first + i)); [|lia].
    destruct (Z.leb_spec (first + i) 3652059); [|lia]. reflexivity. }
  set (labels := map (fun i => date_isoformat (g i)) (range (days + 1))).
  assert (Hnd : NoDup labels).
  { apply NoDup_fmap_2_strong; [|apply NoDup_range].
    intros i j Hi Hj Heq. apply elem_of_range in Hi, Hj.
    apply ordinal_isoformat_inj in Heq; unfold _MAXORDINAL in *; lia. }
  exists since, labels,
    (map (fun d => Z.of_nat (List.length (counted_on (isoformat since) d db)))
       labels).
  split; [exact Hsince|]. split; [|split; [reflexivity|split; [|split; [exact Hnd|split; [reflexivity|]]]]].
  - unfold api_trend, bind, utcnow, lift, ret. rewrite Hsince, Hiter.
    f_equal. f_equal. f_equal.
    + unfold labels. now rewrite map_map.
    + unfold labels. rewrite !map_map. apply map_ext. intros i.
      unfold trend_query. rewrite map_counts_lookup, count_of_map_filter.
      reflexivity.
  - unfold labels. rewrite length_map. apply length_range. lia.
  - apply (sum_Z_counts (in_window (isoformat since))
             (fun r => sql_substr_1_10 (published_at r)) labels db Hnd).
Qed.

(** * Further properties *)

(** ** Strings *)

Lemma append_nil_r (s : string) : s +:+ EmptyString = s.
Proof. induction s as [|c s IH]; [reflexivity|]. now rewrite append_cons, IH. Qed.

Lemma append_assoc (a b c : string) : (a +:+ b) +:+ c = a +:+ (b +:+ c).
Proof.
  induction a as [|x a IH]; [reflexivity|]. now rewrite !append_cons, IH.
Qed.

(** ** Persistence *)

Lemma categorize_in_CATEGORIES (text : pyval) : categorize text ∈ CATEGORIES.
Proof.
  unfold CATEGORIES, categorize. destruct text as [|[|c s]];
    try (apply elem_of_app; right; apply list_elem_of_here).
  destruct (first_category (str_lower (String c s)) CATEGORY_KEYWORDS) eqn:E.
  - apply elem_of_app. left. exact (first_category_key _ _ _ E).
  - apply elem_of_app. right. apply list_elem_of_here.
Qed.

(** One iteration, when it does not raise: the rows stay, at most one row
    is appended, the total grows by the number of rows appended, and an
    appended row has a fixed category. *)
Lemma save_item_appends (db db' : list article) (total total' : Z)
    (a : gmap string pyval) (t t' : nat) :
  save_item (db, total) a t = (Ok (db', total'), t') ->
  t' = S (S t) /\
  exists added : list article,
    db' = db ++ added /\ total' = total + Z.of_nat (List.length added) /\
    (List.length added <= 1)%nat /\ Forall category_ok added.
Proof.
  rewrite save_item_eq.
  destruct (categorize_arg a (dict_get a "title" PyNone)) as [text|e];
    [|discriminate].
  cbv zeta.
  match goal with |- context [insert_or_ignore ?d ?a1 ?a2 ?a3 ?a4 ?a5 ?a6] =>
    destruct (insert_or_ignore_cases d a1 a2 a3 a4 a5 a6)
      as [->|(ti & u & s & p & c & _ & _ & _ & _ & _ & _ & ->)]
  end; cbn [fst snd]; intros [= <- <- <-]; (split; [reflexivity|]).
  - exists []. rewrite app_nil_r. cbn. repeat split; [lia | lia | constructor].
  - eexists [_]. split; [reflexivity|]. cbn. repeat split; [lia|].
    constructor; [|constructor]. eexists. split; [reflexivity|].
    apply categorize_in_CATEGORIES.
Qed.

Lemma foldM_save_item_appends (items : list (gmap string pyval))
    (db db' : list article) (total total' : Z) (t t' : nat) :
  foldM save_item (db, total) items t = (Ok (db', total'), t') ->
  t' = (t + 2 * List.length items)%nat /\
  exists added : list article,
    db' = db ++ added /\ total' = total + Z.of_nat (List.length added) /\
    (List.length added <= List.length items)%nat /\ Forall category_ok added.
Proof.
  revert db total t. induction items as [|a items IH]; intros db total t.
  - cbn [foldM]. unfold ret. intros [= <- <- <-]. split; [cbn; lia|].
    exists []. rewrite app_nil_r. cbn. repeat split; [lia | lia | constructor].
  - cbn [foldM]. unfold bind at 1.
    destruct (save_item (db, total) a t) as [[[db1 total1]|e] t1] eqn:E;
      [|discriminate].
    intros Hrest.
    destruct (save_item_appends _ _ _ _ _ _ _ E)
      as (-> & added1 & -> & -> & Hlen1 & Hcat1).
    destruct (IH _ _ _ Hrest) as (-> & added2 & -> & -> & Hlen2 & Hcat2).
    split; [cbn [List.length]; lia|].
    exists (added1 ++ added2). rewrite app_assoc, length_app.
    repeat split; [lia | cbn [List.length]; lia | now apply Forall_app].
Qed.

Lemma save_articles_grows (items : list (gmap string pyval))
    (db db' : list article) (n : Z) (t t' : nat) :
  save_articles items db t = (Ok (n, db'), t') ->
  exists added : list article,
    db' = db ++ added /\ n = Z.of_nat (List.length added) /\
    (List.length added <= List.length items)%nat /\
    Forall category_ok added /\
    (items <> [] -> t' = (t + 2 * List.length items)%nat).
Proof.
  destruct items as [|a items].
  - cbn. unfold ret. intros [= <- <- <-]. exists [].
    rewrite app_nil_r. split; [reflexivity|]. split; [reflexivity|].
    split; [cbn; lia|]. split; [constructor | congruence].
  - rewrite save_articles_nonempty.
    destruct (foldM save_item (db, 0) (a :: items) t) as [[[db1 n1]|e] t1] eqn:E;
      [|discriminate].
    cbn [fst snd]. intros [= <- <- <-].
    destruct (foldM_save_item_appends _ _ _ _ _ _ _ E)
      as (-> & added & -> & -> & Hlen & Hcat).
    exists added. split; [reflexivity|]. split; [lia|]. split; [exact Hlen|].
    split; [exact Hcat|]. intros _. reflexivity.
Qed.

(** X1: a batch that [save_articles] accepts only appends rows to the
    stored table, the returned total is the number of rows appended, it is
    at most the number of items of the batch, and the clock is read twice
    per item. *)
Theorem X1_save_articles_appends (items : list (gmap string pyval))
    (db db' : list article) (n : Z) (t t' : nat) :
  save_articles items db t = (Ok (n, db'), t') ->
  exists added : list article,
    db' = db ++ added /\ n = Z.of_nat (List.length added) /\
    (List.length added <= List.length items)%nat /\
    (items <> [] -> t' = (t + 2 * List.length items)%nat).
Proof.
  intros H.
  destruct (save_articles_grows _ _ _ _ _ _ H)
    as (added & Hdb & Hn & Hlen & _ & Ht).
  exists added. auto.
Qed.

(** X2: the [UNIQUE] constraint on [url] is kept by every batch: when no
    two stored rows share a url before [save_articles], none do after. *)
Theorem X2_save_articles_keeps_urls_unique (items : list (gmap string pyval))
    (db db' : list article) (n : Z) (t t' : nat) :
  NoDup (map url db) ->
  save_articles items db t = (Ok (n, db'), t') ->
  NoDup (map url db').
Proof. apply save_articles_unique. Qed.

(** X3: every row that [save_articles] writes carries one of the fixed
    categories, so a table whose rows all do keeps that property. *)
Theorem X3_save_articles_keeps_categories (items : list (gmap string pyval))
    (db db' : list article) (n : Z) (t t' : nat) :
  Forall category_ok db ->
  save_articles items db t = (Ok (n, db'), t') ->
  Forall category_ok db'.
Proof.
  intros Hdb H.
  destruct (save_articles_grows _ _ _ _ _ _ H) as (added & -> & _ & _ & Hcat & _).
  now apply Forall_app.
Qed.

Lemma categorize_arg_ok_iff (a : gmap string pyval) :
  (exists text, categorize_arg a (dict_get a "title" PyNone) = Ok text)
  <-> no_type_error a.
Proof.
  split; [|apply categorize_arg_ok].
  intros [text H]. unfold no_type_error, has_text.
  unfold categorize_arg in H.
  destruct (truthy (dict_get a "summary" PyNone)) eqn:Hs; [|now right].
  left. unfold dict_get in H at 1.
  destruct (a !! "title") as [[|s]|]; try discriminate. now exists s.
Qed.

Lemma categorize_arg_raises (a : gmap string pyval) :
  ~ no_type_error a ->
  categorize_arg a (dict_get a "title" PyNone) = Raise TypeError.
Proof.
  intros Hno.
  destruct (categorize_arg a (dict_get a "title" PyNone)) as [text|e] eqn:E.
  - exfalso. apply Hno. apply categorize_arg_ok_iff. now exists text.
  - unfold categorize_arg in E.
    destruct (truthy (dict_get a "summary" PyNone)); [|discriminate].
    unfold py_add, rbind in E.
    destruct (dict_get a "title" PyNone).
    + congruence.
    + destruct (dict_get a "summary" (PyStr EmptyString)); congruence.
Qed.

Lemma foldM_save_item_ok (items : list (gmap string pyval))
    (st : list article * Z) (t : nat) :
  Forall no_type_error items ->
  exists st' t', foldM save_item st items t = (Ok st', t').
Proof.
  revert st t. induction items as [|a items IH]; intros [db total] t Hall.
  - cbn. unfold ret. eauto.
  - apply Forall_cons in Hall. destruct Hall as [Ha Hall].
    cbn [foldM]. unfold bind at 1. rewrite save_item_eq.
    destruct (categorize_arg_ok a Ha) as [text ->]. cbv zeta.
    apply IH. exact Hall.
Qed.

Lemma foldM_save_item_raises_at (items : list (gmap string pyval))
    (st : list article * Z) (t : nat) :
  ~ Forall no_type_error items ->
  exists t', (t < t')%nat /\
             foldM save_item st items t = (Raise TypeError, t').
Proof.
  revert st t. induction items as [|a items IH]; intros [db total] t Hno.
  - exfalso. apply Hno. constructor.
  - cbn [foldM]. unfold bind at 1. rewrite save_item_eq.
    destruct (categorize_arg a (dict_get a "title" PyNone)) as [text|e] eqn:E.
    + cbv beta iota zeta.
      match goal with |- context [foldM save_item ?st' items ?t1] =>
        destruct (IH st' t1) as (t' & Hlt & ->)
      end.
      * intros Hall. apply Hno. constructor; [|exact Hall].
        apply categorize_arg_ok_iff. now exists text.
      * exists t'. split; [lia | reflexivity].
    + assert (Ha : ~ no_type_error a).
      { intros Ha. destruct (categorize_arg_ok a Ha) as [x Hx]. congruence. }
      rewrite (categorize_arg_raises a Ha) in E. injection E as <-.
      exists (S t). split; [lia | reflexivity].
Qed.

Lemma foldM_save_item_raises (items : list (gmap string pyval))
    (st : list article * Z) (t : nat) :
  ~ Forall no_type_error items ->
  exists t', foldM save_item st items t = (Raise TypeError, t').
Proof.
  intros Hno. destruct (foldM_save_item_raises_at items st t Hno) as (t' & _ & H).
  eauto.
Qed.

(** X4: [save_articles] raises exactly when the batch holds an item that
    carries a summary and no text title, and then it raises [TypeError];
    in every other case it returns. *)
Theorem X4_save_articles_raises_iff (items : list (gmap string pyval))
    (db : list article) (t : nat) :
  (Forall no_type_error items ->
   exists n db' t', save_articles items db t = (Ok (n, db'), t')) /\
  (~ Forall no_type_error items ->
   exists t', save_articles items db t = (Raise TypeError, t')).
Proof.
  split.
  - intros Hall. destruct items as [|a items].
    + cbn. unfold ret. eauto.
    + rewrite save_articles_nonempty.
      destruct (foldM_save_item_ok (a :: items) (db, 0) t Hall)
        as ([db' n] & t' & ->). cbn [fst snd]. eauto.
  - intros Hno. destruct items as [|a items].
    + exfalso. apply Hno. constructor.
    + rewrite save_articles_nonempty.
      destruct (foldM_save_item_raises (a :: items) (db, 0) t Hno)
        as (t' & ->). eauto.
Qed.

Lemma has_url_app (u : string) (db added : list article) :
  has_url u db = true -> has_url u (db ++ added) = true.
Proof.
  rewrite !has_url_spec, map_app, elem_of_app. now left.
Qed.

Lemma skipped_in_app (a : gmap string pyval) (db added : list article) :
  skipped_in a db -> skipped_in a (db ++ added).
Proof.
  unfold skipped_in. intros [H|[H|[H|[H|(u & Hu & H)]]]]; auto.
  do 4 right. exists u. split; [exact Hu | now apply has_url_app].
Qed.

Lemma skipped_in_insert (a : gmap string pyval) (db : list article)
    (vp vc vcat : pyval) :
  skipped_in a db ->
  insert_or_ignore db (dict_get a "title" PyNone) (dict_get a "url" PyNone)
    (dict_get a "source" (PyStr EmptyString))
    (dict_get a "published_at" vp) vc vcat = (db, 0).
Proof.
  unfold skipped_in, insert_or_ignore.
  intros [H|[H|[H|[H|(u & Hu & H)]]]].
  - now rewrite H.
  - rewrite H. now destruct (dict_get a "title" PyNone).
  - rewrite (dict_get_Some _ _ _ _ H).
    now destruct (dict_get a "title" PyNone), (dict_get a "url" PyNone).
  - rewrite (dict_get_Some _ _ _ _ H).
    now destruct (dict_get a "title" PyNone), (dict_get a "url" PyNone),
      (dict_get a "source" (PyStr EmptyString)).
  - rewrite Hu, H.
    now destruct (dict_get a "title" PyNone),
      (dict_get a "source" (PyStr EmptyString)), (dict_get a "published_at" vp),
      vc.
Qed.

(** After its own insert, an item is one that the table skips. *)
Lemma insert_settles (a : gmap string pyval) (db : list article)
    (now1 c : string) (vcat : pyval) :
  skipped_in a
    (fst (insert_or_ignore db (dict_get a "title" PyNone)
            (dict_get a "url" PyNone) (dict_get a "source" (PyStr EmptyString))
            (dict_get a "published_at" (PyStr now1)) (PyStr c) vcat)).
Proof.
  unfold skipped_in, insert_or_ignore.
  destruct (dict_get a "title" PyNone) as [|ti]; [now left|].
  destruct (dict_get a "url" PyNone) as [|u]; [now right; left|].
  unfold dict_get at 1 2.
  destruct (a !! "source") as [[|s]|]; [now right; right; left| |];
    (destruct (a !! "published_at") as [[|p]|];
       [now right; right; right; left| |]);
    cbn [from_option]; unfold id;
    (do 4 right; exists u; split; [reflexivity|]);
    (destruct (has_url u db) eqn:E; cbn [fst]; [exact E|]);
    apply has_url_spec; rewrite map_app; apply elem_of_app; right;
    apply list_elem_of_here.
Qed.

Lemma foldM_save_item_settles (items : list (gmap string pyval))
    (db db' : list article) (total total' : Z) (t t' : nat) :
  foldM save_item (db, total) items t = (Ok (db', total'), t') ->
  Forall (fun a => skipped_in a db' /\ no_type_error a) items.
Proof.
  revert db total t. induction items as [|a items IH]; intros db total t.
  - intros _. constructor.
  - cbn [foldM]. unfold bind at 1. rewrite save_item_eq.
    destruct (categorize_arg a (dict_get a "title" PyNone)) as [text|e] eqn:Hc;
      [|discriminate].
    cbv zeta. intros Hrest. constructor; [|exact (IH _ _ _ Hrest)].
    split; [|apply categorize_arg_ok_iff; now exists text].
    destruct (foldM_save_item_appends _ _ _ _ _ _ _ Hrest)
      as (_ & added & -> & _).
    apply skipped_in_app, insert_settles.
Qed.

Lemma foldM_save_item_skipped (items : list (gmap string pyval))
    (db : list article) (total : Z) (t : nat) :
  Forall (fun a => skipped_in a db /\ no_type_error a) items ->
  foldM save_item (db, total) items t
  = (Ok (db, total), (t + 2 * List.length items)%nat).
Proof.
  revert t. induction items as [|a items IH]; intros t Hall.
  - cbn. unfold ret. f_equal. lia.
  - apply Forall_cons in Hall. destruct Hall as [[Hskip Hok] Hall].
    cbn [foldM]. unfold bind at 1. rewrite save_item_eq.
    destruct (categorize_arg_ok a Hok) as [text ->]. cbv zeta.
    rewrite (skipped_in_insert a db _ _ _ Hskip). cbn [fst snd Z.eqb].
    rewrite (IH _ Hall). f_equal. cbn [List.length]. lia.
Qed.

(** X5: a batch that [save_articles] has accepted is skipped as a whole
    when it is saved again on the table the first call left, at any later
    time: the second call writes nothing and returns [0]. *)
Theorem X5_save_articles_batch_idempotent (items : list (gmap string pyval))
    (db db1 : list article) (n : Z) (t t1 : nat) :
  save_articles items db t = (Ok (n, db1), t1) ->
  forall t2 : nat,
    save_articles items db1 t2
    = (Ok (0, db1), (t2 + 2 * List.length items)%nat).
Proof.
  destruct items as [|a items].
  - cbn. unfold ret. intros [= <- <- <-] t2. f_equal. lia.
  - rewrite save_articles_nonempty.
    destruct (foldM save_item (db, 0) (a :: items) t) as [[[db' n']|e] t'] eqn:E;
      [|discriminate].
    cbn [fst snd]. intros [= <- <- <-] t2.
    rewrite save_articles_nonempty.
    now rewrite (foldM_save_item_skipped _ _ _ _
                   (foldM_save_item_settles _ _ _ _ _ _ _ E)).
Qed.

Lemma categorize_arg_text (a : gmap string pyval) (ti : string) :
  categorize_arg a (PyStr ti) = Ok (PyStr (ti +:+ summary_suffix a)).
Proof.
  unfold categorize_arg, summary_suffix.
  destruct (dict_get a "summary" PyNone) as [|[|c s]] eqn:E; cbn [truthy].
  - now rewrite append_nil_r.
  - now rewrite append_nil_r.
  - unfold dict_get in E |- *. destruct (a !! "summary") as [v|]; [|discriminate].
    cbn [default from_option] in E |- *. unfold id in E |- *. subst v.
    cbn [py_add rbind]. now rewrite append_assoc.
Qed.

(** X23: what [save_articles] stores for a new item.  The row holds the
    item's title and url, its source (the empty text when the key is
    absent), its timestamp text as it is (the first clock reading of the
    iteration when the key is absent), the second clock reading as
    [created_at], and the category of the title followed by the summary;
    the summary itself is not stored. *)
Theorem X23_save_articles_stored_row (a : gmap string pyval) (ti u : string)
    (db : list article) (t : nat) :
  a !! "title" = Some (PyStr ti) ->
  a !! "url" = Some (PyStr u) ->
  has_url u db = false ->
  not_none a "source" -> not_none a "published_at" ->
  save_articles [a] db t
  = (Ok (1, db ++ [mkArticle ti u
                     (text_or (a !! "source") EmptyString)
                     (text_or (a !! "published_at") (isoformat (clock t)))
                     (isoformat (clock (S t)))
                     (PyStr (categorize (PyStr (ti +:+ summary_suffix a))))]),
     S (S t)).
Proof.
  intros Hti Hu Hnew Hsrc Hpub.
  rewrite save_articles_single, save_item_eq.
  rewrite (dict_get_Some a "title" _ _ Hti), (dict_get_Some a "url" _ _ Hu).
  rewrite categorize_arg_text. cbv zeta.
  assert (Hs : dict_get a "source" (PyStr EmptyString)
               = PyStr (text_or (a !! "source") EmptyString)).
  { unfold not_none in Hsrc. unfold dict_get, text_or.
    destruct (a !! "source") as [[|s]|]; [congruence | reflexivity..]. }
  assert (Hp : dict_get a "published_at" (PyStr (isoformat (clock t)))
               = PyStr (text_or (a !! "published_at") (isoformat (clock t)))).
  { unfold not_none in Hpub. unfold dict_get, text_or.
    destruct (a !! "published_at") as [[|s]|]; [congruence | reflexivity..]. }
  rewrite Hs, Hp, insert_or_ignore_new by exact Hnew. reflexivity.
Qed.

(** ** Idempotent ingestion *)

Lemma save_articles_settles (items : list (gmap string pyval))
    (db db1 : list article) (n : Z) (t t1 : nat) :
  save_articles items db t = (Ok (n, db1), t1) ->
  Forall (fun a => skipped_in a db1 /\ no_type_error a) items.
Proof.
  destruct items as [|a items]; [constructor|].
  rewrite save_articles_nonempty.
  destruct (foldM save_item (db, 0) (a :: items) t) as [[[db' n']|e] t'] eqn:E;
    [|discriminate].
  cbn [fst snd]. intros [= <- <- <-].
  exact (foldM_save_item_settles _ _ _ _ _ _ _ E).
Qed.

Lemma save_articles_skipped (a : gmap string pyval) (db : list article)
    (t : nat) :
  skipped_in a db -> no_type_error a ->
  save_articles [a] db t = (Ok (0, db), S (S t)).
Proof.
  intros Hskip Hok. rewrite save_articles_nonempty, foldM_save_item_skipped.
  - cbn [fst snd List.length]. f_equal. lia.
  - constructor; [now split | constructor].
Qed.

Lemma rows_with_url_at_most_one (u : string) (db : list article) :
  NoDup (map url db) -> (List.length (rows_with_url u db) <= 1)%nat.
Proof.
  intros Hnd. destruct (has_url u db) eqn:Hhas.
  - now rewrite rows_with_url_unique.
  - rewrite rows_with_url_absent by exact Hhas. cbn. lia.
Qed.


(** ** Orchestrator *)

Lemma crawl_loop_appends (scrapers : list (M (list (gmap string pyval))))
    (total n : Z) (db db' : list article) (t t' : nat) :
  crawl_loop scrapers total db t = (n, db', t') ->
  exists added : list article,
    db' = db ++ added /\ n = total + Z.of_nat (List.length added) /\
    (Forall category_ok db -> Forall category_ok db').
Proof.
  revert total db t. induction scrapers as [|s rest IH]; intros total db t.
  - cbn. intros [= <- <- <-]. exists []. rewrite app_nil_r.
    split; [reflexivity|]. split; [cbn; lia | auto].
  - cbn [crawl_loop]. destruct (s t) as [[items|e] t1]; [|now apply IH].
    destruct (save_articles items db t1) as [[[m db1]|e] t2] eqn:E;
      [|now apply IH].
    intros Hrest. destruct (IH _ _ _ Hrest) as (added2 & -> & -> & Hcat2).
    destruct (save_articles_grows _ _ _ _ _ _ E)
      as (added1 & -> & -> & _ & Hcat1 & _).
    exists (added1 ++ added2). rewrite app_assoc, length_app.
    split; [reflexivity|]. split; [lia|].
    intros Hdb. apply Hcat2. now apply Forall_app.
Qed.

(** X6: a pass of the orchestrator over any list of adapters only appends
    rows, returns the number of rows it appended, and keeps both the
    uniqueness of the stored urls and the fixed categories. *)
Theorem X6_crawl_pass_invariants
    (scrapers : list (M (list (gmap string pyval))))
    (db db' : list article) (n : Z) (t t' : nat) :
  crawl_all_over scrapers db t = (n, db', t') ->
  exists added : list article,
    db' = db ++ added /\ n = Z.of_nat (List.length added) /\
    (NoDup (map url db) -> NoDup (map url db')) /\
    (Forall category_ok db -> Forall category_ok db').
Proof.
  unfold crawl_all_over. intros H.
  destruct (crawl_loop_appends _ _ _ _ _ _ _ H) as (added & Hdb & Hn & Hcat).
  exists added. split; [exact Hdb|]. split; [lia|]. split; [|exact Hcat].
  intros Hnd. exact (crawl_loop_unique _ _ _ _ _ _ _ Hnd H).
Qed.

(** X7: a batch is stored whole or not at all.  When the batch an adapter
    returns holds an item with a summary and no text title, the call of
    [save_articles] raises, and a pass over that adapter returns zero and
    leaves the stored table as it was, whatever the items before the
    failing one were. *)
Theorem X7_crawl_drops_failing_batch
    (s : M (list (gmap string pyval)))
    (items : list (gmap string pyval)) (db : list article) (t t1 : nat) :
  s t = (Ok items, t1) ->
  ~ Forall no_type_error items ->
  exists t2 : nat,
    (t1 < t2)%nat /\ crawl_all_over [s] db t = (0, db, t2).
Proof.
  intros Hs Hno. unfold crawl_all_over. cbn [crawl_loop]. rewrite Hs.
  destruct items as [|a items]; [exfalso; apply Hno; constructor|].
  rewrite save_articles_nonempty.
  destruct (foldM_save_item_raises_at (a :: items) (db, 0) t1 Hno)
    as (t2 & Hlt & ->).
  exists t2. split; [exact Hlt | reflexivity].
Qed.

(** ** The long-form Indonesian date, on every text *)

(** A successful match has called its continuation, and the groups the
    pattern does not number are as they were. *)
Lemma rmatch_continues {R : Type} (r : regex) :
  forall (s : string) (caps : gmap nat string)
         (k : string -> gmap nat string -> option R) (x : R),
    rmatch r s caps k = Some x ->
    exists (s' : string) (caps' : gmap nat string),
      k s' caps' = Some x /\
      forall n : nat, has_group n r = false -> caps' !! n = caps !! n.
Proof.
  induction r as [|c|r1 IH1 r2 IH2|r1 IH1 r2 IH2|r1 IH1 lo hi|m r1 IH1];
    intros s caps k x; cbn [rmatch has_group].
  - intros H. exists s, caps. auto.
  - destruct s as [|c' s']; [discriminate|].
    destruct (Ascii.eqb c c'); [|discriminate].
    intros H. exists s', caps. auto.
  - intros H. destruct (IH1 _ _ _ _ H) as (s1 & caps1 & H1 & K1).
    destruct (IH2 _ _ _ _ H1) as (s2 & caps2 & H2 & K2).
    exists s2, caps2. split; [exact H2|].
    intros n Hn. apply orb_false_iff in Hn. destruct Hn as [Hn1 Hn2].
    now rewrite K2, K1.
  - destruct (rmatch r1 s caps k) as [y|] eqn:E.
    + intros [= ->]. destruct (IH1 _ _ _ _ E) as (s1 & caps1 & H1 & K1).
      exists s1, caps1. split; [exact H1|].
      intros n Hn. apply orb_false_iff in Hn. now apply K1.
    + intros H. destruct (IH2 _ _ _ _ H) as (s2 & caps2 & H2 & K2).
      exists s2, caps2. split; [exact H2|].
      intros n Hn. apply orb_false_iff in Hn. now apply K2.
  - generalize (String.length s) as fuel. generalize 0%nat as cnt.
    intros cnt fuel. revert cnt s caps.
    induction fuel as [|fuel IHf]; intros cnt s caps; cbv beta iota zeta.
    + destruct (Nat.leb lo cnt); [|discriminate].
      intros H. exists s, caps. auto.
    + assert (Hstop : (if Nat.leb lo cnt then k s caps else None) = Some x ->
                exists s' caps',
                  k s' caps' = Some x /\
                  forall n, has_group n r1 = false -> caps' !! n = caps !! n).
      { destruct (Nat.leb lo cnt); [|discriminate].
        intros H. exists s, caps. auto. }
      destruct (below cnt hi); [|exact Hstop].
      match goal with |- match ?m with _ => _ end = _ -> _ =>
        destruct m as [y|] eqn:E
      end; [|exact Hstop].
      intros [= ->]. destruct (IH1 _ _ _ _ E) as (s1 & caps1 & H1 & K1).
      destruct (Nat.ltb (String.length s1) (String.length s)); [|discriminate].
      destruct (IHf _ _ _ H1) as (s2 & caps2 & H2 & K2).
      exists s2, caps2. split; [exact H2|].
      intros n Hn. now rewrite K2, K1.
  - intros H. destruct (IH1 _ _ _ _ H) as (s1 & caps1 & H1 & K1).
    exists s1, (<[m := consumed s s1]> caps1). split; [exact H1|].
    intros n Hn. apply orb_false_iff in Hn. destruct Hn as [Hnm Hn].
    apply Nat.eqb_neq in Hnm.
    rewrite lookup_insert_ne by congruence. now apply K1.
Qed.

(** The first group of a match of [ID_DATE_PATTERN] is a piece of text that
    starts at a backslash. *)
Lemma rmatch_id_date_group_1 (s : string) (m : gmap nat string) :
  rmatch ID_DATE_PATTERN s ∅ (fun _ caps => Some caps) = Some m ->
  exists (s0 : string) (n : nat),
    m !! 1%nat = Some (substring 0 n (String backslash s0)).
Proof.
  unfold ID_DATE_PATTERN.
  match goal with |- rmatch (Seq (Grp 1 (Seq _ ?r1)) ?b) _ _ _ = _ -> _ =>
    remember r1 as R1 eqn:HR1; remember b as B eqn:HB
  end.
  cbn [rmatch]. destruct s as [|c s0]; [discriminate|].
  destruct (Ascii.eqb_spec backslash c) as [<-|_]; [|discriminate].
  intros H. apply rmatch_continues in H. destruct H as (s1 & caps1 & H & _).
  apply rmatch_continues in H. destruct H as (s2 & caps2 & [= ->] & K).
  exists s0, (String.length (String backslash s0) - String.length s1)%nat.
  rewrite K by (subst B; reflexivity).
  rewrite lookup_insert_eq. reflexivity.
Qed.

Lemma re_search_id_date_group_1 (s : string) (m : gmap nat string) :
  re_search ID_DATE_PATTERN s = Some m ->
  exists (s0 : string) (n : nat),
    m !! 1%nat = Some (substring 0 n (String backslash s0)).
Proof.
  induction s as [|c s IH]; cbn [re_search].
  - destruct (rmatch ID_DATE_PATTERN EmptyString ∅ (fun _ caps => Some caps))
      as [y|] eqn:E; [|discriminate].
    intros [= ->]. exact (rmatch_id_date_group_1 _ _ E).
  - destruct (rmatch ID_DATE_PATTERN (String c s) ∅ (fun _ caps => Some caps))
      as [y|] eqn:E; [|exact IH].
    intros [= ->]. exact (rmatch_id_date_group_1 _ _ E).
Qed.

Lemma py_int_at_backslash (s0 : string) (n : nat) :
  py_int (substring 0 n (String backslash s0)) = Raise ValueError.
Proof. destruct n; reflexivity. Qed.

Lemma parse_id_date_cases (txt : string) :
  (re_search ID_DATE_PATTERN txt = None /\ parse_id_date txt = Ok PyNone) \/
  (re_search ID_DATE_PATTERN txt <> None /\ txt <> EmptyString /\
   parse_id_date txt = Raise ValueError).
Proof.
  unfold parse_id_date.
  destruct (re_search ID_DATE_PATTERN txt) as [m|] eqn:E.
  - right. split; [discriminate|].
    destruct txt as [|c txt].
    + cbn in E. discriminate.
    + split; [discriminate|]. cbn [truthy negb].
      destruct (re_search_id_date_group_1 _ _ E) as (s0 & n & Hg).
      unfold group. rewrite Hg. cbn [default from_option]. unfold id.
      now rewrite py_int_at_backslash.
  - left. split; [reflexivity|]. now destruct (negb (truthy (PyStr txt))).
Qed.

(** X8: [parse_id_date] never returns a date.  Its pattern asks for a
    literal backslash where the day begins, so whenever the pattern matches
    the conversion of the first group to a number raises [ValueError], and
    in every other case the result is [None]. *)
Theorem X8_parse_id_date_never_dates (txt : string) :
  (re_search ID_DATE_PATTERN txt = None /\ parse_id_date txt = Ok PyNone) \/
  (re_search ID_DATE_PATTERN txt <> None /\ txt <> EmptyString /\
   parse_id_date txt = Raise ValueError).
Proof. apply parse_id_date_cases. Qed.

(** ** Source adapters: bounds, timestamps and the network down *)

Lemma isoformat_nonempty (dt : datetime) : isoformat dt <> EmptyString.
Proof.
  intros H. apply (f_equal String.length) in H. revert H.
  unfold isoformat. rewrite !length_append. cbn. lia.
Qed.

Lemma or_utcnow_cases (pub : pyval) (t : nat) :
  (truthy pub = true /\ or_utcnow pub t = (Ok pub, t)) \/
  (truthy pub = false /\
   or_utcnow pub t = (Ok (PyStr (isoformat (clock t))), S t)).
Proof.
  unfold or_utcnow. destruct (truthy pub); [left | right]; split; reflexivity.
Qed.

Lemma truthy_text (v : pyval) :
  truthy v = true -> exists p, v = PyStr p /\ p <> EmptyString.
Proof.
  destruct v as [|[|c s]]; try discriminate.
  intros _. now exists (String c s).
Qed.

(** The loop of [scraper_beritajombang]. *)
Lemma scraper_beritajombang_loop (l : list anchor)
    (acc : list (gmap string pyval)) (t : nat) :
  exists (items : list (gmap string pyval)) (t' : nat),
    foldM (fun items a =>
             pub <- or_utcnow match a_parent_article a with
                              | Some tm => time_tag_text tm
                              | None => PyNone
                              end ;;
             ret (items ++ [mk_item (PyStr (a_text a)) (a_href a)
                              "beritajombang.com" pub]))
          acc l t = (Ok (acc ++ items), t') /\
    (t <= t')%nat /\
    map (fun it => it !! "url") items = map (fun a => Some (a_href a)) l /\
    Forall has_timestamp items.
Proof.
  revert acc t. induction l as [|a l IH]; intros acc t.
  - exists [], t. cbn [foldM]. unfold ret. rewrite app_nil_r.
    split; [reflexivity|]. split; [lia|]. split; [reflexivity | constructor].
  - cbn [foldM]. unfold bind at 1 2.
    destruct (or_utcnow_cases
                match a_parent_article a with
                | Some tm => time_tag_text tm
                | None => PyNone
                end t) as [[Htr ->]|[Htr ->]]; unfold ret at 1;
      match goal with |- context [foldM _ (acc ++ [?it]) l ?t1] =>
        destruct (IH (acc ++ [it]) t1) as (items & t' & Hrun & Hle & Hurls & Hts);
        exists (it :: items), t'
      end;
      rewrite Hrun, <- app_assoc;
      (split; [reflexivity|]); (split; [lia|]);
      (split; [cbn [map]; now rewrite mk_item_url, Hurls|]);
      (constructor; [|exact Hts]); unfold has_timestamp;
      rewrite mk_item_published_at.
    + destruct (truthy_text _ Htr) as (p & -> & Hp). now exists p.
    + eexists. split; [reflexivity | apply isoformat_nonempty].
Qed.

(** The loop of [scraper_kabarjombang]: one clock reading per anchor. *)
Lemma scraper_kabarjombang_loop (l : list anchor)
    (acc : list (gmap string pyval)) (t : nat) :
  foldM (fun items a =>
           now <- utcnow ;;
           ret (items ++ [mk_item (PyStr (a_text a)) (a_href a)
                            "kabarjombang.com" (PyStr (isoformat now))]))
        acc l t
  = (Ok (acc ++ imap (fun i a =>
                        mk_item (PyStr (a_text a)) (a_href a) "kabarjombang.com"
                          (PyStr (isoformat (clock (t + i)%nat)))) l),
     (t + List.length l)%nat).
Proof.
  revert acc t. induction l as [|a l IH]; intros acc t.
  - cbn. unfold ret. rewrite app_nil_r. f_equal. lia.
  - cbn [foldM imap List.length]. unfold bind at 1 2, utcnow at 1, ret at 1.
    rewrite IH, <- app_assoc. cbn [app].
    rewrite Nat.add_0_r. f_equal; [|lia]. do 3 f_equal.
    apply imap_ext. intros i x _. unfold compose.
    now replace (S t + i)%nat with (t + S i)%nat by lia.
Qed.

Lemma stamped_by_clock_weaken (t1 t1' t2 t2' : nat) (it : gmap string pyval) :
  (t2 <= t1)%nat -> (t1' <= t2')%nat ->
  stamped_by_clock t1 t1' it -> stamped_by_clock t2 t2' it.
Proof.
  intros H1 H2 (k & Hk & Hp). exists k. split; [lia | exact Hp].
Qed.

(** One iteration of the loop of [scraper_jombangkab]. *)
Lemma jombangkab_step_cases (acc : list (gmap string pyval)) (u : string)
    (t : nat) :
  jombangkab_step acc u t = (Ok acc, t) \/
  jombangkab_step acc u t = (Ok acc, S t) \/
  jombangkab_step acc u t = (Raise ValueError, t) \/
  exists title : pyval,
    jombangkab_step acc u t
    = (Ok (acc ++ [mk_item title (PyStr u) "jombangkab.go.id"
                     (PyStr (isoformat (clock t)))]), S t).
Proof.
  unfold jombangkab_step. destruct (fetch u) as [art|]; [|now left].
  cbv zeta. unfold bind at 1, lift.
  destruct (parse_id_date_cases (doc_text art)) as [[_ ->]|(_ & _ & ->)];
    [|now right; right; left].
  unfold bind at 1, or_utcnow. cbn [truthy]. unfold bind at 1, utcnow, ret at 1.
  match goal with |- context [if ?c then _ else _] => destruct c end;
    unfold ret.
  - right. right. right. eexists. reflexivity.
  - right. now left.
Qed.

Lemma scraper_jombangkab_loop_stamps (links : list string)
    (acc : list (gmap string pyval)) (t t' : nat)
    (r : result (list (gmap string pyval))) :
  foldM jombangkab_step acc links t = (r, t') ->
  (t <= t')%nat /\
  (r = Raise ValueError \/
   exists new : list (gmap string pyval),
     r = Ok (acc ++ new) /\
     map (fun it => it !! "url") new
       `sublist_of` map (fun u => Some (PyStr u)) links /\
     Forall (stamped_by_clock t t') new).
Proof.
  revert acc t. induction links as [|u links IH]; intros acc t.
  - cbn [foldM]. unfold ret. intros [= <- <-]. split; [lia|]. right.
    exists []. rewrite app_nil_r. split; [reflexivity|].
    split; [constructor | constructor].
  - cbn [foldM]. unfold bind at 1.
    destruct (jombangkab_step_cases acc u t)
      as [->|[->|[->|(title & ->)]]].
    + intros H. destruct (IH _ _ H) as (Hle & [->|(new & -> & Hsub & Hst)]);
        (split; [lia|]); [now left|].
      right. exists new. split; [reflexivity|].
      split; [cbn [map]; now apply sublist_cons | exact Hst].
    + intros H. destruct (IH _ _ H) as (Hle & [->|(new & -> & Hsub & Hst)]);
        (split; [lia|]); [now left|].
      right. exists new. split; [reflexivity|].
      split; [cbn [map]; now apply sublist_cons|].
      eapply Forall_impl; [exact Hst|].
      intros it. apply stamped_by_clock_weaken; lia.
    + intros [= <- <-]. split; [lia | now left].
    + intros H. destruct (IH _ _ H) as (Hle & [->|(new & -> & Hsub & Hst)]);
        (split; [lia|]); [now left|].
      right. eexists (_ :: new). rewrite <- app_assoc.
      split; [reflexivity|]. split.
      * cbn [map]. rewrite mk_item_url. now apply sublist_skip.
      * constructor.
        -- exists t. split; [lia | apply mk_item_published_at].
        -- eapply Forall_impl; [exact Hst|].
           intros it. apply stamped_by_clock_weaken; lia.
Qed.

(** The loop of [dedup_ordered]. *)
Lemma dedup_ordered_loop (links : list string) (seen : gset string)
    (ordered : list string) :
  (forall u, u ∈ seen <-> u ∈ ordered) -> NoDup ordered ->
  exists new : list string,
    snd (foldl (fun '(seen, ordered) u =>
                  if decide (u ∈ (seen : gset string)) then (seen, ordered)
                  else ({[u]} ∪ seen, ordered ++ [u]))
           (seen, ordered) links) = ordered ++ new /\
    new `sublist_of` links /\
    NoDup (ordered ++ new) /\
    forall u, u ∈ ordered ++ new <-> u ∈ ordered \/ u ∈ links.
Proof.
  revert seen ordered. induction links as [|x links IH]; intros seen ordered Hs Hnd.
  - exists []. cbn. rewrite app_nil_r. split; [reflexivity|].
    split; [constructor|]. split; [exact Hnd|].
    intros u. rewrite elem_of_nil.
    split; [now left | intros [H|[]]; exact H].
  - cbn [foldl]. destruct (decide (x ∈ seen)) as [Hin|Hnin].
    + destruct (IH seen ordered Hs Hnd) as (new & -> & Hsub & Hnd' & Hel).
      exists new. split; [reflexivity|]. split; [now apply sublist_cons|].
      split; [exact Hnd'|].
      intros u. rewrite Hel, elem_of_cons. apply Hs in Hin.
      split; [intros [H|H]; auto|]. intros [H|[->|H]]; auto.
    + destruct (IH ({[x]} ∪ seen) (ordered ++ [x])) as (new & -> & Hsub & Hnd' & Hel).
      * intros u. rewrite elem_of_union, elem_of_singleton, elem_of_app,
          list_elem_of_singleton, Hs.
        split; intros [H|H]; auto.
      * apply NoDup_app. split; [exact Hnd|]. split; [|apply NoDup_singleton].
        intros u Hu Hx. apply list_elem_of_singleton in Hx. subst u.
        apply Hnin, Hs, Hu.
      * exists (x :: new). rewrite <- app_assoc in *. cbn [app] in *.
        split; [reflexivity|]. split; [now apply sublist_skip|].
        split; [exact Hnd'|].
        intros u. rewrite Hel, elem_of_app, list_elem_of_singleton, elem_of_cons.
        split; [intros [[H|H]|H] | intros [H|[H|H]]]; auto.
Qed.

Lemma dedup_ordered_spec (links : list string) :
  NoDup (dedup_ordered links) /\
  dedup_ordered links `sublist_of` links /\
  forall u, u ∈ dedup_ordered links <-> u ∈ links.
Proof.
  unfold dedup_ordered.
  destruct (dedup_ordered_loop links ∅ [])
    as (new & -> & Hsub & Hnd & Hel).
  - intros u. rewrite elem_of_empty, elem_of_nil. reflexivity.
  - constructor.
  - cbn [app] in *. split; [exact Hnd|]. split; [exact Hsub|].
    intros u. rewrite Hel, elem_of_nil.
    split; [intros [[]|H]; exact H | now right].
Qed.

Lemma sublist_full {A : Type} (l k : list A) :
  l `sublist_of` k -> (List.length k <= List.length l)%nat -> l = k.
Proof.
  induction 1 as [|x l k Hs IH|x l k Hs IH]; cbn [List.length]; intros Hlen.
  - reflexivity.
  - f_equal. apply IH. lia.
  - apply sublist_length in Hs. lia.
Qed.

(** X9: the order-preserving de-duplication of [scraper_jombangkab] keeps
    one copy of every link and nothing else, in the order of the listing. *)
Theorem X9_dedup_ordered_spec (links : list string) :
  NoDup (dedup_ordered links) /\
  dedup_ordered links `sublist_of` links /\
  (forall u, u ∈ dedup_ordered links <-> u ∈ links) /\
  (NoDup links -> dedup_ordered links = links).
Proof.
  destruct (dedup_ordered_spec links) as (Hnd & Hsub & Hel).
  split; [exact Hnd|]. split; [exact Hsub|]. split; [exact Hel|].
  intros Hl. apply sublist_full; [exact Hsub|].
  apply submseteq_length, NoDup_submseteq; [exact Hl|].
  intros u. apply Hel.
Qed.

Lemma jombangkab_links_spec (soup : document) (u : string) :
  u ∈ jombangkab_links soup ->
  str_contains "/berita/" u = true /\ 5 <= count_char "/"%char u.
Proof.
  unfold jombangkab_links.
  match goal with |- context [foldl ?f] => set (step := f) end.
  assert (Hnil : forall v : string, v ∈ @nil string ->
            str_contains "/berita/" v = true /\ 5 <= count_char "/"%char v).
  { intros v Hv. inversion Hv. }
  revert Hnil. generalize (@nil string) as acc.
  induction (doc_select soup BERITA_LINKS) as [|a l IH]; intros acc Hacc.
  - cbn [foldl]. apply Hacc.
  - cbn [foldl]. apply IH. unfold step.
    destruct (a_href a) as [|[|c h]]; try exact Hacc.
    cbv zeta.
    match goal with |- context [if ?c && ?d then _ else _] =>
      destruct c eqn:Hc; [destruct d eqn:Hd|]; cbn [andb]; try exact Hacc
    end.
    intros v Hv. apply elem_of_app in Hv. destruct Hv as [Hv|Hv].
    + exact (Hacc v Hv).
    + apply list_elem_of_singleton in Hv. subst v.
      split; [exact Hc | now apply Z.leb_le].
Qed.


(** X11: [scraper_kabarjombang] emits one item per anchor of the first
    [limit] of its two selections, whether or not the anchor has a link,
    and stamps the [i]-th of them with the [i]-th clock reading of the
    call. *)
Theorem X11_scraper_kabarjombang_items (limit t : nat) (soup : document) :
  fetch "https://kabarjombang.com/" = Some soup ->
  let anchors := take limit (doc_select soup "h2.entry-title a"
                             ++ doc_select soup "h3.post-title a") in
  scraper_kabarjombang limit t
  = (Ok (imap (fun i a =>
                 mk_item (PyStr (a_text a)) (a_href a) "kabarjombang.com"
                   (PyStr (isoformat (clock (t + i)%nat)))) anchors),
     (t + List.length anchors)%nat).
Proof.
  intros Hf anchors. unfold scraper_kabarjombang. rewrite Hf.
  fold anchors. now rewrite scraper_kabarjombang_loop.
Qed.


Lemma scrape_listing_bounded (base selector origin source : string)
    (limit t : nat) :
  exists (items : list (gmap string pyval)) (t' : nat),
    scrape_listing base selector origin source limit t = (Ok items, t') /\
    (List.length items <= limit)%nat /\ (t <= t')%nat.
Proof.
  unfold scrape_listing. destruct (fetch base) as [soup|].
  - destruct (scrape_listing_loop origin source
                (take limit (doc_select soup selector)) [] t)
      as (items & t' & Hrun & Hle & Hurls & _).
    exists items, t'. split; [exact Hrun|]. split; [|exact Hle].
    apply (f_equal (@List.length _)) in Hurls. rewrite !length_map in Hurls.
    rewrite Hurls.
    etransitivity; [apply filter_length_le|]. rewrite length_take. lia.
  - exists [], t. unfold ret. split; [reflexivity|]. split; [cbn; lia | lia].
Qed.

Lemma scraper_beritajombang_bounded (limit t : nat) :
  exists (items : list (gmap string pyval)) (t' : nat),
    scraper_beritajombang limit t = (Ok items, t') /\
    (List.length items <= limit)%nat /\ (t <= t')%nat.
Proof.
  unfold scraper_beritajombang.
  destruct (fetch "https://beritajombang.com/") as [soup|].
  - destruct (scraper_beritajombang_loop
                (take limit (doc_select soup "h2.entry-title a")) [] t)
      as (items & t' & Hrun & Hle & Hurls & _).
    exists items, t'. split; [exact Hrun|]. split; [|exact Hle].
    apply (f_equal (@List.length _)) in Hurls. rewrite !length_map in Hurls.
    rewrite Hurls, length_take. lia.
  - exists [], t. unfold ret. split; [reflexivity|]. split; [cbn; lia | lia].
Qed.

Lemma scraper_kabarjombang_bounded (limit t : nat) :
  exists (items : list (gmap string pyval)) (t' : nat),
    scraper_kabarjombang limit t = (Ok items, t') /\
    (List.length items <= limit)%nat /\ (t <= t')%nat.
Proof.
  unfold scraper_kabarjombang.
  destruct (fetch "https://kabarjombang.com/") as [soup|].
  - rewrite scraper_kabarjombang_loop. do 2 eexists.
    split; [reflexivity|]. cbn [app].
    rewrite length_imap, length_take. split; lia.
  - exists [], t. unfold ret. split; [reflexivity|]. split; [cbn; lia | lia].
Qed.

Lemma scraper_jombangkab_bounded (limit t t' : nat)
    (items : list (gmap string pyval)) :
  scraper_jombangkab limit t = (Ok items, t') ->
  (List.length items <= limit)%nat.
Proof.
  unfold scraper_jombangkab.
  destruct (fetch "https://www.jombangkab.go.id/berita") as [soup|].
  - cbv zeta. intros H.
    destruct (scraper_jombangkab_loop_stamps _ _ _ _ _ H)
      as (_ & [[=]|(new & [= ->] & Hsub & _)]).
    cbn [app]. apply sublist_length in Hsub. rewrite !length_map in Hsub.
    rewrite length_take in Hsub. lia.
  - unfold ret. intros [= <- <-]. cbn. lia.
Qed.


(** ** The pass over the registered adapters *)

Lemma crawl_loop_bounded (bound : nat)
    (scrapers : list (M (list (gmap string pyval))))
    (total n : Z) (db db' : list article) (t t' : nat) :
  Forall (fun s : M (list (gmap string pyval)) =>
            forall t items t', s t = (Ok items, t') ->
                               (List.length items <= bound)%nat) scrapers ->
  crawl_loop scrapers total db t = (n, db', t') ->
  total <= n <= total + Z.of_nat bound * Z.of_nat (List.length scrapers).
Proof.
  revert total db t. induction scrapers as [|s rest IH]; intros total db t Hall.
  - cbn. intros [= <- <- <-]. lia.
  - apply Forall_cons in Hall. destruct Hall as [Hs Hall].
    cbn [crawl_loop List.length].
    destruct (s t) as [[items|e] t1] eqn:Es.
    + destruct (save_articles items db t1) as [[[m db1]|e] t2] eqn:E.
      * intros H. apply (IH _ _ _ Hall) in H.
        destruct (save_articles_grows _ _ _ _ _ _ E)
          as (added & _ & -> & Hlen & _).
        specialize (Hs _ _ _ Es). nia.
      * intros H. apply (IH _ _ _ Hall) in H. nia.
    + intros H. apply (IH _ _ _ Hall) in H. nia.
Qed.

(** X14: one pass of [crawl_all] stores at most 120 new rows, twenty per
    registered adapter. *)
Theorem X14_crawl_all_bounded (db db' : list article) (n : Z) (t t' : nat) :
  crawl_all db t = (n, db', t') ->
  0 <= n <= 120 /\ (List.length db' <= List.length db + 120)%nat.
Proof.
  unfold crawl_all, crawl_all_over. intros H.
  assert (Hn : 0 <= n <= 0 + Z.of_nat 20 * Z.of_nat (List.length SCRAPERS)).
  { eapply (crawl_loop_bounded 20); [|exact H].
    unfold SCRAPERS.
    repeat (apply Forall_cons; split);
      [intros t0 items t0' Hrun..|apply Forall_nil_2].
    - destruct (scraper_beritajombang_bounded 20 t0) as (i & ti & Hi & Hl & _).
      congruence.
    - destruct (scraper_kabarjombang_bounded 20 t0) as (i & ti & Hi & Hl & _).
      congruence.
    - exact (scraper_jombangkab_bounded _ _ _ _ Hrun).
    - unfold scraper_detik in Hrun.
      match type of Hrun with scrape_listing ?b ?s ?o ?c _ _ = _ =>
        destruct (scrape_listing_bounded b s o c 20 t0)
          as (i & ti & Hi & Hl & _)
      end. congruence.
    - unfold scraper_tribunjatim in Hrun.
      match type of Hrun with scrape_listing ?b ?s ?o ?c _ _ = _ =>
        destruct (scrape_listing_bounded b s o c 20 t0)
          as (i & ti & Hi & Hl & _)
      end. congruence.
    - unfold scraper_wartajombang in Hrun.
      match type of Hrun with scrape_listing ?b ?s ?o ?c _ _ = _ =>
        destruct (scrape_listing_bounded b s o c 20 t0)
          as (i & ti & Hi & Hl & _)
      end. congruence. }
  cbn in Hn. split; [lia|].
  destruct (crawl_loop_appends _ _ _ _ _ _ _ H) as (added & -> & Hadd & _).
  rewrite length_app. lia.
Qed.

(** X15: when none of the six listing pages can be fetched, a pass of
    [crawl_all] stores nothing, returns [0] and does not read the clock. *)
Theorem X15_crawl_all_network_down (db : list article) (t : nat) :
  (forall u, u ∈ LISTING_URLS -> fetch u = None) ->
  crawl_all db t = (0, db, t).
Proof.
  intros Hdown. unfold crawl_all, crawl_all_over, SCRAPERS.
  unfold scraper_beritajombang, scraper_kabarjombang, scraper_jombangkab,
    scraper_detik, scraper_tribunjatim, scraper_wartajombang, scrape_listing.
  rewrite !Hdown
    by (unfold LISTING_URLS;
        repeat (first [apply list_elem_of_here | apply list_elem_of_further])).
  reflexivity.
Qed.

Lemma jombangkab_step_raises (acc : list (gmap string pyval)) (u : string)
    (art : document) (t : nat) :
  fetch u = Some art ->
  re_search ID_DATE_PATTERN (doc_text art) <> None ->
  jombangkab_step acc u t = (Raise ValueError, t).
Proof.
  intros Hf Hmatch. unfold jombangkab_step. rewrite Hf. cbv zeta.
  unfold bind at 1, lift.
  destruct (parse_id_date_cases (doc_text art)) as [[Hnone _]|(_ & _ & ->)];
    [contradiction | reflexivity].
Qed.

(** X22: one article page whose text the date pattern matches costs
    [scraper_jombangkab] its whole batch: when such a page is among the
    links it visits, the adapter raises [ValueError] and returns none of
    the items it had built from the other pages. *)
Theorem X22_scraper_jombangkab_loses_batch (limit t : nat) (soup art : document)
    (pre post : list string) (u : string) :
  fetch "https://www.jombangkab.go.id/berita" = Some soup ->
  take limit (dedup_ordered (jombangkab_links soup)) = pre ++ u :: post ->
  fetch u = Some art ->
  re_search ID_DATE_PATTERN (doc_text art) <> None ->
  exists t' : nat,
    (t <= t')%nat /\ scraper_jombangkab limit t = (Raise ValueError, t').
Proof.
  intros Hsoup Hlinks Hart Hmatch. unfold scraper_jombangkab.
  rewrite Hsoup. cbv zeta. rewrite Hlinks, foldM_app.
  destruct (foldM jombangkab_step [] pre t) as [[acc|e] t1] eqn:Hpre;
    destruct (scraper_jombangkab_loop_stamps _ _ _ _ _ Hpre)
      as (Hle & [Hr|(new & Hr & _)]); try discriminate Hr.
  - exists t1. split; [exact Hle|]. cbn [foldM]. unfold bind at 1.
    now rewrite (jombangkab_step_raises _ _ _ _ Hart Hmatch).
  - injection Hr as ->. exists t1. split; [exact Hle | reflexivity].
Qed.

(** ** Pages without a timestamp *)

Lemma mk_item_title (vt vu : pyval) (s : string) (vp : pyval) :
  mk_item vt vu s vp !! "title" = Some vt.
Proof. unfold mk_item. apply lookup_insert_eq. Qed.

Lemma scrape_listing_loop_page (origin source : string) (l : list anchor)
    (acc items : list (gmap string pyval)) (t t' : nat) :
  foldM (listing_step origin source) acc l t = (Ok items, t') ->
  Forall read_off_page acc -> Forall read_off_page items.
Proof.
  revert acc t. induction l as [|a l IH]; intros acc t.
  - cbn [foldM]. unfold ret. now intros [= <- <-].
  - cbn [foldM]. unfold bind at 1.
    destruct (truthy (a_href a)) eqn:Hhref.
    + rewrite listing_step_emit by exact Hhref. cbv zeta.
      destruct (fetch (listing_url origin (href_text a))) as [page|] eqn:Hf;
        intros Hrun Hacc; apply (IH _ _ Hrun); apply Forall_app;
        (split; [exact Hacc|]); apply Forall_singleton;
        (split; [eexists; apply mk_item_title|]);
        intros u page' Hu Hpage; rewrite mk_item_url in Hu;
        injection Hu as <-; rewrite mk_item_published_at; congruence.
    + rewrite listing_step_skip by exact Hhref. apply IH.
Qed.

Lemma scrape_listing_page (base selector origin source : string)
    (limit t t' : nat) (items : list (gmap string pyval)) :
  scrape_listing base selector origin source limit t = (Ok items, t') ->
  Forall read_off_page items.
Proof.
  unfold scrape_listing. destruct (fetch base) as [soup|].
  - intros H. apply (scrape_listing_loop_page _ _ _ _ _ _ _ H). constructor.
  - unfold ret. intros [= <- <-]. constructor.
Qed.

(** X21: a candidate of [scraper_detik], [scraper_tribunjatim] or
    [scraper_wartajombang] whose article page was fetched but shows no
    timestamp is emitted with [None] as its timestamp, and [save_articles]
    then drops it without an error: the page is never stored. *)
Theorem X21_untimed_page_not_stored (limit t t' : nat)
    (s : M (list (gmap string pyval))) (items : list (gmap string pyval))
    (it : gmap string pyval) (u : string) (page : document)
    (db : list article) (t0 : nat) :
  s ∈ [scraper_detik limit; scraper_tribunjatim limit;
       scraper_wartajombang limit] ->
  s t = (Ok items, t') ->
  it ∈ items ->
  it !! "url" = Some (PyStr u) ->
  fetch u = Some page ->
  time_tag_text (doc_time page) = PyNone ->
  it !! "published_at" = Some PyNone /\
  save_articles [it] db t0 = (Ok (0, db), S (S t0)).
Proof.
  intros Hs Hrun Hin Hu Hpage Htime.
  assert (Hall : Forall read_off_page items).
  { repeat (apply elem_of_cons in Hs; destruct Hs as [->|Hs]);
      [exact (scrape_listing_page _ _ _ _ _ _ _ _ Hrun)..|inversion Hs]. }
  rewrite Forall_forall in Hall. destruct (Hall it Hin) as [Htitle Hpub].
  specialize (Hpub u page Hu Hpage). rewrite Htime in Hpub.
  split; [exact Hpub|].
  rewrite save_articles_nonempty, foldM_save_item_skipped.
  - cbn [fst snd List.length]. f_equal. lia.
  - constructor; [|constructor]. split; [|now left].
    unfold skipped_in. auto.
Qed.

(** ** Text processing *)

Lemma is_letter_TOKEN_CHARS (c : ascii) :
  bool_decide (c ∈ TOKEN_CHARS) = is_letter c.
Proof.
  destruct c as [[] [] [] [] [] [] [] []]; vm_compute; reflexivity.
Qed.

(** An alternation of one-character literals consumes one character of the
    list. *)
Lemma rmatch_one_of_chars {R : Type} (l : list ascii) (s : string)
    (caps : gmap nat string) (k : string -> gmap nat string -> option R) :
  rmatch (one_of (map (fun c => String c EmptyString) l)) s caps k =
  match s with
  | String c s' => if bool_decide (c ∈ l) then k s' caps else None
  | EmptyString => None
  end.
Proof.
  induction l as [|a [|b rest] IH].
  - cbn. destruct s as [|c s']; reflexivity.
  - cbn [map one_of lit rmatch]. destruct s as [|c s']; [reflexivity|].
    destruct (Ascii.eqb_spec a c) as [->|Hne].
    + rewrite bool_decide_eq_true_2 by apply list_elem_of_here. reflexivity.
    + rewrite bool_decide_eq_false_2; [reflexivity|].
      intros Hin. apply list_elem_of_singleton in Hin. congruence.
  - change (map (fun c => String c EmptyString) (a :: b :: rest))
      with (String a EmptyString
            :: map (fun c => String c EmptyString) (b :: rest)).
    change (one_of (String a EmptyString
                    :: map (fun c => String c EmptyString) (b :: rest)))
      with (Alt (lit (String a EmptyString))
              (one_of (map (fun c => String c EmptyString) (b :: rest)))).
    cbn [rmatch lit]. rewrite IH. destruct s as [|c s']; [reflexivity|].
    destruct (Ascii.eqb_spec a c) as [->|Hne].
    + rewrite (bool_decide_eq_true_2 (c ∈ c :: b :: rest))
        by apply list_elem_of_here.
      destruct (k s' caps); [reflexivity|].
      now destruct (bool_decide (c ∈ b :: rest)).
    + destruct (bool_decide_reflect (c ∈ b :: rest)) as [Hin|Hnin].
      * rewrite (bool_decide_eq_true_2 (c ∈ a :: b :: rest))
          by now apply list_elem_of_further.
        reflexivity.
      * rewrite (bool_decide_eq_false_2 (c ∈ a :: b :: rest)); [reflexivity|].
        intros Hin. apply elem_of_cons in Hin. destruct Hin; congruence.
Qed.

Lemma drop_letters_length (s : string) :
  (String.length (drop_letters s) <= String.length s)%nat.
Proof.
  induction s as [|c s IH]; cbn [drop_letters]; [lia|].
  destruct (is_letter c); cbn [String.length]; lia.
Qed.

(** One or more characters of a class, matched greedily, with a
    continuation that accepts: the match ends where the letters end. *)
Lemma rmatch_rep_class (cls : regex) (p : ascii -> bool) :
  (forall (s : string) (caps : gmap nat string)
          (k : string -> gmap nat string -> option string),
     rmatch cls s caps k =
     match s with
     | String c s' => if p c then k s' caps else None
     | EmptyString => None
     end) ->
  (forall c, p c = is_letter c) ->
  forall (s : string) (caps : gmap nat string),
    rmatch (Rep cls 1 None) s caps (fun s' _ => Some s') =
    match s with
    | String c s' => if is_letter c then Some (drop_letters s') else None
    | EmptyString => None
    end.
Proof.
  intros Hcls Hp s caps. cbn [rmatch]. cbv zeta.
  match goal with |- ?f (String.length s) 0%nat s caps = _ =>
    assert (Hgen : forall fuel cnt s caps,
      (String.length s <= fuel)%nat ->
      f fuel cnt s caps =
      match s with
      | String c s' =>
          if is_letter c then Some (drop_letters s')
          else if Nat.leb 1 cnt then Some s else None
      | EmptyString => if Nat.leb 1 cnt then Some s else None
      end)
  end.
  { clear s caps. induction fuel as [|fuel IHf]; intros cnt s caps Hlen.
    - destruct s as [|c s']; [reflexivity | cbn in Hlen; lia].
    - cbv beta iota zeta. change (below cnt None) with true. cbv iota.
      rewrite Hcls.
      destruct s as [|c s']; [reflexivity|].
      rewrite Hp. destruct (is_letter c) eqn:Hc; [|reflexivity].
      cbn [String.length]. rewrite (proj2 (Nat.ltb_lt _ _)) by lia.
      rewrite IHf by (cbn in Hlen; lia).
      cbn [Nat.leb]. destruct s' as [|c' s'']; [reflexivity|].
      cbn [drop_letters]. now destruct (is_letter c'). }
  rewrite Hgen by lia. cbn [Nat.leb]. now destruct s.
Qed.

Lemma rmatch_TOKEN_RE (s : string) :
  rmatch TOKEN_RE s ∅ (fun s' _ => Some s') =
  match s with
  | String c s' => if is_letter c then Some (drop_letters s') else None
  | EmptyString => None
  end.
Proof.
  unfold TOKEN_RE. apply (rmatch_rep_class _ (fun c => bool_decide (c ∈ TOKEN_CHARS))).
  - intros s0 caps k. apply rmatch_one_of_chars.
  - apply is_letter_TOKEN_CHARS.
Qed.

Lemma take_drop_letters (s : string) : take_letters s +:+ drop_letters s = s.
Proof.
  induction s as [|c s IH]; [reflexivity|]. cbn [take_letters drop_letters].
  destruct (is_letter c); [|reflexivity]. now rewrite append_cons, IH.
Qed.

Lemma consumed_append (a b : string) : consumed (a +:+ b) b = a.
Proof.
  unfold consumed. rewrite length_append.
  replace (String.length a + String.length b - String.length b)%nat
    with (String.length a) by lia.
  induction a as [|x a IH].
  - cbn [String.length]. now destruct (EmptyString +:+ b).
  - rewrite append_cons. cbn [String.length substring]. now rewrite IH.
Qed.

Lemma all_letters_append (a b : string) :
  all_letters (a +:+ b) = all_letters a && all_letters b.
Proof.
  induction a as [|x a IH]; [reflexivity|].
  rewrite append_cons. cbn [all_letters]. now rewrite IH, andb_assoc.
Qed.

Lemma all_letters_take (s : string) : all_letters (take_letters s) = true.
Proof.
  induction s as [|c s IH]; [reflexivity|]. cbn [take_letters].
  destruct (is_letter c) eqn:E; [|reflexivity]. cbn [all_letters].
  now rewrite E, IH.
Qed.

Lemma flush_nonempty (cur : string) : cur <> EmptyString -> flush cur = [cur].
Proof. destruct cur; [congruence | reflexivity]. Qed.

Lemma append_nonempty_r (a : string) (c : ascii) (b : string) :
  a +:+ String c b <> EmptyString.
Proof. destruct a; [discriminate | rewrite append_cons; discriminate]. Qed.

(** A run in progress ends where the letters end. *)
Lemma letter_runs_from_run (s cur : string) :
  cur <> EmptyString ->
  letter_runs_from cur s
  = (cur +:+ take_letters s) :: letter_runs (drop_letters s).
Proof.
  unfold letter_runs. revert cur. induction s as [|c s IH]; intros cur Hcur.
  - cbn. now rewrite append_nil_r, flush_nonempty.
  - cbn [letter_runs_from take_letters drop_letters].
    destruct (is_letter c) eqn:E.
    + rewrite IH by apply append_nonempty_r.
      now rewrite append_assoc, append_cons.
    + rewrite append_nil_r, flush_nonempty by exact Hcur.
      cbn [letter_runs_from]. now rewrite E.
Qed.

Lemma letter_runs_letter (c : ascii) (s : string) :
  is_letter c = true ->
  letter_runs (String c s)
  = String c (take_letters s) :: letter_runs (drop_letters s).
Proof.
  intros E. unfold letter_runs at 1. cbn [letter_runs_from]. rewrite E.
  now rewrite letter_runs_from_run.
Qed.

Lemma letter_runs_other (c : ascii) (s : string) :
  is_letter c = false -> letter_runs (String c s) = letter_runs s.
Proof.
  intros E. unfold letter_runs. cbn [letter_runs_from]. now rewrite E.
Qed.

Lemma findall_from_TOKEN_RE (fuel : nat) (s : string) :
  (String.length s < fuel)%nat ->
  findall_from fuel TOKEN_RE s = letter_runs s.
Proof.
  revert s. induction fuel as [|fuel IH]; intros s Hlen; [lia|].
  cbn [findall_from]. rewrite rmatch_TOKEN_RE.
  destruct s as [|c s]; [reflexivity|]. cbn [String.length] in Hlen.
  destruct (is_letter c) eqn:E.
  - pose proof (drop_letters_length s) as Hd.
    cbn [String.length]. rewrite (proj2 (Nat.ltb_lt _ _)) by lia.
    rewrite IH by lia. rewrite letter_runs_letter by exact E. f_equal.
    rewrite <- (take_drop_letters s) at 1.
    rewrite <- append_cons. apply consumed_append.
  - rewrite IH by lia. now rewrite letter_runs_other.
Qed.

Lemma re_findall_TOKEN_RE (s : string) :
  re_findall TOKEN_RE s = letter_runs s.
Proof. unfold re_findall. apply findall_from_TOKEN_RE. lia. Qed.

Lemma letter_runs_from_tokens (s cur : string) :
  all_letters cur = true ->
  Forall (fun tok => tok <> EmptyString /\ all_letters tok = true)
    (letter_runs_from cur s).
Proof.
  revert cur. induction s as [|c s IH]; intros cur Hcur.
  - cbn. destruct cur; [constructor|]. constructor; [|constructor].
    split; [discriminate | exact Hcur].
  - cbn [letter_runs_from]. destruct (is_letter c) eqn:E.
    + apply IH. rewrite all_letters_append, Hcur. cbn. now rewrite E.
    + apply Forall_app. split; [|now apply IH].
      destruct cur; [constructor|]. constructor; [|constructor].
      split; [discriminate | exact Hcur].
Qed.

Lemma letter_runs_from_split (a b cur : string) (c : ascii) :
  is_letter c = false ->
  letter_runs_from cur (a +:+ String c b)
  = letter_runs_from cur a ++ letter_runs b.
Proof.
  intros E. unfold letter_runs. revert cur.
  induction a as [|x a IH]; intros cur.
  - rewrite append_nil_l. cbn [letter_runs_from]. now rewrite E.
  - rewrite append_cons. cbn [letter_runs_from].
    destruct (is_letter x); [apply IH|]. now rewrite IH, app_assoc.
Qed.

Lemma letter_runs_from_letters (s cur : string) :
  all_letters s = true -> letter_runs_from cur s = flush (cur +:+ s).
Proof.
  revert cur. induction s as [|c s IH]; intros cur.
  - intros _. cbn. now rewrite append_nil_r.
  - cbn [all_letters letter_runs_from]. intros H.
    apply andb_true_iff in H. destruct H as [-> H].
    rewrite IH by exact H. now rewrite append_assoc, append_cons.
Qed.

(** X16: [tokenize] returns the maximal runs of letters of its text, from
    left to right, each lowercased; an absent text has no tokens. *)
Theorem X16_tokenize_letter_runs (text : pyval) :
  tokenize text = map str_lower (letter_runs (or_empty text)) /\
  (truthy text = false -> tokenize text = []).
Proof.
  unfold tokenize. rewrite re_findall_TOKEN_RE. split; [reflexivity|].
  destruct text as [|[|c s]]; try discriminate; reflexivity.
Qed.

(** X17: what [TOKEN_RE.findall] returns: every match is a non-empty text
    made of letters only; a text made of letters only is its own single
    match; and a character that is not a letter separates the matches
    before it from the matches after it. *)
Theorem X17_findall_tokens (s : string) :
  Forall (fun tok => tok <> EmptyString /\ all_letters tok = true)
    (re_findall TOKEN_RE s) /\
  (all_letters s = true -> s <> EmptyString -> re_findall TOKEN_RE s = [s]) /\
  (forall a c b,
     s = a +:+ String c b -> is_letter c = false ->
     re_findall TOKEN_RE s = re_findall TOKEN_RE a ++ re_findall TOKEN_RE b).
Proof.
  rewrite re_findall_TOKEN_RE. split; [|split].
  - now apply letter_runs_from_tokens.
  - intros Hall Hne. unfold letter_runs.
    rewrite letter_runs_from_letters by exact Hall.
    rewrite append_nil_l. now apply flush_nonempty.
  - intros a c b -> E. rewrite !re_findall_TOKEN_RE.
    now apply letter_runs_from_split.
Qed.

(** ** Keyword counts *)

Lemma counter_get_incr (counter : list (string * Z)) (w x : string) :
  counter_get (counter_incr counter w) x
  = counter_get counter x + (if String.eqb x w then 1 else 0).
Proof.
  induction counter as [|[e n] rest IH]; cbn [counter_incr counter_get].
  - rewrite String.eqb_sym. now destruct (String.eqb x w).
  - destruct (String.eqb_spec e w) as [->|Hew]; cbn [counter_get].
    + rewrite (String.eqb_sym x w). destruct (String.eqb w x); lia.
    + destruct (String.eqb_spec e x) as [->|Hex]; [|exact IH].
      destruct (String.eqb_spec x w); [congruence | lia].
Qed.

Lemma counter_keys_incr (counter : list (string * Z)) (w : string) :
  map fst (counter_incr counter w)
  = map fst counter ++ (if bool_decide (w ∈ map fst counter) then [] else [w]).
Proof.
  induction counter as [|[e n] rest IH]; cbn [counter_incr map fst].
  - reflexivity.
  - destruct (String.eqb_spec e w) as [->|Hew]; cbn [map fst].
    + rewrite bool_decide_eq_true_2 by apply list_elem_of_here.
      now rewrite app_nil_r.
    + rewrite IH. cbn [app]. do 2 f_equal.
      destruct (bool_decide_reflect (w ∈ map fst rest)) as [Hin|Hnin].
      * now rewrite bool_decide_eq_true_2 by now apply list_elem_of_further.
      * rewrite bool_decide_eq_false_2; [reflexivity|].
        intros Hin. apply elem_of_cons in Hin. destruct Hin; congruence.
Qed.

Lemma counter_incr_positive (counter : list (string * Z)) (w : string) :
  Forall (fun p => 1 <= snd p) counter ->
  Forall (fun p => 1 <= snd p) (counter_incr counter w).
Proof.
  induction counter as [|[e n] rest IH]; cbn [counter_incr]; intros H.
  - constructor; [cbn; lia | constructor].
  - apply Forall_cons in H. destruct H as [Hn H]. cbn in Hn.
    destruct (String.eqb e w); constructor; auto; cbn; lia.
Qed.

Lemma count_of_snoc (x w : string) (toks : list string) :
  count_of x (toks ++ [w])
  = count_of x toks + (if String.eqb x w then 1 else 0).
Proof.
  unfold count_of. rewrite List.filter_app, length_app. cbn [List.filter].
  destruct (String.eqb x w); cbn [List.length]; lia.
Qed.

(** What a counter holds after [update]. *)
Lemma counter_update_spec (toks : list string) (counter : list (string * Z)) :
  NoDup (map fst counter) ->
  Forall (fun p => 1 <= snd p) counter ->
  NoDup (map fst (counter_update counter toks)) /\
  Forall (fun p => 1 <= snd p) (counter_update counter toks) /\
  (forall x, x ∈ map fst (counter_update counter toks)
             <-> x ∈ map fst counter \/ x ∈ toks) /\
  (forall x, counter_get (counter_update counter toks) x
             = counter_get counter x + count_of x toks).
Proof.
  unfold counter_update. revert counter.
  induction toks as [|w toks IH]; intros counter Hnd Hpos.
  - cbn [foldl]. split; [exact Hnd|]. split; [exact Hpos|]. split.
    + intros x. rewrite elem_of_nil.
      split; [now left | intros [H|[]]; exact H].
    + intros x. unfold count_of. cbn. lia.
  - cbn [foldl].
    destruct (IH (counter_incr counter w)) as (Hnd' & Hpos' & Hkeys & Hget).
    + rewrite counter_keys_incr.
      destruct (bool_decide_reflect (w ∈ map fst counter)) as [Hin|Hnin].
      * now rewrite app_nil_r.
      * apply NoDup_app. split; [exact Hnd|]. split; [|apply NoDup_singleton].
        intros x Hx Hw. apply list_elem_of_singleton in Hw. congruence.
    + now apply counter_incr_positive.
    + split; [exact Hnd'|]. split; [exact Hpos'|]. split.
      * intros x. rewrite Hkeys, counter_keys_incr, elem_of_app, elem_of_cons.
        destruct (bool_decide_reflect (w ∈ map fst counter)) as [Hin|Hnin].
        -- rewrite elem_of_nil. split; [intros [[H|[]]|H]; auto|].
           intros [H|[->|H]]; auto.
        -- rewrite list_elem_of_singleton.
           split; [intros [[H|H]|H] | intros [H|[H|H]]]; auto.
      * intros x. rewrite Hget, counter_get_incr.
        change (w :: toks) with ([w] ++ toks).
        unfold count_of. rewrite List.filter_app, length_app.
        cbn [List.filter]. destruct (String.eqb x w); cbn [List.length]; lia.
Qed.

Lemma counter_get_elem (counter : list (string * Z)) (x : string) (n : Z) :
  NoDup (map fst counter) -> (x, n) ∈ counter -> counter_get counter x = n.
Proof.
  induction counter as [|[e m] rest IH]; intros Hnd Hin.
  - inversion Hin.
  - cbn [map fst] in Hnd. apply NoDup_cons in Hnd. destruct Hnd as [Hnotin Hnd].
    cbn [counter_get]. apply elem_of_cons in Hin. destruct Hin as [[= <- <-]|Hin].
    + now rewrite String.eqb_refl.
    + destruct (String.eqb_spec e x) as [->|_]; [|now apply IH].
      exfalso. apply Hnotin.
      apply (list_elem_of_fmap_2 fst) in Hin. exact Hin.
Qed.

Lemma count_of_positive (x : string) (toks : list string) :
  x ∈ toks -> 1 <= count_of x toks.
Proof.
  unfold count_of. induction toks as [|w toks IH]; intros Hin.
  - inversion Hin.
  - cbn [List.filter]. apply elem_of_cons in Hin.
    destruct (String.eqb_spec x w) as [->|Hne].
    + cbn [List.length]. lia.
    + destruct Hin as [->|Hin]; [congruence | now apply IH].
Qed.

(** The order of [sorted]. *)
Lemma insert_desc_perm (x : string * Z) (l : list (string * Z)) :
  insert_desc x l ≡ₚ x :: l.
Proof.
  induction l as [|y l IH]; cbn [insert_desc]; [reflexivity|].
  destruct (snd y <=? snd x); [reflexivity|].
  rewrite IH. apply Permutation_swap.
Qed.

Lemma sorted_desc_perm (l : list (string * Z)) : sorted_desc l ≡ₚ l.
Proof.
  unfold sorted_desc. induction l as [|x l IH]; cbn [foldr]; [reflexivity|].
  now rewrite insert_desc_perm, IH.
Qed.

Lemma insert_desc_sorted (x : string * Z) (l : list (string * Z)) :
  StronglySorted count_ge l -> StronglySorted count_ge (insert_desc x l).
Proof.
  induction l as [|y l IH]; cbn [insert_desc]; intros Hs.
  - constructor; constructor.
  - apply StronglySorted_inv in Hs. destruct Hs as [Hs Hy].
    destruct (Z.leb_spec (snd y) (snd x)) as [Hle|Hlt].
    + constructor; [now constructor|].
      constructor; [exact Hle|].
      eapply Forall_impl; [exact Hy|]. unfold count_ge. intros z Hz. lia.
    + constructor; [now apply IH|].
      rewrite insert_desc_perm. constructor; [unfold count_ge; lia | exact Hy].
Qed.

Lemma sorted_desc_sorted (l : list (string * Z)) :
  StronglySorted count_ge (sorted_desc l).
Proof.
  unfold sorted_desc. induction l as [|x l IH]; cbn [foldr]; [constructor|].
  now apply insert_desc_sorted.
Qed.

Lemma top_keywords_counter (rows : list row) (k : nat) :
  top_keywords rows k = most_common k (counter_update [] (kept_tokens rows)).
Proof.
  unfold top_keywords, kept_tokens. cbv zeta. f_equal.
  generalize (@nil (string * Z)) as counter.
  induction rows as [|r rows IH]; intros counter; [reflexivity|].
  cbn [foldl map concat]. rewrite IH. unfold counter_update.
  now rewrite foldl_app.
Qed.

Lemma kept_tokens_elem (rows : list row) (w : string) :
  w ∈ kept_tokens rows <->
  exists r, r ∈ rows /\ w ∈ tokenize (row_title r) /\ keyword_ok w = true.
Proof.
  unfold kept_tokens. rewrite list_elem_of_In, in_concat. split.
  - intros (l & Hl & Hw). apply in_map_iff in Hl. destruct Hl as (r & <- & Hr).
    apply filter_In in Hw. destruct Hw as [Hw Hok].
    exists r. split; [now apply list_elem_of_In|].
    split; [now apply list_elem_of_In | exact Hok].
  - intros (r & Hr & Hw & Hok). eexists. split.
    + apply in_map_iff. exists r. split; [reflexivity|].
      now apply list_elem_of_In.
    + apply filter_In. split; [now apply list_elem_of_In | exact Hok].
Qed.

Lemma top_keywords_entries (rows : list row) (k : nat) :
  exists rest : list (string * Z),
    top_keywords rows k ++ rest ≡ₚ counter_update [] (kept_tokens rows) /\
    StronglySorted count_ge (top_keywords rows k ++ rest) /\
    (rest <> [] -> List.length (top_keywords rows k) = k).
Proof.
  rewrite top_keywords_counter. unfold most_common.
  set (l := sorted_desc (counter_update [] (kept_tokens rows))).
  exists (drop k l). rewrite take_drop. split; [apply sorted_desc_perm|].
  split; [apply sorted_desc_sorted|].
  intros Hrest. rewrite length_take. destruct (Nat.le_gt_cases (List.length l) k) as [Hle|Hgt]; [|lia].
  rewrite drop_ge in Hrest by exact Hle. congruence.
Qed.

(** X18: the counts of [top_keywords] are right: every pair it returns
    holds a token of some row's title that is no stop word and is longer
    than two characters, together with the number of times that token
    occurs among the kept tokens of all rows; no token is listed twice and
    at most [k] pairs are returned. *)
Theorem X18_top_keywords_counts (rows : list row) (k : nat) :
  (List.length (top_keywords rows k) <= k)%nat /\
  NoDup (map fst (top_keywords rows k)) /\
  forall w n, (w, n) ∈ top_keywords rows k ->
    n = count_of w (kept_tokens rows) /\ 1 <= n /\
    (w ∉ ID_STOPWORDS) /\ (2 < String.length w)%nat /\
    exists r, r ∈ rows /\ w ∈ tokenize (row_title r).
Proof.
  destruct (top_keywords_entries rows k) as (rest & Hperm & _ & _).
  destruct (counter_update_spec (kept_tokens rows) [])
    as (Hnd & _ & Hkeys & Hget); [constructor | constructor |].
  assert (Hnd' : NoDup (map fst (top_keywords rows k ++ rest))).
  { change (NoDup (fst <$> (top_keywords rows k ++ rest))).
    rewrite Hperm. exact Hnd. }
  split; [|split].
  - rewrite top_keywords_counter. unfold most_common. rewrite length_take. lia.
  - rewrite map_app in Hnd'. now apply NoDup_app in Hnd'.
  - intros w n Hin.
    assert (Hc : (w, n) ∈ counter_update [] (kept_tokens rows)).
    { rewrite <- Hperm. apply elem_of_app. now left. }
    assert (Hw : w ∈ kept_tokens rows).
    { apply (list_elem_of_fmap_2 fst) in Hc. apply Hkeys in Hc.
      destruct Hc as [Hc|Hc]; [inversion Hc | exact Hc]. }
    apply (counter_get_elem _ _ _ Hnd) in Hc. rewrite Hget in Hc. cbn in Hc.
    split; [lia|]. split; [rewrite <- Hc; cbn; now apply count_of_positive|].
    apply kept_tokens_elem in Hw. destruct Hw as (r & Hr & Htok & Hok).
    unfold keyword_ok in Hok. apply andb_true_iff in Hok.
    destruct Hok as [Hstop Hlen]. apply bool_decide_eq_true in Hstop.
    apply Nat.ltb_lt in Hlen. split; [exact Hstop|]. split; [exact Hlen|].
    now exists r.
Qed.

(** X19: the ranking of [top_keywords]: the pairs come in descending order
    of count, and a kept token that is not listed was crowded out, by [k]
    listed tokens that each occur at least as often. *)
Theorem X19_top_keywords_ranking (rows : list row) (k : nat) :
  StronglySorted count_ge (top_keywords rows k) /\
  forall w, w ∈ kept_tokens rows -> w ∉ map fst (top_keywords rows k) ->
    List.length (top_keywords rows k) = k /\
    forall p, p ∈ top_keywords rows k ->
      count_of w (kept_tokens rows) <= snd p.
Proof.
  destruct (top_keywords_entries rows k) as (rest & Hperm & Hsorted & Hfull).
  destruct (counter_update_spec (kept_tokens rows) [])
    as (Hnd & _ & Hkeys & Hget); [constructor | constructor |].
  split; [exact (StronglySorted_app_1_l _ _ _ Hsorted)|].
  intros w Hw Hnot.
  assert (Hk : w ∈ map fst (counter_update [] (kept_tokens rows))).
  { apply Hkeys. now right. }
  apply (list_elem_of_fmap_1 fst) in Hk. destruct Hk as ([w' n] & Hw' & Hin).
  cbn in Hw'. subst w'.
  assert (Hn : n = count_of w (kept_tokens rows)).
  { apply (counter_get_elem _ _ _ Hnd) in Hin. rewrite Hget in Hin.
    cbn in Hin. lia. }
  rewrite <- Hperm in Hin. apply elem_of_app in Hin.
  destruct Hin as [Hin|Hin].
  - exfalso. apply Hnot. now apply (list_elem_of_fmap_2 fst) in Hin.
  - split; [apply Hfull; intros ->; inversion Hin|].
    intros p Hp. rewrite <- Hn.
    exact (StronglySorted_app_1_elem_of _ _ _ _ _ Hsorted Hp Hin).
Qed.

(** ** Tokens of equal count *)

Lemma precedes_elem {A : Type} (l : list A) (a b : A) :
  precedes l a b -> a ∈ l /\ b ∈ l.
Proof.
  induction l as [|x l IH]; cbn [precedes]; [intros []|].
  intros [[-> Hb]|H].
  - split; [apply list_elem_of_here | now apply list_elem_of_further].
  - destruct (IH H) as [Ha Hb].
    split; now apply list_elem_of_further.
Qed.

Lemma precedes_lookup {A : Type} (l : list A) (i j : nat) (a b : A) :
  (i < j)%nat -> l !! i = Some a -> l !! j = Some b -> precedes l a b.
Proof.
  revert i j. induction l as [|x l IH]; intros i j Hij Hi Hj; [discriminate|].
  cbn [precedes]. destruct j as [|j]; [lia|]. cbn in Hj.
  destruct i as [|i].
  - left. cbn in Hi. injection Hi as ->.
    split; [reflexivity | exact (list_elem_of_lookup_2 _ _ _ Hj)].
  - right. cbn in Hi. apply (IH i j); [lia | exact Hi | exact Hj].
Qed.

Lemma precedes_take {A : Type} (k : nat) (l : list A) (a b : A) :
  precedes (take k l) a b -> precedes l a b.
Proof.
  revert k. induction l as [|x l IH]; intros [|k]; cbn [take precedes]; auto.
  - intros [].
  - intros [[-> Hb]|H].
    + left. split; [reflexivity|].
      exact (elem_of_sublist _ _ _ Hb (sublist_take _ _)).
    + right. exact (IH _ H).
Qed.

Lemma precedes_map {A B : Type} (f : A -> B) (l : list A) (a b : A) :
  precedes l a b -> precedes (map f l) (f a) (f b).
Proof.
  induction l as [|x l IH]; cbn [map precedes]; [auto|].
  intros [[-> Hb]|H].
  - left. split; [reflexivity | now apply (list_elem_of_fmap_2 f)].
  - right. exact (IH H).
Qed.

Lemma precedes_snoc {A : Type} (l : list A) (x a b : A) :
  precedes (l ++ [x]) a b -> precedes l a b \/ (a ∈ l /\ b = x).
Proof.
  induction l as [|y l IH]; cbn [app precedes].
  - intros [[_ Hb]|[]]. inversion Hb.
  - intros [[-> Hb]|H].
    + apply elem_of_app in Hb. destruct Hb as [Hb|Hb].
      * left. left. now split.
      * right. apply list_elem_of_singleton in Hb.
        split; [apply list_elem_of_here | exact Hb].
    + destruct (IH H) as [H'|[Ha Hb]].
      * left. now right.
      * right. split; [now apply list_elem_of_further | exact Hb].
Qed.

(** Where [sorted] puts an element relative to the others. *)
Lemma precedes_insert_desc (x : string * Z) (l : list (string * Z))
    (a b : string * Z) :
  precedes (insert_desc x l) a b ->
  precedes l a b \/ (a = x /\ b ∈ l) \/ (b = x /\ a ∈ l /\ snd x < snd a).
Proof.
  induction l as [|y l IH]; cbn [insert_desc].
  - cbn [precedes]. intros [[_ Hb]|[]]. inversion Hb.
  - destruct (Z.leb_spec (snd y) (snd x)) as [Hle|Hlt].
    + cbn [precedes]. intros [[-> Hb]|H]; [right; left; now split|].
      left. exact H.
    + change (precedes (y :: insert_desc x l) a b)
        with ((a = y /\ b ∈ insert_desc x l) \/ precedes (insert_desc x l) a b).
      intros [[-> Hb]|H].
      * rewrite insert_desc_perm in Hb. apply elem_of_cons in Hb.
        destruct Hb as [->|Hb].
        -- right. right. split; [reflexivity|].
           split; [apply list_elem_of_here | exact Hlt].
        -- left. cbn [precedes]. left. now split.
      * destruct (IH H) as [H'|[[-> Hb]|(-> & Ha & Hlt')]].
        -- left. cbn [precedes]. now right.
        -- right. left. split; [reflexivity | now apply list_elem_of_further].
        -- right. right. split; [reflexivity|].
           split; [now apply list_elem_of_further | exact Hlt'].
Qed.

(** [sorted] is stable: elements of equal count keep their order. *)
Lemma precedes_sorted_desc (l : list (string * Z)) (a b : string * Z) :
  precedes (sorted_desc l) a b -> snd a = snd b -> precedes l a b.
Proof.
  unfold sorted_desc. induction l as [|x l IH]; cbn [foldr]; [auto|].
  intros H Heq. apply precedes_insert_desc in H.
  cbn [precedes]. destruct H as [H|[[-> Hb]|(-> & _ & Hlt)]].
  - right. exact (IH H Heq).
  - left. split; [reflexivity|]. now rewrite <- (sorted_desc_perm l).
  - lia.
Qed.

(** A counter lists its elements in the order in which they were first
    counted. *)
Lemma counter_update_order (toks : list string) (w1 w2 : string) :
  precedes (map fst (counter_update [] toks)) w1 w2 ->
  first_before toks w1 w2.
Proof.
  induction toks as [|w toks IH] using rev_ind.
  - intros [].
  - unfold counter_update in *. rewrite foldl_snoc, counter_keys_incr.
    destruct (counter_update_spec toks [])
      as (_ & _ & Hkeys & _); [constructor | constructor |].
    unfold counter_update in Hkeys.
    assert (Hold : precedes (map fst (foldl counter_incr [] toks)) w1 w2 ->
                   first_before (toks ++ [w]) w1 w2).
    { intros H. destruct (IH H) as (pre & post & -> & Hn1 & Hn2).
      exists pre, (post ++ [w]). rewrite <- app_assoc. now split. }
    destruct (bool_decide_reflect (w ∈ map fst (foldl counter_incr [] toks)))
      as [Hin|Hnin].
    + rewrite app_nil_r. exact Hold.
    + intros H. apply precedes_snoc in H.
      destruct H as [H|[Ha ->]]; [exact (Hold H)|].
      assert (Ha' : w1 ∈ toks).
      { apply Hkeys in Ha. destruct Ha as [Ha|Ha]; [inversion Ha | exact Ha]. }
      assert (Hw : w ∉ toks).
      { intros Hw. apply Hnin, Hkeys. now right. }
      destruct (list_elem_of_split_l _ _ Ha') as (pre & post & -> & Hn1).
      exists pre, (post ++ [w]). rewrite <- app_assoc.
      split; [reflexivity|]. split; [exact Hn1|].
      intros Hp. apply Hw, elem_of_app. now left.
Qed.

(** X24: among the pairs of [top_keywords], tokens of equal count come in
    the order in which they were first met in the titles. *)
Theorem X24_top_keywords_ties (rows : list row) (k i j : nat)
    (w1 w2 : string) (n : Z) :
  (i < j)%nat ->
  top_keywords rows k !! i = Some (w1, n) ->
  top_keywords rows k !! j = Some (w2, n) ->
  first_before (kept_tokens rows) w1 w2.
Proof.
  intros Hij Hi Hj. apply counter_update_order.
  apply (precedes_map fst _ (w1, n) (w2, n)).
  apply precedes_sorted_desc; [|reflexivity].
  apply (precedes_take k).
  rewrite top_keywords_counter in Hi, Hj.
  exact (precedes_lookup _ _ _ _ _ Hij Hi Hj).
Qed.

(** ** Daily counts outside the usual window *)

(** X20: [api_trend] at the edges of its parameter.  For a negative number
    of days the window starts in the future and the answer has no day at
    all; when the number of days is beyond what [timedelta] takes, or the
    first day of the window falls outside the years 1 to 9999, the call
    raises [OverflowError] after its one reading of the clock. *)
Theorem X20_api_trend_edges (days : Z) (db : list article) (t : nat) :
  1 <= date_toordinal (datetime_date (clock t)) <= _MAXORDINAL ->
  (-999999999 <= days < 0 ->
   date_toordinal (datetime_date (clock t)) - days <= _MAXORDINAL ->
   api_trend days db t = (Ok ([], []), S t)) /\
  (999999999 < Z.abs days \/
   date_toordinal (datetime_date (clock t)) - days < 1 \/
   _MAXORDINAL < date_toordinal (datetime_date (clock t)) - days ->
   api_trend days db t = (Raise OverflowError, S t)).
Proof.
  intros Hnow. unfold api_trend, bind, utcnow, lift, ret, datetime_sub_days.
  set (today := date_toordinal (datetime_date (clock t))) in *.
  unfold _MAXORDINAL in *. split.
  - intros Hdays Hhi.
    destruct (Z.ltb_spec 999999999 (Z.abs days)); [lia|].
    destruct (Z.ltb_spec 0 (today - days)); [|lia].
    destruct (Z.leb_spec (today - days) 3652059); [|lia].
    cbn [andb]. unfold range.
    replace (Z.to_nat (days + 1)) with 0%nat by lia. reflexivity.
  - intros Hout.
    destruct (Z.ltb_spec 999999999 (Z.abs days)); [reflexivity|].
    destruct (Z.ltb_spec 0 (today - days));
      destruct (Z.leb_spec (today - days) 3652059);
      cbn [andb]; try reflexivity; lia.
Qed.

End Program.

(** * The properties at concrete inputs *)

(** [categorize] on a title that holds keywords of two categories: the
    category declared first wins. *)
Lemma C4_categorize_first_match_witness :
  categorize ascii_lower (PyStr "Bupati resmikan PASAR") = "Pemerintahan".
Proof.
  refine (proj1 (proj2 (C4_categorize_first_match ascii_lower
                          (PyStr "Bupati resmikan PASAR")))
            "Bupati resmikan PASAR" [] "Pemerintahan" _ _
            eq_refl eq_refl eq_refl _ _).
  - exists "bupati". split.
    + apply list_elem_of_here.
    + exists EmptyString, " resmikan pasar". reflexivity.
  - intros cat' kws' kw' Hin. inversion Hin.
Defined.

Example categorize_no_keyword :
  categorize ascii_lower (PyStr "Cuaca cerah hari ini") = "Lainnya".
Proof. reflexivity. Qed.

Example categorize_second_category :
  categorize ascii_lower (PyStr "Harga pasar naik, polisi turun tangan") = "Ekonomi".
Proof. reflexivity. Qed.

(** [normalize_datetime] on a text that no pattern parses: the clock reading
    of the call; on a slash date: the parse under the fourth pattern, after
    the first three have refused the text. *)
Lemma C3_normalize_datetime_fallback_witness :
  normalize_datetime strptime_fixed_width sample_clock (PyStr "kemarin sore") 0%nat
  = (Ok (sample_clock 0), 1%nat) /\
  normalize_datetime strptime_fixed_width sample_clock (PyStr "25/08/2025") 0%nat
  = (Ok (mkDatetime 2025 8 25 0 0 0 0 None), 0%nat).
Proof.
  split.
  - apply (proj1 (proj2 (proj2 (C3_normalize_datetime_fallback
             strptime_fixed_width sample_clock (PyStr "kemarin sore") 0%nat)))
             "kemarin sore" eq_refl).
    intros fmt Hin. unfold candidates in Hin.
    repeat (apply elem_of_cons in Hin; destruct Hin as [->|Hin]; [reflexivity|]).
    inversion Hin.
  - apply (proj1 (proj2 (proj2 (proj2 (C3_normalize_datetime_fallback
             strptime_fixed_width sample_clock (PyStr "25/08/2025") 0%nat))))
             "25/08/2025"
             ["%Y-%m-%dT%H:%M:%S%z"; "%Y-%m-%dT%H:%M:%S"; "%d %B %Y"]
             "%d/%m/%Y" ["%Y-%m-%d"] (mkDatetime 2025 8 25 0 0 0 0 None)
             eq_refl eq_refl eq_refl).
    intros f Hin.
    repeat (apply elem_of_cons in Hin; destruct Hin as [->|Hin]; [reflexivity|]).
    inversion Hin.
Defined.

Example normalize_datetime_slash_date :
  normalize_datetime strptime_fixed_width sample_clock (PyStr "25/08/2025") 0%nat
  = (Ok (mkDatetime 2025 8 25 0 0 0 0 None), 0%nat).
Proof. reflexivity. Qed.

Example normalize_datetime_absent :
  normalize_datetime strptime_fixed_width sample_clock PyNone 4%nat
  = (Ok (sample_clock 4), 5%nat).
Proof. reflexivity. Qed.

(** C9: [parse_id_date] is documented as the helper that parses
    ["25 Agustus 2025"]; on that text, and on a sentence that contains it,
    its pattern finds no match and it returns [None]. *)
Theorem C9_parse_id_date_misses_long_form :
  parse_id_date "25 Agustus 2025" = Ok PyNone /\
  parse_id_date "Jombang, 25 Agustus 2025 - Bupati resmikan jalan" = Ok PyNone.
Proof. split; reflexivity. Qed.

(** The only texts the pattern matches spell out backslashes and the
    letters [d] and [s]; on them [int] raises. *)
Example parse_id_date_literal_backslashes :
  parse_id_date
    (String backslash ("d" +:+ String backslash ("sAgustus"
       +:+ String backslash ("s" +:+ String backslash "dddd"))))
  = Raise ValueError.
Proof. reflexivity. Qed.



Example save_articles_twice :
  save_articles ascii_lower sample_clock [item_jalan; item_jalan_retitled] []
    0%nat
  = (Ok (1, [mkArticle "Bupati resmikan jalan" "https://x/1" "s1"
               "2024-01-01T00:00:00" "2025-08-25T12:00:01"
               (PyStr "Pemerintahan")]), 4%nat).
Proof. vm_compute. reflexivity. Qed.

(** C2: [save_articles] stores the adapter's timestamp text as it is.  The
    slash date that [normalize_datetime] turns into 25 August 2025,
    midnight, is stored as the text ["25/08/2025"]; an item whose timestamp
    is [None], for which the normalizer answers with the clock, is not
    stored at all. *)
Theorem C2_published_at_stored_unnormalized :
  normalize_datetime strptime_fixed_width sample_clock (PyStr "25/08/2025")
    0%nat
  = (Ok (mkDatetime 2025 8 25 0 0 0 0 None), 0%nat) /\
  isoformat (mkDatetime 2025 8 25 0 0 0 0 None) = "2025-08-25T00:00:00" /\
  save_articles ascii_lower sample_clock [item_slash_date] [] 0%nat
  = (Ok (1, [mkArticle "Bupati resmikan jalan" "https://x/1" "s1"
               "25/08/2025" "2025-08-25T12:00:01" (PyStr "Pemerintahan")]),
     2%nat) /\
  normalize_datetime strptime_fixed_width sample_clock PyNone 0%nat
  = (Ok (sample_clock 0), 1%nat) /\
  save_articles ascii_lower sample_clock [item_no_timestamp] [] 0%nat
  = (Ok (0, []), 2%nat).
Proof. repeat split; vm_compute; reflexivity. Qed.

(** C8, as stated, fails: a candidate with an empty url is written and
    counted, and no error is raised. *)
Lemma C8_empty_url_is_stored :
  save_articles ascii_lower sample_clock [item_empty_url] [] 0%nat
  = (Ok (1, [mkArticle "Bupati resmikan jalan" EmptyString "s1"
               "2024-01-01T00:00:00" "2025-08-25T12:00:01"
               (PyStr "Pemerintahan")]), 2%nat).
Proof. vm_compute. reflexivity. Qed.

Lemma C8_empty_and_absent_url_witness :
  (exists row,
     url row = EmptyString /\
     save_articles ascii_lower sample_clock [item_empty_url] [] 0%nat
     = (Ok (1, [] ++ [row]), 2%nat)) /\
  save_articles ascii_lower sample_clock [item_no_url] [] 0%nat
  = (Ok (0, []), 2%nat).
Proof.
  split.
  - apply (proj1 (C8_empty_and_absent_url ascii_lower sample_clock
                    item_empty_url [] 0%nat
                    (ex_intro _ "Bupati resmikan jalan" eq_refl)
                    ltac:(unfold not_none; vm_compute; discriminate)
                    ltac:(unfold not_none; vm_compute; discriminate)));
      reflexivity.
  - apply (proj2 (proj2 (C8_empty_and_absent_url ascii_lower sample_clock
                    item_no_url [] 0%nat
                    (ex_intro _ "Bupati resmikan jalan" eq_refl)
                    ltac:(unfold not_none; vm_compute; discriminate)
                    ltac:(unfold not_none; vm_compute; discriminate))));
      reflexivity.
Defined.

(** An item without a title in front of a good one: skipped, and the good
    one is stored. *)
Lemma C10_absent_title_skipped_witness :
  save_articles ascii_lower sample_clock [item_no_title] [] 0%nat
  = (Ok (0, []), 2%nat) /\
  save_articles ascii_lower sample_clock ([] ++ item_no_title :: [item_pasar])
    [] 0%nat
  = (Ok (1, [mkArticle "Harga pasar naik" "https://x/2" "s2"
               "2024-01-03T00:00:00" "2025-08-25T12:00:03" (PyStr "Ekonomi")]),
     4%nat).
Proof.
  pose proof (C10_absent_title_skipped ascii_lower sample_clock item_no_title
                eq_refl eq_refl) as [H1 H2].
  split.
  - apply H1.
  - rewrite H2. vm_compute. reflexivity.
Defined.



(** C7, as stated, fails for [scraper_jombangkab]: the listing holds one
    candidate link, its article page cannot be fetched, and the adapter
    returns no item for it. *)
Lemma C7_jombangkab_omits_candidate :
  jombangkab_links (listing_of "/berita/daerah/bupati-resmikan-jalan-1")
  = ["https://www.jombangkab.go.id/berita/daerah/bupati-resmikan-jalan-1"] /\
  listings_only
    "https://www.jombangkab.go.id/berita/daerah/bupati-resmikan-jalan-1"
  = None /\
  scraper_jombangkab sample_clock listings_only 20 0%nat = (Ok [], 0%nat).
Proof. repeat split; vm_compute; reflexivity. Qed.

(** [scraper_detik] on a network where the article page fails: the
    candidate is emitted. *)
Lemma C7_secondary_fetch_failure_witness :
  exists (items : list (gmap string pyval)) (t' : nat),
    scraper_detik sample_clock listings_only 20 0%nat = (Ok items, t') /\
    map (fun it => it !! "url") items
    = map (fun a => Some (PyStr (listing_url "https://www.detik.com"
                                   (href_text a))))
          (listing_candidates
             (listing_of "/jatim/berita/d-1/bupati-resmikan-jalan")
             "article.search-result a" 20) /\
    forall it u,
      it ∈ items -> it !! "url" = Some (PyStr u) -> listings_only u = None ->
      exists k : nat,
        (0 <= k < t')%nat /\
        it !! "published_at" = Some (PyStr (isoformat (sample_clock k))).
Proof.
  apply (proj1 (C7_secondary_fetch_failure sample_clock listings_only 20%nat)).
  reflexivity.
Defined.

Example scraper_detik_degraded_timestamp :
  scraper_detik sample_clock listings_only 20 0%nat
  = (Ok [mk_item (PyStr "Bupati resmikan jalan")
           (PyStr "https://www.detik.com/jatim/berita/d-1/bupati-resmikan-jalan")
           "detik.com" (PyStr "2025-08-25T12:00:00")], 1%nat).
Proof. vm_compute. reflexivity. Qed.

(** C6, as stated, fails: for the seven days that end at the call of
    25 August 2025, 12:00:00, the counts add up to 1, while no stored
    article has its timestamp between the first instant of the window and
    the call, and two have it on the calendar days of the window. *)
Lemma C6_counts_miss_the_range :
  exists (labels : list string) (counts : list Z),
    api_trend sample_clock sqlite_datetime_iso 7 trend_db 0%nat
    = (Ok (labels, counts), 1%nat) /\
    labels = ["2025-08-18"; "2025-08-19"; "2025-08-20"; "2025-08-21";
              "2025-08-22"; "2025-08-23"; "2025-08-24"; "2025-08-25"] /\
    counts = [0; 0; 0; 0; 0; 0; 0; 1] /\
    sum_Z counts = 1 /\
    List.length
      (List.filter
         (published_within sqlite_datetime_iso "2025-08-18T12:00:00"
            "2025-08-25T12:00:00") trend_db) = 0%nat /\
    List.length
      (List.filter (published_on_days "2025-08-18" "2025-08-25") trend_db)
    = 2%nat.
Proof.
  eexists _, _. split; [vm_compute; reflexivity|].
  repeat split; vm_compute; reflexivity.
Qed.

Lemma C6_daily_counts_witness :
  exists (since : datetime) (labels : list string) (counts : list Z),
    datetime_sub_days (sample_clock 0) 7 = Ok since /\
    api_trend sample_clock sqlite_datetime_iso 7 trend_db 0%nat
    = (Ok (labels, counts), 1%nat) /\
    labels
    = map (fun i => date_isoformat
                      (date_fromordinal
                         (date_toordinal (datetime_date (sample_clock 0))
                          - 7 + i)))
          (range (7 + 1)) /\
    Z.of_nat (List.length labels) = 7 + 1 /\
    NoDup labels /\
    counts
    = map (fun d => Z.of_nat (List.length
                      (counted_on sqlite_datetime_iso (isoformat since) d
                         trend_db))) labels /\
    sum_Z counts
    = Z.of_nat (List.length
        (counted_in sqlite_datetime_iso (isoformat since) labels trend_db)).
Proof.
  apply (C6_daily_counts sample_clock sqlite_datetime_iso 7 trend_db 0%nat).
  - apply Z.leb_le. reflexivity.
  - apply Z.leb_le. vm_compute. reflexivity.
  - apply Z.leb_le. vm_compute. reflexivity.
Defined.

(** * The further properties at concrete inputs *)

(** A batch of three items, two of them under one url. *)
Lemma X1_save_articles_appends_witness :
  exists n db' t',
    save_articles ascii_lower sample_clock
      [item_jalan; item_jalan_retitled; item_pasar] [] 0%nat
    = (Ok (n, db'), t') /\
    exists added : list article,
      db' = [] ++ added /\ n = Z.of_nat (List.length added) /\
      (List.length added <= 3)%nat /\ t' = 6%nat.
Proof.
  do 3 eexists. split; [vm_compute; reflexivity|].
  destruct (X1_save_articles_appends ascii_lower sample_clock
              [item_jalan; item_jalan_retitled; item_pasar] [] _ _ 0%nat _
              ltac:(vm_compute; reflexivity))
    as (added & Hdb & Hn & Hlen & Ht).
  exists added. split; [exact Hdb|]. split; [exact Hn|]. split; [exact Hlen|].
  apply Ht. discriminate.
Defined.

Lemma X2_save_articles_keeps_urls_unique_witness :
  exists n db' t',
    save_articles ascii_lower sample_clock
      [item_jalan; item_jalan_retitled; item_pasar] [] 0%nat
    = (Ok (n, db'), t') /\
    NoDup (map url db').
Proof.
  do 3 eexists. split; [vm_compute; reflexivity|].
  eapply (X2_save_articles_keeps_urls_unique ascii_lower sample_clock
           [item_jalan; item_jalan_retitled; item_pasar] [] _ _ 0%nat _).
  - apply NoDup_nil_2.
  - vm_compute. reflexivity.
Defined.

Lemma X3_save_articles_keeps_categories_witness :
  exists n db' t',
    save_articles ascii_lower sample_clock [item_jalan; item_pasar] [] 0%nat
    = (Ok (n, db'), t') /\
    Forall category_ok db'.
Proof.
  do 3 eexists. split; [vm_compute; reflexivity|].
  eapply (X3_save_articles_keeps_categories ascii_lower sample_clock
           [item_jalan; item_pasar] [] _ _ 0%nat _).
  - apply Forall_nil_2.
  - vm_compute. reflexivity.
Defined.

(** A batch of well-formed items is accepted; a batch in which one item
    has a summary and no title raises. *)
Lemma X4_save_articles_raises_iff_witness :
  (exists n db' t',
     save_articles ascii_lower sample_clock [item_jalan] [] 0%nat
     = (Ok (n, db'), t')) /\
  (exists t',
     save_articles ascii_lower sample_clock [item_pasar; item_summary_only] []
       0%nat
     = (Raise TypeError, t')).
Proof.
  split.
  - apply (proj1 (X4_save_articles_raises_iff ascii_lower sample_clock
                    [item_jalan] [] 0%nat)).
    apply Forall_cons. split; [|apply Forall_nil_2].
    left. exists "Bupati resmikan jalan". reflexivity.
  - apply (proj2 (X4_save_articles_raises_iff ascii_lower sample_clock
                    [item_pasar; item_summary_only] [] 0%nat)).
    intros H. apply Forall_cons in H. destruct H as [_ H].
    apply Forall_cons in H. destruct H as [[[s Hs]|Hs] _];
      vm_compute in Hs; discriminate Hs.
Defined.

Lemma X5_save_articles_batch_idempotent_witness :
  exists n db1 t1,
    save_articles ascii_lower sample_clock
      [item_jalan; item_no_title; item_pasar] [] 0%nat
    = (Ok (n, db1), t1) /\
    save_articles ascii_lower sample_clock
      [item_jalan; item_no_title; item_pasar] db1 t1
    = (Ok (0, db1), (t1 + 2 * 3)%nat).
Proof.
  do 3 eexists. split; [vm_compute; reflexivity|].
  eapply (X5_save_articles_batch_idempotent ascii_lower sample_clock
           [item_jalan; item_no_title; item_pasar] [] _ _ 0%nat _).
  vm_compute. reflexivity.
Defined.

Lemma X6_crawl_pass_invariants_witness :
  exists n db' t',
    crawl_all_over ascii_lower sample_clock
      [adapter_jalan; adapter_pasar; adapter_jalan] [] 0%nat
    = (n, db', t') /\
    exists added : list article,
      db' = [] ++ added /\ n = Z.of_nat (List.length added) /\
      NoDup (map url db') /\ Forall category_ok db'.
Proof.
  do 3 eexists. split; [vm_compute; reflexivity|].
  destruct (X6_crawl_pass_invariants ascii_lower sample_clock
              [adapter_jalan; adapter_pasar; adapter_jalan] [] _ _ 0%nat _
              ltac:(vm_compute; reflexivity))
    as (added & Hdb & Hn & Hnd & Hcat).
  exists added. split; [exact Hdb|]. split; [exact Hn|].
  split; [apply Hnd, NoDup_nil_2 | apply Hcat, Forall_nil_2].
Defined.

(** A batch of a good item and one that raises: neither is stored. *)
Lemma X7_crawl_drops_failing_batch_witness :
  exists t2 : nat,
    (0 < t2)%nat /\
    crawl_all_over ascii_lower sample_clock [adapter_bad_batch] trend_db 0%nat
    = (0, trend_db, t2).
Proof.
  apply (X7_crawl_drops_failing_batch ascii_lower sample_clock
           adapter_bad_batch [item_pasar; item_summary_only]
           trend_db 0%nat 0%nat eq_refl).
  intros H. apply Forall_cons in H. destruct H as [_ H].
  apply Forall_cons in H. destruct H as [[[s Hs]|Hs] _];
    vm_compute in Hs; discriminate Hs.
Defined.

Lemma X9_dedup_ordered_spec_witness :
  dedup_ordered ["/berita/a"; "/berita/b"] = ["/berita/a"; "/berita/b"].
Proof.
  apply (proj2 (proj2 (proj2 (X9_dedup_ordered_spec
                                ["/berita/a"; "/berita/b"])))).
  apply NoDup_cons. split.
  - intros H. apply list_elem_of_singleton in H. discriminate H.
  - apply NoDup_singleton.
Defined.


Lemma X11_scraper_kabarjombang_items_witness :
  exists soup,
    sample_network "https://kabarjombang.com/" = Some soup /\
    scraper_kabarjombang sample_clock sample_network 20 5%nat
    = (Ok (imap (fun i a =>
                   mk_item (PyStr (a_text a)) (a_href a) "kabarjombang.com"
                     (PyStr (isoformat (sample_clock (5 + i)%nat))))
             (take 20 (doc_select soup "h2.entry-title a"
                       ++ doc_select soup "h3.post-title a"))),
       (5 + List.length (take 20 (doc_select soup "h2.entry-title a"
                                  ++ doc_select soup "h3.post-title a")))%nat).
Proof.
  eexists. split; [reflexivity|].
  apply (X11_scraper_kabarjombang_items sample_clock sample_network 20 5%nat).
  reflexivity.
Defined.



Lemma X14_crawl_all_bounded_witness :
  exists n db' t',
    crawl_all ascii_lower sample_clock sample_network [] 0%nat = (n, db', t') /\
    0 <= n <= 120 /\ (List.length db' <= 0 + 120)%nat.
Proof.
  do 3 eexists. split; [vm_compute; reflexivity|].
  eapply (X14_crawl_all_bounded ascii_lower sample_clock sample_network
           [] _ _ 0%nat _).
  vm_compute. reflexivity.
Defined.

Lemma X15_crawl_all_network_down_witness :
  crawl_all ascii_lower sample_clock network_down trend_db 3%nat
  = (0, trend_db, 3%nat).
Proof.
  apply (X15_crawl_all_network_down ascii_lower sample_clock network_down).
  intros u _. reflexivity.
Defined.

Lemma X16_tokenize_letter_runs_witness :
  tokenize ascii_lower (PyStr EmptyString) = [].
Proof.
  apply (proj2 (X16_tokenize_letter_runs ascii_lower (PyStr EmptyString))).
  reflexivity.
Defined.

Lemma X17_findall_tokens_witness :
  re_findall TOKEN_RE "Pasar-murah"
  = re_findall TOKEN_RE "Pasar" ++ re_findall TOKEN_RE "murah".
Proof.
  apply (proj2 (proj2 (X17_findall_tokens "Pasar-murah"))
           "Pasar" "-"%char "murah"); reflexivity.
Defined.

(** Two titles: [jombang] and [jalan] twice each, [bupati] and [resmikan]
    once, [baru] and [di] dropped. *)
Lemma X18_top_keywords_counts_witness :
  2 = count_of "jombang"
        (kept_tokens ascii_lower
           [SqliteRow "Bupati Jombang resmikan jalan";
            SqliteRow "Jalan baru di Jombang"]) /\
  1 <= 2 /\
  ("jombang" ∉ ID_STOPWORDS) /\ (2 < String.length "jombang")%nat /\
  exists r,
    r ∈ [SqliteRow "Bupati Jombang resmikan jalan";
         SqliteRow "Jalan baru di Jombang"] /\
    "jombang" ∈ tokenize ascii_lower (row_title r).
Proof.
  apply (proj2 (proj2 (X18_top_keywords_counts ascii_lower
                         [SqliteRow "Bupati Jombang resmikan jalan";
                          SqliteRow "Jalan baru di Jombang"] 2%nat))).
  apply list_elem_of_In. vm_compute. left. reflexivity.
Defined.

Lemma X19_top_keywords_ranking_witness :
  List.length (top_keywords ascii_lower
                 [SqliteRow "Bupati Jombang resmikan jalan";
                  SqliteRow "Jalan baru di Jombang"] 1) = 1%nat /\
  forall p,
    p ∈ top_keywords ascii_lower
          [SqliteRow "Bupati Jombang resmikan jalan";
           SqliteRow "Jalan baru di Jombang"] 1 ->
    count_of "bupati"
      (kept_tokens ascii_lower
         [SqliteRow "Bupati Jombang resmikan jalan";
          SqliteRow "Jalan baru di Jombang"]) <= snd p.
Proof.
  apply (proj2 (X19_top_keywords_ranking ascii_lower
                  [SqliteRow "Bupati Jombang resmikan jalan";
                   SqliteRow "Jalan baru di Jombang"] 1%nat)).
  - apply list_elem_of_In. vm_compute. left. reflexivity.
  - intros H. apply list_elem_of_In in H. vm_compute in H.
    destruct H as [H|[]]. discriminate H.
Defined.

Lemma X20_api_trend_edges_witness :
  api_trend sample_clock sqlite_datetime_iso (-3) trend_db 0%nat
  = (Ok ([], []), 1%nat) /\
  api_trend sample_clock sqlite_datetime_iso 1000000000 trend_db 0%nat
  = (Raise OverflowError, 1%nat).
Proof.
  assert (Hnow : 1 <= date_toordinal (datetime_date (sample_clock 0))
                 <= _MAXORDINAL).
  { change (date_toordinal (datetime_date (sample_clock 0))) with 739488.
    unfold _MAXORDINAL. lia. }
  split.
  - apply (proj1 (X20_api_trend_edges sample_clock sqlite_datetime_iso (-3)
                    trend_db 0%nat Hnow)); [lia|].
    change (date_toordinal (datetime_date (sample_clock 0))) with 739488.
    unfold _MAXORDINAL. lia.
  - apply (proj2 (X20_api_trend_edges sample_clock sqlite_datetime_iso
                    1000000000 trend_db 0%nat Hnow)).
    left. lia.
Defined.

(** The article page is fetched and has no [<time>] element: the item is
    emitted with [None] and never stored. *)
Lemma X21_untimed_page_not_stored_witness :
  exists (items : list (gmap string pyval)) (it : gmap string pyval),
    scraper_detik sample_clock sample_network 20 5%nat = (Ok items, 5%nat) /\
    it ∈ items /\
    it !! "published_at" = Some PyNone /\
    save_articles ascii_lower sample_clock [it] [] 7%nat
    = (Ok (0, []), 9%nat).
Proof.
  set (it := mk_item (PyStr "Bupati resmikan jalan")
               (PyStr "https://www.detik.com/jatim/berita/d-1/bupati-resmikan-jalan")
               "detik.com" PyNone).
  assert (Hrun : scraper_detik sample_clock sample_network 20 5%nat
                 = (Ok [it], 5%nat)) by (vm_compute; reflexivity).
  exists [it], it. split; [exact Hrun|].
  split; [apply list_elem_of_here|].
  apply (X21_untimed_page_not_stored ascii_lower sample_clock sample_network
           20 5%nat 5%nat (scraper_detik sample_clock sample_network 20) [it] it
           "https://www.detik.com/jatim/berita/d-1/bupati-resmikan-jalan"
           page_untimed [] 7%nat).
  - apply list_elem_of_here.
  - exact Hrun.
  - apply list_elem_of_here.
  - reflexivity.
  - reflexivity.
  - reflexivity.
Defined.

Lemma X22_scraper_jombangkab_loses_batch_witness :
  exists t' : nat,
    (0 <= t')%nat /\
    scraper_jombangkab sample_clock network_pattern_text 20 0%nat
    = (Raise ValueError, t').
Proof.
  apply (X22_scraper_jombangkab_loses_batch sample_clock network_pattern_text
           20 0%nat (listing_of "/berita/daerah/pola-tanggal-1")
           page_pattern_text [] []
           "https://www.jombangkab.go.id/berita/daerah/pola-tanggal-1").
  - reflexivity.
  - vm_compute. reflexivity.
  - reflexivity.
  - vm_compute. discriminate.
Defined.

(** The summary decides the category and is not stored. *)
Lemma X23_save_articles_stored_row_witness :
  save_articles ascii_lower sample_clock [item_with_summary] [] 0%nat
  = (Ok (1, [mkArticle "Harga naik" "https://x/5" "s5" "2024-01-05T00:00:00"
               "2025-08-25T12:00:01" (PyStr "Hukum")]), 2%nat).
Proof.
  rewrite (X23_save_articles_stored_row ascii_lower sample_clock
             item_with_summary "Harga naik" "https://x/5" [] 0%nat).
  - vm_compute. reflexivity.
  - reflexivity.
  - reflexivity.
  - reflexivity.
  - unfold not_none. vm_compute. discriminate.
  - unfold not_none. vm_compute. discriminate.
Defined.

(** [jombang] and [jalan] occur twice each; [jombang] was met first. *)
Lemma X24_top_keywords_ties_witness :
  first_before
    (kept_tokens ascii_lower
       [SqliteRow "Bupati Jombang resmikan jalan";
        SqliteRow "Jalan baru di Jombang"])
    "jombang" "jalan".
Proof.
  apply (X24_top_keywords_ties ascii_lower
           [SqliteRow "Bupati Jombang resmikan jalan";
            SqliteRow "Jalan baru di Jombang"] 4%nat 0%nat 1%nat
           "jombang" "jalan" 2).
  - lia.
  - vm_compute. reflexivity.
  - vm_compute. reflexivity.
Defined.
